(** * Midwinter manual search: retrieval, relationship graph, orchestration

    A shallow embedding of the retrieval-and-orchestration core of the
    Midwinter manual search tools:

    - [src/mcp-midwinter-search/server.py]       (the MCP tool server),
    - [src/api/search_api_updated.py]            (the Flask API, job tracker),
    - [src/mcp-midwinter-search/build_relationships.py] (the relationship table).

    Text is modelled as [string] (a sequence of characters with codes
    0..255); SQLite tables as lists of records in rowid order; the Python
    dictionary of jobs as a [gmap]; exceptions as an error result.  The
    limits of the platform that turn an answer into an error are part of
    the model: the length limit of a [LIKE] pattern, the depth limit of an
    SQL expression, the 64-bit range of a bound integer and the digit limit
    of [int()]. *)

From Stdlib Require Import Ascii QArith Qcanon.
From stdpp Require Import base strings list gmap sorting pretty numbers.
Local Close Scope Q_scope.
Local Close Scope Qc_scope.
Local Open Scope Z_scope.

(** Errors raised while a function runs, with the text [str(e)] gives. *)
Inductive result (A : Type) :=
| Ok (a : A)
| Raise (msg : string).
Global Arguments Ok {A} a.
Global Arguments Raise {A} msg.

Global Instance result_ret : MRet result := λ A a, Ok a.

Global Instance result_bind : MBind result := λ A B k m,
  match m with
  | Ok a => k a
  | Raise e => Raise e
  end.

(** ** Python string operations *)

Module Py.

Definition nl : string := String "010"%char "".

(** [sep.join(l)] *)
Fixpoint join (sep : string) (l : list string) : string :=
  match l with
  | [] => ""
  | [x] => x
  | x :: l' => x +:+ sep +:+ join sep l'
  end.

(** [str.isspace] on a single character with code below 256. *)
Definition is_space (c : ascii) : bool :=
  let n := nat_of_ascii c in
  ((9 <=? n) && (n <=? 13) || (28 <=? n) && (n <=? 32)
   || (n =? 133) || (n =? 160))%nat.

(** [s.split()] : maximal runs of non-whitespace characters.  [cur] is
    the word being read, in reverse. *)
Fixpoint split_go (cur : list ascii) (s : string) : list string :=
  match s with
  | EmptyString =>
      match cur with
      | [] => []
      | _ => [String.string_of_list_ascii (rev cur)]
      end
  | String c s' =>
      if is_space c then
        match cur with
        | [] => split_go [] s'
        | _ => String.string_of_list_ascii (rev cur) :: split_go [] s'
        end
      else split_go (c :: cur) s'
  end.

Definition split (s : string) : list string := split_go [] s.

(** [s[:n]] *)
Fixpoint prefix (n : nat) (s : string) : string :=
  match n, s with
  | O, _ => ""
  | S _, EmptyString => ""
  | S n', String c s' => String c (prefix n' s')
  end.

(** [s[n:]] *)
Fixpoint drop (n : nat) (s : string) : string :=
  match n, s with
  | O, _ => s
  | S _, EmptyString => ""
  | S n', String _ s' => drop n' s'
  end.

Fixpoint lstrip (s : string) : string :=
  match s with
  | EmptyString => ""
  | String c s' => if is_space c then lstrip s' else s
  end.

Definition rev_string (s : string) : string :=
  String.string_of_list_ascii (rev (String.list_ascii_of_string s)).

(** [s.strip()] *)
Definition strip (s : string) : string :=
  rev_string (lstrip (rev_string (lstrip s))).

(** Truthiness of a string: [if s:] *)
Definition truthy (s : string) : bool :=
  match s with EmptyString => false | _ => true end.

(** ['{s}'] inside an f-string: the text between two apostrophes. *)
Definition quote (s : string) : string := "'" +:+ s +:+ "'".

(** [c in s] for a single character. *)
Fixpoint has (c : ascii) (s : string) : bool :=
  match s with
  | EmptyString => false
  | String d s' => Ascii.eqb c d || has c s'
  end.

Definition apostrophe : ascii := "'"%char.
Definition double_quote : ascii := "034"%char.
Definition backslash : ascii := "092"%char.

(** One hexadecimal digit, in lower case. *)
Definition hex_digit (n : nat) : ascii :=
  ascii_of_nat (if (n <? 10)%nat then 48 + n else 87 + n)%nat.

(** One character inside [repr(s)]: the quote in use and the backslash
    are escaped, tab, newline and return have their letters, and every
    other character that is not printable (control characters, DEL, the
    codes 128..160 and the soft hyphen 173) is written as [\xhh]. *)
Definition repr_char (q c : ascii) : string :=
  let n := nat_of_ascii c in
  if Ascii.eqb c q || Ascii.eqb c backslash then String backslash (String c "")
  else if (n =? 9)%nat then String backslash "t"
  else if (n =? 10)%nat then String backslash "n"
  else if (n =? 13)%nat then String backslash "r"
  else if (n <? 32)%nat || ((127 <=? n) && (n <=? 160))%nat || (n =? 173)%nat
  then String backslash
         (String "x" (String (hex_digit (n / 16)) (String (hex_digit (n mod 16)) "")))
  else String c "".

Fixpoint repr_body (q : ascii) (s : string) : string :=
  match s with
  | EmptyString => ""
  | String c s' => repr_char q c +:+ repr_body q s'
  end.

(** [repr(s)], which is what [str(KeyError(s))] prints: apostrophes
    around the text, or double quotes when the text holds an apostrophe
    and no double quote. *)
Definition repr (s : string) : string :=
  let q := if has apostrophe s && negb (has double_quote s)
           then double_quote else apostrophe in
  String q (repr_body q s +:+ String q "").

End Py.

(** ** SQLite text operators *)

Module Sql.

(** ASCII-only case folding, as SQLite's built-in [LIKE] does. *)
Definition fold (c : ascii) : ascii :=
  let n := nat_of_ascii c in
  if ((97 <=? n) && (n <=? 122))%nat then ascii_of_nat (n - 32) else c.

Definition same_char (c d : ascii) : bool := Ascii.eqb (fold c) (fold d).

(** SQLite's text functions read their operands as C strings: the text
    up to its first NUL character. *)
Fixpoint c_str (s : string) : string :=
  match s with
  | EmptyString => ""
  | String c s' => if Ascii.eqb c "000"%char then "" else String c (c_str s')
  end.

(** The pattern matcher of [LIKE] with no escape character: [%] matches
    any run of characters, [_] any single character, every other character
    matches itself up to ASCII case. *)
Fixpoint like_match (p : string) (s : string) : bool :=
  match p with
  | EmptyString => match s with EmptyString => true | _ => false end
  | String c p' =>
      if Ascii.eqb c "%"%char then
        (fix star (s : string) : bool :=
           like_match p' s ||
           match s with
           | EmptyString => false
           | String _ s' => star s'
           end) s
      else
        match s with
        | EmptyString => false
        | String d s' =>
            (if Ascii.eqb c "_"%char then true else same_char c d)
            && like_match p' s'
        end
  end.

(** [s LIKE p], for a pattern within the length limit: pattern and text
    are both cut at their first NUL. *)
Definition like (p : string) (s : string) : bool :=
  like_match (c_str p) (c_str s).

(** The pattern built by [f"%{word}%"]. *)
Definition contains_pat (word : string) : string := "%" +:+ word +:+ "%".

(** A nullable column compared with [LIKE]: NULL never matches. *)
Definition like_null (p : string) (s : option string) : bool :=
  match s with Some s => like p s | None => false end.

(** [substr(s, 1, n)]: a text function, so it sees the C string. *)
Definition substr1 (n : nat) (s : string) : string := Py.prefix n (c_str s).

(** The length in bytes of the text as SQLite stores it (UTF-8): one byte
    for a code below 128, two from 128 on. *)
Fixpoint utf8_length (s : string) : Z :=
  match s with
  | EmptyString => 0
  | String c s' =>
      (if (nat_of_ascii c <? 128)%nat then 1 else 2) + utf8_length s'
  end.

(** [SQLITE_MAX_LIKE_PATTERN_LENGTH]: applying [LIKE] with a pattern of
    more than 50000 bytes raises, whatever the text (also on NULL). *)
Definition too_complex (p : string) : bool := 50000 <? utf8_length p.

Definition pattern_error : string := "LIKE or GLOB pattern too complex".

(** [SQLITE_MAX_EXPR_DEPTH]: a statement whose expression tree is deeper
    than 1000 is refused when it is prepared, before any table is looked
    up. *)
Definition too_deep (depth : Z) : bool := 1000 <? depth.

Definition depth_error : string :=
  "Expression tree is too large (maximum depth 1000)".

(** One application of [LIKE] while a statement runs. *)
Definition like_run (p : string) (s : option string) : result bool :=
  if too_complex p then Raise pattern_error else Ok (like_null p s).

(** A scan: the condition is evaluated row by row, in order, the first
    exception ends the statement, and the rows that satisfy it are
    returned in scan order. *)
Fixpoint scan {A} (cond : A → result bool) (rows : list A) : result (list A) :=
  match rows with
  | [] => Ok []
  | r :: rows' =>
      match cond r with
      | Raise e => Raise e
      | Ok b =>
          match scan cond rows' with
          | Raise e => Raise e
          | Ok kept => Ok (if b then r :: kept else kept)
          end
      end
  end.

(** [INTEGER]: a Python integer is bound as a signed 64-bit value; outside
    that range [execute] raises [OverflowError]. *)
Definition int64 (n : Z) : bool :=
  (-9223372036854775808 <=? n) && (n <=? 9223372036854775807).

Definition bind_error : string :=
  "Python int too large to convert to SQLite INTEGER".

(** [ORDER BY]: the sorter keeps rows with equal keys in the order in
    which the scan produced them. *)
Fixpoint insert_by {A} (R : relation A) `{∀ x y, Decision (R x y)}
    (x : A) (l : list A) : list A :=
  match l with
  | [] => [x]
  | y :: l' => if decide (R x y) then x :: y :: l' else y :: insert_by R x l'
  end.

Definition order_by {A} (R : relation A) `{∀ x y, Decision (R x y)}
    (l : list A) : list A :=
  foldr (insert_by R) [] l.

End Sql.

(** ** Case-insensitive substrings (the reading of "substring match") *)

Module Sub.

(** [p] is a prefix of [s] up to ASCII case. *)
Fixpoint ci_prefix (p s : string) : bool :=
  match p, s with
  | EmptyString, _ => true
  | String _ _, EmptyString => false
  | String c p', String d s' => Sql.same_char c d && ci_prefix p' s'
  end.

(** [w] occurs in [s] up to ASCII case. *)
Fixpoint ci_substring (w s : string) : bool :=
  ci_prefix w s ||
  match s with
  | EmptyString => false
  | String _ s' => ci_substring w s'
  end.

(** No character of [w] is special in a [LIKE] pattern: neither a
    wildcard ([%], [_]) nor the NUL character that ends the pattern. *)
Fixpoint plain (w : string) : bool :=
  match w with
  | EmptyString => true
  | String c w' =>
      negb (Ascii.eqb c "%"%char) && negb (Ascii.eqb c "_"%char)
      && negb (Ascii.eqb c "000"%char) && plain w'
  end.

End Sub.

(** ** Data model: the tables of [midwinter_unified.db] *)

Inductive Sentiment := positive | negative.

Global Instance Sentiment_eq_dec : EqDecision Sentiment.
Proof. solve_decision. Defined.

(** One row of [character_relationships]. *)
Record Edge := mkEdge {
  from_character : string;
  to_character : string;
  relationship_type : string;
  sentiment : Sentiment
}.

(** One row of [manual_pages]. *)
Record Page := mkPage {
  page_number : Z;
  section_type : string;
  content : string
}.

(** One row of [characters]; nullable columns are options. *)
Record Character := mkCharacter {
  full_name : string;
  title : option string;
  age : option Z;
  occupation : option string;
  biography : option string;
  search_text : option string
}.

Record Building := mkBuilding {
  building_type : string;
  b_description : option string;
  gameplay_function : option string
}.

Record Vehicle := mkVehicle {
  vehicle_type : string;
  v_role : option string;
  v_description : option string
}.

Record Skill := mkSkill { skill_name : string }.

(** One row produced by [manual_fts MATCH ?]: the page, its [bm25] rank
    (lower is better; a finite floating-point number, kept as the rational
    it denotes) and the [snippet(...)] text for a given token budget. *)
Record FtsHit := mkFtsHit {
  hit_page : Z;
  hit_section : string;
  hit_snippet : nat → string;
  hit_rank : Qc
}.

(** The database file.  A table is the list of its rows in rowid order, the
    order in which a scan without [ORDER BY] returns them.  The full-text
    index is the SQLite FTS5 engine: for a query string it either raises
    (malformed [MATCH] expression, missing index) or gives the matching
    rows in index order. *)
Record Database := mkDatabase {
  characters : list Character;
  buildings : list Building;
  enemy_vehicles : list Vehicle;
  skills : list Skill;
  character_relationships : list Edge;
  manual_pages : list Page;
  manual_fts : string → result (list FtsHit)
}.

(** A result row of the page searches: page, section tag, snippet. *)
Record Row := mkRow {
  r_page : Z;
  r_section : string;
  r_snippet : string
}.

(** Python truthiness of a nullable integer column. *)
Definition truthy_int (n : option Z) : bool :=
  match n with Some n => negb (n =? 0) | None => false end.

(** The two lines every page search prints per row. *)
Definition row_lines (r : Row) : list string :=
  [ "**Page " +:+ pretty (r_page r) +:+ "** [" +:+ r_section r +:+ "]";
    "  " +:+ r_snippet r +:+ Py.nl ].

Definition hit_row (tokens : nat) (h : FtsHit) : Row :=
  mkRow (hit_page h) (hit_section h) (hit_snippet h tokens).

(** [ORDER BY rank]: the rows sorted by ascending [bm25] value. *)
Definition by_rank (h1 h2 : FtsHit) : Prop := Qcle (hit_rank h1) (hit_rank h2).

Global Instance by_rank_dec : RelDecision by_rank.
Proof. intros h1 h2. unfold by_rank. apply _. Defined.

Definition order_by_rank (hits : list FtsHit) : list FtsHit :=
  Sql.order_by by_rank hits.

(** [ORDER BY page_number] *)
Definition by_page (p1 p2 : Page) : Prop := page_number p1 ≤ page_number p2.

Global Instance by_page_dec : RelDecision by_page.
Proof. intros p1 p2. unfold by_page. apply _. Defined.

Definition order_by_page (ps : list Page) : list Page :=
  Sql.order_by by_page ps.

(** ** The relationship table ([build_relationships.py]) *)

Module Relationships.

Definition E (f t r : string) (s : Sentiment) : Edge := mkEdge f t r s.

Definition RELATIONSHIPS : list Edge := [
  E "Captain John Stark" "Lieutenant Howard Courtenay" "friend" positive;
  E "Captain John Stark" "Karl Rudzinski" "friend" positive;
  E "Captain John Stark" "Nurse Sarah Maddocks" "lover" positive;
  E "Constable Harvey Pringle" "Constable Gordon Macleod" "regards_as_friend" positive;
  E "Constable Harvey Pringle" "Constable Fergus Flynn" "regards_as_friend" positive;
  E "Constable Harvey Pringle" "Jean-Luc Chabrun" "blames" negative;
  E "Constable Gordon Macleod" "Franco Grazzini" "dislikes" negative;
  E "Franco Grazzini" "Constable Gordon Macleod" "dislikes" negative;
  E "Sergeant George Tasker" "Constable Gordon Macleod" "respects" positive;
  E "Captain John Stark" "Constable Gordon Macleod" "respects" positive;
  E "Karl Rudzinski" "Virginia Caygill" "engaged" positive;
  E "Karl Rudzinski" "Jeremiah Gunn" "dislikes" negative;
  E "Karl Rudzinski" "Franco Grazzini" "dislikes" negative;
  E "Karl Rudzinski" "Captain John Stark" "mentor" positive;
  E "Franco Grazzini" "Virginia Caygill" "in_love" positive;
  E "Franco Grazzini" "Karl Rudzinski" "hates" negative;
  E "Franco Grazzini" "Nurse Sarah Maddocks" "admires" positive;
  E "Jean-Luc Chabrun" "Constable Fergus Flynn" "friend" positive;
  E "Jean-Luc Chabrun" "Constable Gordon Macleod" "friend" positive;
  E "Sergeant Victor Grice" "Jean-Luc Chabrun" "hates" negative;
  E "Constable Harvey Pringle" "Jean-Luc Chabrun" "hates" negative;
  E "Constable Bill Doughty" "Jean-Luc Chabrun" "hates" negative;
  E "Sergeant George Tasker" "Doctor Pierre Revel" "unforgiven" negative;
  E "Sergeant George Tasker" "Jeremiah Gunn" "disapproves" negative;
  E "Sergeant George Tasker" "Lieutenant Charles Ambler" "disapproves" negative;
  E "Lieutenant Barnaby Gaunt" "Sergeant Tom Llewellyn" "dislikes" negative;
  E "Gregory Flint" "Sergeant Tom Llewellyn" "grudge" negative;
  E "Sergeant Victor Grice" "Captain John Stark" "resents" negative;
  E "Sergeant Victor Grice" "Lieutenant Barnaby Gaunt" "resents" negative;
  E "Sergeant Victor Grice" "Lieutenant Howard Courtenay" "respects" positive;
  E "Doctor Pierre Revel" "Lieutenant Howard Courtenay" "friend" positive;
  E "Konrad Rudel" "Davy Hart" "friend" positive;
  E "Virginia Caygill" "Karl Rudzinski" "engaged" positive;
  E "Virginia Caygill" "Doctor Pierre Revel" "despises" negative;
  E "Virginia Caygill" "Davy Hart" "teacher" positive;
  E "Virginia Caygill" "Jenny Adams" "teacher" positive;
  E "Professor Olaf Kristiansen" "Captain John Stark" "dislikes" negative;
  E "Professor Olaf Kristiansen" "Lieutenant Howard Courtenay" "dislikes" negative;
  E "Professor Olaf Kristiansen" "Gregory Flint" "friend" positive;
  E "Professor Olaf Kristiansen" "Davy Hart" "grandparent" positive;
  E "Jeremiah Gunn" "Franco Grazzini" "friend" positive;
  E "Jeremiah Gunn" "Nurse Sarah Maddocks" "friend" positive;
  E "Constable Federico Garcia" "Constable Kurt Muller" "friend" positive;
  E "Constable Homer Wright" "Constable Kurt Muller" "friend" positive;
  E "Constable Homer Wright" "Constable Oliver Jessop" "friend" positive;
  E "Constable Homer Wright" "Constable Shigeru Iwamoto" "friend" positive;
  E "Constable Luke Jackson" "Constable Homer Wright" "loathes" negative;
  E "Constable Shigeru Iwamoto" "Constable Homer Wright" "friend" positive;
  E "Constable Bill Doughty" "Constable Kurt Muller" "friend" positive;
  E "Constable Bill Doughty" "Constable Federico Garcia" "friend" positive;
  E "Lieutenant Howard Courtenay" "Constable Bill Doughty" "dislikes" negative;
  E "Lieutenant Howard Courtenay" "Captain John Stark" "friend" positive;
  E "Lieutenant Howard Courtenay" "Virginia Caygill" "family" positive;
  E "Lieutenant Howard Courtenay" "Doctor Pierre Revel" "friend" positive;
  E "Davy Hart" "Professor Olaf Kristiansen" "grandchild" positive;
  E "Davy Hart" "Konrad Rudel" "hero" positive;
  E "Davy Hart" "Jenny Adams" "boyfriend" positive;
  E "Davy Hart" "Virginia Caygill" "crush" positive;
  E "Jenny Adams" "Nurse Sarah Maddocks" "admires" positive;
  E "Jenny Adams" "Davy Hart" "boyfriend" positive;
  E "Constable Bob Hammond" "Constable Harry Cropper" "friend" positive;
  E "Constable Oliver Jessop" "Constable Fergus Flynn" "dislikes" negative;
  E "Constable Oliver Jessop" "Constable Gordon Macleod" "dislikes" negative;
  E "Constable Oliver Jessop" "Constable Homer Wright" "friend" positive;
  E "Constable Oliver Jessop" "Constable Shigeru Iwamoto" "friend" positive;
  E "Lieutenant Barnaby Gaunt" "Captain John Stark" "respects" positive;
  E "Lieutenant Barnaby Gaunt" "Sergeant George Tasker" "respects" positive;
  E "Lieutenant Barnaby Gaunt" "Sergeant Tom Llewellyn" "scornful" negative;
  E "Lieutenant Barnaby Gaunt" "Lieutenant Charles Ambler" "scornful" negative;
  E "Lieutenant Barnaby Gaunt" "Constable Fergus Flynn" "scornful" negative;
  E "Lieutenant Barnaby Gaunt" "Constable Harry Cropper" "scornful" negative;
  E "Nurse Sarah Maddocks" "Captain John Stark" "lover" positive;
  E "Nurse Sarah Maddocks" "Franco Grazzini" "fond" positive;
  E "Nurse Sarah Maddocks" "Doctor Pierre Revel" "dislikes" negative;
  E "Constable Kurt Muller" "Constable Federico Garcia" "friend" positive;
  E "Constable Kurt Muller" "Constable Bill Doughty" "friend" positive;
  E "Constable Kurt Muller" "Constable Homer Wright" "friend" positive;
  E "Constable Kurt Muller" "Constable Shigeru Iwamoto" "dislikes" negative;
  E "Constable Luke Jackson" "Captain John Stark" "hates" negative;
  E "Constable Luke Jackson" "Constable Federico Garcia" "friend" positive;
  E "Constable Luke Jackson" "Gregory Flint" "friend" positive;
  E "Gregory Flint" "Captain John Stark" "blames" negative;
  E "Gregory Flint" "Lieutenant Barnaby Gaunt" "blames" negative;
  E "Gregory Flint" "Sergeant Tom Llewellyn" "blames" negative;
  E "Gregory Flint" "Professor Olaf Kristiansen" "friend" positive;
  E "Gregory Flint" "Constable Luke Jackson" "friend" positive;
  E "Gregory Flint" "Constable Fergus Flynn" "friend" positive;
  E "Lieutenant Charles Ambler" "Karl Rudzinski" "friend" positive;
  E "Lieutenant Charles Ambler" "Constable Harry Cropper" "friend" positive;
  E "Lieutenant Charles Ambler" "Lieutenant Barnaby Gaunt" "dislikes" negative
].

(** The [UNIQUE(from_character, to_character, relationship_type)] key. *)
Definition same_key (e1 e2 : Edge) : bool :=
  bool_decide (from_character e1 = from_character e2
               ∧ to_character e1 = to_character e2
               ∧ relationship_type e1 = relationship_type e2).

(** [INSERT OR IGNORE]: a row whose key is already present is dropped. *)
Definition insert_or_ignore (table : list Edge) (e : Edge) : list Edge :=
  if existsb (same_key e) table then table else table ++ [e].

(** [build_relationship_database]: the table is dropped, created empty,
    and filled from [RELATIONSHIPS] in order. *)
Definition build_relationship_database (db : Database) : Database :=
  mkDatabase (characters db) (buildings db) (enemy_vehicles db) (skills db)
    (foldl insert_or_ignore [] RELATIONSHIPS)
    (manual_pages db) (manual_fts db).

End Relationships.

(** ** Tool inputs and the reasoning-service conversation *)

(** A tool input is a JSON object.  The model keeps its text-valued
    fields and its integer-valued fields in two maps; an input whose
    fields have the types the tool schemas declare ([Spec.well_typed])
    holds [page_number] among the integers only and every other field
    among the texts only.  The lookups below read a field at its declared
    type: on well-typed inputs they are the untyped lookups of the code,
    and the theorems about them assume such inputs. *)
Record ToolInput := mkToolInput {
  text_fields : gmap string string;
  int_fields : gmap string Z
}.

Definition no_input : ToolInput := mkToolInput ∅ ∅.

(** [input_data[key]] : a missing key raises [KeyError(key)]. *)
Definition get_text (input : ToolInput) (key : string) : result string :=
  match text_fields input !! key with
  | Some v => Ok v
  | None => Raise (Py.repr key)
  end.

Definition get_int (input : ToolInput) (key : string) : result Z :=
  match int_fields input !! key with
  | Some v => Ok v
  | None => Raise (Py.repr key)
  end.

Inductive StopReason := end_turn | tool_use | max_tokens_reached | stop_sequence.

Global Instance StopReason_eq_dec : EqDecision StopReason.
Proof. solve_decision. Defined.

(** A content block of a service response. *)
Inductive Block :=
| TextBlock (text : string)
| ToolUseBlock (id name : string) (input : ToolInput).

Record Response := mkResponse {
  stop_reason : StopReason;
  resp_content : list Block
}.

Record ToolResult := mkToolResult {
  tool_use_id : string;
  tool_result_content : string
}.

Inductive Role := user | assistant.

Inductive MessageContent :=
| Text (s : string)
| Blocks (bs : list Block)
| ToolResults (rs : list ToolResult) (instruction : option string).

Record Message := mkMessage {
  role : Role;
  message_content : MessageContent
}.

(** One call of [client.messages.create]: [tools] tells whether the tool
    table is passed along. *)
Record Request := mkRequest {
  model : string;
  max_tokens : nat;
  tools : bool;
  messages : list Message
}.

(** The reasoning service: answers a request or raises. *)
Definition Client := Request → result Response.

(** ** The MCP tool server ([server.py]) *)

Module Server.

(** Every query function opens the database first; [conn] is what
    [get_db_connection()] gives: the database, or the exception raised
    when the file is missing.  An exception anywhere in a function body
    is caught and printed as ["Error: ..."]. *)

(** [f"Error: {str(e)}"] *)
Definition error_text (msg : string) : string := "Error: " +:+ msg.

Definition bio_text (limit : nat) (bio : string) : string :=
  if (limit <? String.length bio)%nat
  then Py.prefix limit bio +:+ "..." else bio.

Definition opt_line (label : string) (v : option string) : list string :=
  match v with
  | Some s => if Py.truthy s then [label +:+ s] else []
  | None => []
  end.

Definition character_block (bio_limit : nat) (c : Character) : list string :=
  [Py.nl +:+ "**" +:+ full_name c +:+ "**"]
  ++ opt_line "  Title: " (title c)
  ++ (if truthy_int (age c)
      then ["  Age: " +:+ pretty (default 0 (age c))] else [])
  ++ opt_line "  Occupation: " (occupation c)
  ++ opt_line "  Bio: " (bio_text bio_limit <$> biography c).

Definition building_block (b : Building) : list string :=
  [Py.nl +:+ "**" +:+ building_type b +:+ "**"]
  ++ opt_line "  " (b_description b)
  ++ opt_line "  Function: " (gameplay_function b).

Definition vehicle_block (v : Vehicle) : list string :=
  [Py.nl +:+ "**" +:+ vehicle_type v +:+ "**"]
  ++ opt_line "  Role: " (v_role v)
  ++ opt_line "  " (v_description v).

(** [name LIKE ? OR text LIKE ?] on one row, the same pattern bound
    twice: the second test runs when the first does not match. *)
Definition like_or (pat : string) (name : string) (text : option string)
    : result bool :=
  matched ← Sql.like_run pat (Some name);
  if (matched : bool) then mret true else Sql.like_run pat text.

(** The three [SELECT ... LIMIT 10] statements of [quick_search_query].
    The pattern is the same for every row, so a scan that stops at the
    tenth match raises exactly when the whole scan does. *)
Definition select_characters (db : Database) (query : string)
    : result (list Character) :=
  rows ← Sql.scan (λ c, like_or (Sql.contains_pat query) (full_name c)
                          (search_text c)) (characters db);
  mret (take 10 rows).

Definition select_buildings (db : Database) (query : string)
    : result (list Building) :=
  rows ← Sql.scan (λ b, like_or (Sql.contains_pat query) (building_type b)
                          (b_description b)) (buildings db);
  mret (take 10 rows).

Definition select_vehicles (db : Database) (query : string)
    : result (list Vehicle) :=
  rows ← Sql.scan (λ v, like_or (Sql.contains_pat query) (vehicle_type v)
                          (v_description v)) (enemy_vehicles db);
  mret (take 10 rows).

Definition block {A} (header : string) (fmt : A → list string)
    (rows : list A) : list string :=
  match rows with
  | [] => []
  | _ => header :: concat (fmt <$> rows)
  end.

(** [quick_search_query(query)]: characters, buildings, enemy vehicles. *)
Definition quick_search_query (conn : result Database) (query : string) : string :=
  match conn with
  | Raise msg => error_text msg
  | Ok db =>
      match (chars ← select_characters db query;
             builds ← select_buildings db query;
             vehicles ← select_vehicles db query;
             mret (block "=== CHARACTERS ===" (character_block 300) chars
                   ++ block (Py.nl +:+ "=== BUILDINGS ===") building_block builds
                   ++ block (Py.nl +:+ "=== ENEMY VEHICLES ===") vehicle_block
                        vehicles)) with
      | Raise msg => error_text msg
      | Ok [] => "No entities found matching " +:+ Py.quote query
      | Ok results => Py.join Py.nl results
      end
  end.

(** [search_manual_query(query)]: the index only, no fallback. *)
Definition search_manual_query (conn : result Database) (query : string) : string :=
  match conn with
  | Raise msg => error_text msg
  | Ok db =>
      match manual_fts db query with
      | Raise msg => error_text msg
      | Ok hits =>
          let results := hit_row 64 <$> take 15 (order_by_rank hits) in
          match results with
          | [] => "No results found for " +:+ Py.quote query
          | _ =>
              Py.join Py.nl
                (("Found " +:+ pretty (length results) +:+ " results for "
                  +:+ Py.quote query +:+ ":" +:+ Py.nl)
                 :: concat (row_lines <$> results))
          end
      end
  end.

(** [section_map.get(section, section)] *)
Definition section_map (section : string) : string :=
  if decide (section = "characters") then "character"
  else if decide (section = "equipment") then "equipment"
  else if decide (section = "locations") then "location"
  else if decide (section = "story_sections") then "story"
  else if decide (section = "general_content") then "general"
  else section.

(** [filter_by_section_query(section, query)]: no [ORDER BY], the section
    tag of every hit compared with [LIKE] (one pattern for all hits, so
    stopping at the fifteenth match changes nothing). *)
Definition filter_by_section_query (conn : result Database)
    (section query : string) : string :=
  match conn with
  | Raise msg => error_text msg
  | Ok db =>
      let section_type := section_map section in
      match (hits ← manual_fts db query;
             Sql.scan (λ h, Sql.like_run (Sql.contains_pat section_type)
                              (Some (hit_section h))) hits) with
      | Raise msg => error_text msg
      | Ok kept =>
          let results := hit_row 64 <$> take 15 kept in
          match results with
          | [] => "No results found for " +:+ Py.quote query
                  +:+ " in section " +:+ Py.quote section
          | _ =>
              Py.join Py.nl
                (("Found " +:+ pretty (length results) +:+ " results in "
                  +:+ Py.quote section +:+ ":" +:+ Py.nl)
                 :: concat (row_lines <$> results))
          end
      end
  end.

(** [fetchone()] of [SELECT ... WHERE page_number = ?] *)
Definition fetch_page (db : Database) (n : Z) : option Page :=
  head (filter (λ p, page_number p = n) (manual_pages db)).

Definition page_text (p : Page) : string :=
  "=== Page " +:+ pretty (page_number p) +:+ " [" +:+ section_type p
  +:+ "] ===" +:+ Py.nl +:+ Py.nl +:+ content p.

(** [show_page_query(page_number)]: binding the number comes first. *)
Definition show_page_query (conn : result Database) (page_number : Z) : string :=
  match conn with
  | Raise msg => error_text msg
  | Ok db =>
      if negb (Sql.int64 page_number) then error_text Sql.bind_error
      else
        match fetch_page db page_number with
        | None => "Page " +:+ pretty page_number +:+ " not found"
        | Some row => page_text row
        end
  end.

(** One group of [GROUP BY section_type]. *)
Record SectionRow := mkSectionRow {
  sec_name : string;
  sec_count : nat;
  first_page : Z;
  last_page : Z
}.

Definition group_of (pages : list Page) (s : string) : SectionRow :=
  let ns := page_number <$> filter (λ p, section_type p = s) pages in
  mkSectionRow s (length ns)
    (foldr Z.min (default 0 (head ns)) ns)
    (foldr Z.max (default 0 (head ns)) ns).

Definition by_first_page (g1 g2 : SectionRow) : Prop :=
  first_page g1 ≤ first_page g2.

Global Instance by_first_page_dec : RelDecision by_first_page.
Proof. intros g1 g2. unfold by_first_page. apply _. Defined.

Definition select_sections (db : Database) : list SectionRow :=
  merge_sort by_first_page
    (group_of (manual_pages db)
       <$> remove_dups (section_type <$> manual_pages db)).

(** [list_sections_query()] *)
Definition list_sections_query (conn : result Database) : string :=
  match conn with
  | Raise msg => error_text msg
  | Ok db =>
      let results := select_sections db in
      let total := foldl (λ t r, t + sec_count r)%nat 0%nat results in
      Py.join Py.nl
        (["=== MANUAL SECTIONS ===" +:+ Py.nl]
         ++ ((λ r, "**" +:+ sec_name r +:+ "**: " +:+ pretty (sec_count r)
                   +:+ " pages (pp. " +:+ pretty (first_page r) +:+ "-"
                   +:+ pretty (last_page r) +:+ ")") <$> results)
         ++ [Py.nl +:+ "**Total: " +:+ pretty total +:+ " pages**"])
  end.

(** [ORDER BY <name column>] under SQLite's default binary collation. *)
Definition by_name (a b : string) : Prop := String.leb a b.

Global Instance by_name_dec : RelDecision by_name.
Proof. intros a b. unfold by_name. apply _. Defined.

(** [list_entities_query()] *)
Definition list_entities_query (conn : result Database) : string :=
  match conn with
  | Raise msg => error_text msg
  | Ok db =>
      let chars := merge_sort by_name (full_name <$> characters db) in
      let builds := merge_sort by_name (building_type <$> buildings db) in
      let vehicles := merge_sort by_name (vehicle_type <$> enemy_vehicles db) in
      let skill_names := merge_sort by_name (skill_name <$> skills db) in
      Py.join Py.nl
        ([ "=== CHARACTERS (" +:+ pretty (length chars) +:+ ") ===";
           Py.join ", " chars;
           Py.nl +:+ "=== BUILDINGS (" +:+ pretty (length builds) +:+ ") ===";
           Py.join ", " builds;
           Py.nl +:+ "=== ENEMY VEHICLES (" +:+ pretty (length vehicles) +:+ ") ===";
           Py.join ", " vehicles ]
         ++ match skill_names with
            | [] => []
            | _ => [ Py.nl +:+ "=== SKILLS (" +:+ pretty (length skill_names)
                     +:+ ") ===";
                     Py.join ", " skill_names ]
            end)
  end.

(** [SELECT full_name FROM characters WHERE full_name LIKE ?] followed by
    [fetchone()]: the first matching row of the scan, which raises on its
    first row when the pattern is too long.  The scan is taken in table
    order; the schema of [characters] is not part of the sources, and an
    index on [full_name] would make the scan follow that index. *)
Definition select_character (db : Database) (name : string)
    : result (option string) :=
  rows ← Sql.scan (λ c, Sql.like_run (Sql.contains_pat name) (Some (full_name c)))
            (characters db);
  mret (full_name <$> head rows).

(** The character a name resolves to: the row the lookup returns, when
    it returns one. *)
Definition find_character (db : Database) (name : string) : option string :=
  match select_character db name with
  | Ok row => row
  | Raise _ => None
  end.

(** [SELECT ... WHERE from_character = ? AND to_character = ? AND sentiment = ?] *)
Definition edges_between (db : Database) (src dst : string) (s : Sentiment)
    : list Edge :=
  filter (λ e, from_character e = src ∧ to_character e = dst ∧ sentiment e = s)
    (character_relationships db).

(** [SELECT ... WHERE from_character = ? AND sentiment = ?] *)
Definition edges_from (db : Database) (src : string) (s : Sentiment) : list Edge :=
  filter (λ e, from_character e = src ∧ sentiment e = s)
    (character_relationships db).

(** [SELECT ... WHERE to_character = ? AND sentiment = ?] *)
Definition edges_to (db : Database) (dst : string) (s : Sentiment) : list Edge :=
  filter (λ e, to_character e = dst ∧ sentiment e = s)
    (character_relationships db).

Definition not_found (name : string) : string :=
  "Character " +:+ Py.quote name +:+ " not found".

Definition can_recruit_header (recruiter_match target_match : string) : string :=
  "=== Can " +:+ recruiter_match +:+ " recruit " +:+ target_match
  +:+ "? ===" +:+ Py.nl.

(** [can_recruit_query(recruiter, target)]: both names are looked up
    before either result is tested. *)
Definition can_recruit_query (conn : result Database)
    (recruiter target : string) : string :=
  match conn with
  | Raise msg => error_text msg
  | Ok db =>
      match (recruiter_row ← select_character db recruiter;
             target_row ← select_character db target;
             mret (recruiter_row, target_row)) with
      | Raise msg => error_text msg
      | Ok (recruiter_row, target_row) =>
      let recruiter_match := default "" recruiter_row in
      let target_match := default "" target_row in
      if negb (Py.truthy recruiter_match) then not_found recruiter
      else if negb (Py.truthy target_match) then not_found target
      else
        let positive_rows := edges_between db recruiter_match target_match positive in
        let blocked := edges_between db target_match recruiter_match negative in
        let header := can_recruit_header recruiter_match target_match in
        match blocked, positive_rows with
        | _ :: _, _ =>
            Py.join Py.nl
              [ header;
                "NO - " +:+ target_match +:+ " "
                +:+ Py.join ", " (relationship_type <$> blocked)
                +:+ " " +:+ recruiter_match ]
        | [], _ :: _ =>
            Py.join Py.nl
              [ header;
                "YES - " +:+ recruiter_match +:+ " is "
                +:+ Py.join ", " (relationship_type <$> positive_rows)
                +:+ " with " +:+ target_match ]
        | [], [] =>
            Py.join Py.nl
              [ header;
                "UNKNOWN - No direct relationship found";
                "(They are not friends, but also not enemies)" ]
        end
      end
  end.

Definition to_line (e : Edge) : string :=
  "  - " +:+ to_character e +:+ " (" +:+ relationship_type e +:+ ")".

Definition from_line (e : Edge) : string :=
  "  - " +:+ from_character e +:+ " (" +:+ relationship_type e +:+ ")".

(** [who_can_recruit_query(target)] *)
Definition who_can_recruit_query (conn : result Database) (target : string)
    : string :=
  match conn with
  | Raise msg => error_text msg
  | Ok db =>
      match select_character db target with
      | Raise msg => error_text msg
      | Ok None => not_found target
      | Ok (Some target_match) =>
          let can_recruit := edges_from db target_match positive in
          let cannot_recruit := edges_from db target_match negative in
          Py.join Py.nl
            (["=== Who can recruit " +:+ target_match +:+ "? ===" +:+ Py.nl]
             ++ match can_recruit with
                | [] => ["CAN RECRUIT: No specific friends listed"]
                | _ => "CAN RECRUIT:" :: (to_line <$> can_recruit)
                end
             ++ match cannot_recruit with
                | [] => [Py.nl +:+ "CANNOT RECRUIT: No enemies listed"]
                | _ => (Py.nl +:+ "CANNOT RECRUIT:") :: (to_line <$> cannot_recruit)
                end)
      end
  end.

(** The common shape of [get_enemies_query] and [get_friends_query]. *)
Definition two_lists (title out_header in_header none : string)
    (outgoing incoming : list Edge) : string :=
  Py.join Py.nl
    ([title]
     ++ match outgoing with
        | [] => []
        | _ => out_header :: (to_line <$> outgoing)
        end
     ++ match incoming with
        | [] => []
        | _ => (Py.nl +:+ in_header) :: (from_line <$> incoming)
        end
     ++ match outgoing, incoming with
        | [], [] => [none]
        | _, _ => []
        end).

Definition get_enemies_query (conn : result Database) (character : string)
    : string :=
  match conn with
  | Raise msg => error_text msg
  | Ok db =>
      match select_character db character with
      | Raise msg => error_text msg
      | Ok None => not_found character
      | Ok (Some char_match) =>
          two_lists ("=== Enemies of " +:+ char_match +:+ " ===" +:+ Py.nl)
            (char_match +:+ " DISLIKES:") "DISLIKED BY:" "No enemies found!"
            (edges_from db char_match negative)
            (edges_to db char_match negative)
      end
  end.

Definition get_friends_query (conn : result Database) (character : string)
    : string :=
  match conn with
  | Raise msg => error_text msg
  | Ok db =>
      match select_character db character with
      | Raise msg => error_text msg
      | Ok None => not_found character
      | Ok (Some char_match) =>
          two_lists ("=== Friends of " +:+ char_match +:+ " ===" +:+ Py.nl)
            (char_match +:+ " LIKES:") "LIKED BY:" "No friends found!"
            (edges_from db char_match positive)
            (edges_to db char_match positive)
      end
  end.

Record TextContent := mkTextContent { text : string }.

(** [arguments.get(key, default)] *)
Definition arg_text (arguments : ToolInput) (key : string) : string :=
  default "" (text_fields arguments !! key).

Definition arg_int (arguments : ToolInput) (key : string) : Z :=
  default 0 (int_fields arguments !! key).

(** [call_tool(name, arguments)] *)
Definition call_tool (conn : result Database) (name : string)
    (arguments : ToolInput) : list TextContent :=
  if decide (name = "quick_search") then
    [mkTextContent (quick_search_query conn (arg_text arguments "query"))]
  else if decide (name = "search_manual") then
    [mkTextContent (search_manual_query conn (arg_text arguments "query"))]
  else if decide (name = "filter_by_section") then
    [mkTextContent (filter_by_section_query conn
                      (arg_text arguments "section")
                      (arg_text arguments "query"))]
  else if decide (name = "show_page") then
    [mkTextContent (show_page_query conn (arg_int arguments "page_number"))]
  else if decide (name = "list_sections") then
    [mkTextContent (list_sections_query conn)]
  else if decide (name = "list_entities") then
    [mkTextContent (list_entities_query conn)]
  else if decide (name = "can_recruit") then
    [mkTextContent (can_recruit_query conn
                      (arg_text arguments "recruiter")
                      (arg_text arguments "target"))]
  else if decide (name = "who_can_recruit") then
    [mkTextContent (who_can_recruit_query conn (arg_text arguments "target"))]
  else if decide (name = "get_enemies") then
    [mkTextContent (get_enemies_query conn (arg_text arguments "character"))]
  else if decide (name = "get_friends") then
    [mkTextContent (get_friends_query conn (arg_text arguments "character"))]
  else [mkTextContent ("Unknown tool: " +:+ name)].

(** The [required] list of each tool's [inputSchema] in [list_tools]. *)
Definition required (name : string) : list string :=
  if decide (name = "quick_search") then ["query"]
  else if decide (name = "search_manual") then ["query"]
  else if decide (name = "filter_by_section") then ["section"; "query"]
  else if decide (name = "show_page") then ["page_number"]
  else if decide (name = "can_recruit") then ["recruiter"; "target"]
  else if decide (name = "who_can_recruit") then ["target"]
  else if decide (name = "get_enemies") then ["character"]
  else if decide (name = "get_friends") then ["character"]
  else [].

(** [list_tools()]: the name of each declared tool with the [required]
    list of its [inputSchema], in the order of the source. *)
Definition list_tools : list (string * list string) :=
  [ ("quick_search", ["query"]);
    ("search_manual", ["query"]);
    ("filter_by_section", ["section"; "query"]);
    ("show_page", ["page_number"]);
    ("list_sections", []);
    ("list_entities", []);
    ("can_recruit", ["recruiter"; "target"]);
    ("who_can_recruit", ["target"]);
    ("get_enemies", ["character"]);
    ("get_friends", ["character"]) ].

End Server.

(** ** The Flask API ([search_api_updated.py]) *)

Module Api.

(** The functions of this file take [db : option Database]:
    [sqlite3.connect(DB_PATH)] never fails on a missing file, it opens an
    empty database in which every statement raises "no such table", and
    [None] stands for that empty database. *)

(** [f"Error: {str(e)}"] *)
Definition error_text (msg : string) : string := "Error: " +:+ msg.

(** The SQL statements of the page searches, as they reach the connection. *)
Inductive Stmt :=
| FtsSelect (query : string) (section : option string)
| LikeSelect (words : list string) (section : option string).

(** [[w for w in query.split() if len(w) > 2]] *)
Definition long_words (query : string) : list string :=
  filter (λ w, (2 < String.length w)%nat) (Py.split query).

(** The optional [AND section_type = ?] condition. *)
Definition in_section (section : option string) (tag : string) : bool :=
  match section with
  | Some s => bool_decide (tag = s)
  | None => true
  end.

(** Tier 1: [manual_fts MATCH ? [AND section_type = ?] ORDER BY rank
    LIMIT 15], any exception swallowed by [except: pass]. *)
Definition fts_tier (db : option Database) (query : string)
    (section : option string) : list Row :=
  match db with
  | None => []
  | Some db =>
      match manual_fts db query with
      | Raise _ => []
      | Ok hits =>
          hit_row 200 <$>
            take 15 (order_by_rank
               (filter (λ h, in_section section (hit_section h)) hits))
      end
  end.

(** [content LIKE ? OR content LIKE ? ...] on one row, one pattern per
    word: the patterns are tried from the left until one matches. *)
Fixpoint any_like (pats : list string) (text : string) : result bool :=
  match pats with
  | [] => Ok false
  | p :: pats' =>
      matched ← Sql.like_run p (Some text);
      if (matched : bool) then mret true else any_like pats' text
  end.

(** The depth of the [WHERE] clause: [n] [LIKE] terms joined by [OR] are
    [n + 1] deep, and the [AND section_type = ?] around them adds one. *)
Definition where_depth (words : list string) (section : option string) : Z :=
  Z.of_nat (length words) + 1
  + match section with Some _ => 1 | None => 0 end.

Definition page_row (p : Page) : Row :=
  mkRow (page_number p) (section_type p) (Sql.substr1 500 (content p)).

(** Tier 2: the [LIKE] scan of [manual_pages], [ORDER BY page_number
    LIMIT 15].  The statement is prepared first (depth limit, then the
    table).  The scan is the plain one, which SQLite runs when no index
    orders or narrows it: it visits every page, the [OR] chain is
    evaluated on each before the section is compared, and the rows are
    sorted before the first fifteen are kept.  With an index on
    [page_number] or [section_type] SQLite may visit fewer pages; the rows
    returned are the same, since an over-long pattern is the only thing
    that can raise on a page, and the theorems claim an error of the scan
    for no query. *)
Definition like_tier (db : option Database) (words : list string)
    (section : option string) : result (list Row) :=
  if Sql.too_deep (where_depth words section) then Raise Sql.depth_error
  else
    match db with
    | None => Raise "no such table: manual_pages"
    | Some db =>
        pages ← Sql.scan
                  (λ p, matched ← any_like (Sql.contains_pat <$> words) (content p);
                        mret (matched && in_section section (section_type p)))
                  (manual_pages db);
        mret (page_row <$> take 15 (order_by_page pages))
    end.

(** The rows both page searches end up with, and the statements run. *)
Definition two_tier (db : option Database) (query : string)
    (section : option string) : list Stmt * result (list Row) :=
  let results := fts_tier db query section in
  match results with
  | _ :: _ => ([FtsSelect query section], Ok results)
  | [] =>
      let words := long_words query in
      match words with
      | [] => ([FtsSelect query section], Ok [])
      | _ :: _ =>
          ([FtsSelect query section; LikeSelect words section],
           like_tier db words section)
      end
  end.

Definition found_lines (head : string) (results : list Row) : string :=
  Py.join Py.nl (head :: concat (row_lines <$> results)).

(** [search_manual_db(query)], together with the statements it ran. *)
Definition search_manual_run (db : option Database) (query : string)
    : list Stmt * string :=
  let (stmts, rows) := two_tier db query None in
  (stmts,
   match rows with
   | Raise msg => error_text msg
   | Ok [] => "No results found for " +:+ Py.quote query
              +:+ ". Try different keywords or check spelling."
   | Ok results =>
       found_lines ("Found " +:+ pretty (length results) +:+ " results for "
                    +:+ Py.quote query +:+ ":" +:+ Py.nl) results
   end).

Definition search_manual_db (db : option Database) (query : string) : string :=
  (search_manual_run db query).2.

(** [show_page_db(page_number)]: the statement is prepared, then the
    number is bound. *)
Definition show_page_db (db : option Database) (page_number : Z) : string :=
  match db with
  | None => error_text "no such table: manual_pages"
  | Some db =>
      if negb (Sql.int64 page_number) then error_text Sql.bind_error
      else
        match Server.fetch_page db page_number with
        | None => "Page " +:+ pretty page_number
                  +:+ " not found. Valid pages are 1-196."
        | Some row => Server.page_text row
        end
  end.

Definition valid_sections : list string :=
  ["characters"; "equipment"; "locations"; "story_sections"; "general_content"].

(** [filter_by_section_db(section, query)], together with the statements
    it ran: none when the section name is rejected. *)
Definition filter_by_section_run (db : option Database)
    (section query : string) : list Stmt * string :=
  if bool_decide (section ∈ valid_sections) then
    let (stmts, rows) := two_tier db query (Some section) in
    (stmts,
     match rows with
     | Raise msg => error_text msg
     | Ok [] => "No results for " +:+ Py.quote query +:+ " in " +:+ section
                +:+ " section."
     | Ok results =>
         found_lines ("Found " +:+ pretty (length results) +:+ " results for "
                      +:+ Py.quote query +:+ " in " +:+ section +:+ ":"
                      +:+ Py.nl) results
     end)
  else
    ([], "Invalid section " +:+ Py.quote section +:+ ". Valid sections: "
         +:+ Py.join ", " valid_sections).

Definition filter_by_section_db (db : option Database)
    (section query : string) : string :=
  (filter_by_section_run db section query).2.

(** [quick_search_db(query)]: the [characters] table only, biographies cut
    at 500 characters. *)
Definition quick_search_db (db : option Database) (query : string) : string :=
  match db with
  | None => error_text "no such table: characters"
  | Some db =>
      match (chars ← Server.select_characters db query;
             mret (Server.block "=== CHARACTERS ===" (Server.character_block 500)
                     chars)) with
      | Raise msg => error_text msg
      | Ok [] => "No entities found matching " +:+ Py.quote query
      | Ok results => Py.join Py.nl results
      end
  end.

(** The [required] list of each entry of [TOOLS]. *)
Definition required (name : string) : list string :=
  if decide (name = "search_manual") then ["query"]
  else if decide (name = "show_page") then ["page_number"]
  else if decide (name = "filter_by_section") then ["section"; "query"]
  else if decide (name = "quick_search") then ["query"]
  else [].

(** [execute_tool(name, input_data)] *)
Definition execute_tool (db : option Database) (name : string)
    (input_data : ToolInput) : result string :=
  if decide (name = "search_manual") then
    match get_text input_data "query" with
    | Ok q => Ok (search_manual_db db q)
    | Raise e => Raise e
    end
  else if decide (name = "show_page") then
    match get_int input_data "page_number" with
    | Ok n => Ok (show_page_db db n)
    | Raise e => Raise e
    end
  else if decide (name = "filter_by_section") then
    match get_text input_data "section" with
    | Ok s =>
        match get_text input_data "query" with
        | Ok q => Ok (filter_by_section_db db s q)
        | Raise e => Raise e
        end
    | Raise e => Raise e
    end
  else if decide (name = "quick_search") then
    match get_text input_data "query" with
    | Ok q => Ok (quick_search_db db q)
    | Raise e => Raise e
    end
  else Ok ("Unknown tool: " +:+ name).

(** *** The orchestration loop *)

(** Code that talks to the service: it may raise, and every call of
    [client.messages.create] is appended to the log of exchanges. *)
Definition M (A : Type) : Type := list Request → result A * list Request.

Global Instance M_ret : MRet M := λ A a log, (Ok a, log).

Global Instance M_bind : MBind M := λ A B k m log,
  match m log with
  | (Ok a, log') => k a log'
  | (Raise e, log') => (Raise e, log')
  end.

Definition lift {A} (r : result A) : M A := λ log, (r, log).

Definition create (client : Client) (req : Request) : M Response :=
  λ log, (client req, log ++ [req]).

(** The [for block in response.content] loop of one turn: every requested
    call is run, in request order; the first exception aborts the turn. *)
Fixpoint run_tools (db : option Database) (blocks : list Block)
    : result (list ToolResult) :=
  match blocks with
  | [] => Ok []
  | TextBlock _ :: rest => run_tools db rest
  | ToolUseBlock id name input :: rest =>
      match execute_tool db name input with
      | Raise e => Raise e
      | Ok r =>
          match run_tools db rest with
          | Raise e => Raise e
          | Ok rs => Ok (mkToolResult id r :: rs)
          end
      end
  end.

Definition turn_messages (response : Response) (tool_results : list ToolResult)
    (instruction : option string) : list Message :=
  [ mkMessage assistant (Blocks (resp_content response));
    mkMessage user (ToolResults tool_results instruction) ].

(** [while response.stop_reason == "tool_use" and rounds < limit], with
    [remaining = limit - rounds]. *)
Fixpoint tool_rounds (db : option Database) (client : Client)
    (mdl : string) (max_tok : nat) (remaining : nat)
    (response : Response) (msgs : list Message)
    : M (Response * list Message) :=
  match remaining with
  | O => mret (response, msgs)
  | S remaining' =>
      if decide (stop_reason response = tool_use) then
        tool_results ← lift (run_tools db (resp_content response));
        let msgs' := msgs ++ turn_messages response tool_results None in
        response' ← create client (mkRequest mdl max_tok true msgs');
        tool_rounds db client mdl max_tok remaining' response' msgs'
      else mret (response, msgs)
  end.

(** The text of a response: its text blocks, concatenated. *)
Fixpoint response_text (blocks : list Block) : string :=
  match blocks with
  | [] => ""
  | TextBlock t :: rest => t +:+ response_text rest
  | ToolUseBlock _ _ _ :: rest => response_text rest
  end.

(** The first exchange followed by the bounded loop. *)
Definition converse (db : option Database) (client : Client)
    (mdl : string) (max_tok : nat) (limit : nat) (query : string)
    : M (Response * list Message) :=
  let msgs := [mkMessage user (Text query)] in
  response ← create client (mkRequest mdl max_tok true msgs);
  tool_rounds db client mdl max_tok limit response msgs.

Definition final_instruction : string :=
  "Now provide your final answer based on all search results.".

(** "Force final answer if still requesting tools": present in
    [run_search_job] only. *)
Definition force_final (db : option Database) (client : Client)
    (mdl : string) (max_tok : nat) (response : Response)
    (msgs : list Message) : M Response :=
  if decide (stop_reason response = tool_use) then
    tool_results ← lift (run_tools db (resp_content response));
    let msgs' :=
      msgs ++ turn_messages response tool_results (Some final_instruction) in
    create client (mkRequest mdl max_tok false msgs')
  else mret response.

(** *** Citations in the final text *)

Record Citation := mkCitation {
  cite_page_number : Z;
  cite_section : string;
  cite_content : string
}.

Definition is_digit (c : ascii) : bool :=
  let n := nat_of_ascii c in ((48 <=? n) && (n <=? 57))%nat.

Fixpoint strip_prefix (lit s : string) : option string :=
  match lit, s with
  | EmptyString, _ => Some s
  | String _ _, EmptyString => None
  | String a lit', String b s' =>
      if Ascii.eqb a b then strip_prefix lit' s' else None
  end.

(** The longest prefix whose characters satisfy [f], and the rest. *)
Fixpoint span (f : ascii → bool) (s : string) : string * string :=
  match s with
  | EmptyString => ("", "")
  | String c s' =>
      if f c then let (a, b) := span f s' in (String c a, b)
      else ("", s)
  end.

(** The value of a run of decimal digits. *)
Definition int_of_digits (d : string) : Z :=
  foldl (λ acc c, 10 * acc + (Z.of_nat (nat_of_ascii c) - 48)) 0
    (String.list_ascii_of_string d).

(** [int(digits)] for a run of decimal digits: more than 4300 digits
    raise [ValueError] (the default of [sys.set_int_max_str_digits]). *)
Definition int (digits : string) : result Z :=
  if 4300 <? Z.of_nat (String.length digits) then
    Raise ("Exceeds the limit (4300 digits) for integer string conversion: "
           +:+ "value has " +:+ pretty (String.length digits)
           +:+ " digits; use sys.set_int_max_str_digits() to increase the limit")
  else Ok (int_of_digits digits).

(** A match of [\*\*Page (\d+)\*\* \[([^\]]+)\]] at the start of [s]:
    the digits of the page number, the section, and the text after the
    match. *)
Definition match_citation (s : string) : option (string * string * string) :=
  s1 ← strip_prefix "**Page " s;
  let (digits, s2) := span is_digit s1 in
  if Py.truthy digits then
    s3 ← strip_prefix "** [" s2;
    let (section, s4) := span (λ c, negb (Ascii.eqb c "]"%char)) s3 in
    if Py.truthy section then
      s5 ← strip_prefix "]" s4;
      Some (digits, section, s5)
    else None
  else None.

(** A match of [\*\*Page \d+\*\*] at the start of [s]. *)
Definition match_marker (s : string) : bool :=
  match strip_prefix "**Page " s with
  | None => false
  | Some s1 =>
      let (digits, s2) := span is_digit s1 in
      Py.truthy digits && bool_decide (is_Some (strip_prefix "**" s2))
  end.

(** The text before the first marker, or all of it when there is none. *)
Fixpoint before_marker (s : string) : string :=
  if match_marker s then ""
  else match s with
       | EmptyString => ""
       | String c s' => String c (before_marker s')
       end.

(** The loop over [re.finditer(page_pattern, final_text)], scanning left
    to right; each step consumes at least one character, so [fuel] above
    the length of the text is never exhausted.  The first page number that
    [int] refuses ends the loop with its exception. *)
Fixpoint citations_go (fuel : nat) (s : string) : result (list Citation) :=
  match fuel with
  | O => Ok []
  | S fuel' =>
      match match_citation s with
      | Some (digits, section, rest) =>
          n ← int digits;
          later ← citations_go fuel' rest;
          mret (mkCitation n section
                  (Py.prefix 500 (Py.strip (before_marker rest))) :: later)
      | None =>
          match s with
          | EmptyString => Ok []
          | String _ s' => citations_go fuel' s'
          end
      end
  end.

Definition citations (final_text : string) : result (list Citation) :=
  citations_go (S (String.length final_text)) final_text.

(** *** Endpoints *)

Record SearchResult := mkSearchResult {
  sr_query : string;
  sr_results : list Citation;
  sr_raw_response : option string
}.

(** [jsonify(body)] with status 200, or [jsonify({'error': msg}), code]. *)
Inductive Reply (A : Type) :=
| Json (body : A)
| Fail (code : Z) (error : string).
Global Arguments Json {A} body.
Global Arguments Fail {A} code error.

Definition haiku : string := "claude-3-5-haiku-latest".
Definition sonnet : string := "claude-sonnet-4-5-20250929".

(** [/api/search/fast] : "2 tool rounds max". *)
Definition search_fast (db : option Database) (client : option Client)
    (query : string) : Reply SearchResult * list Request :=
  let query := Py.strip query in
  if negb (Py.truthy query) then (Fail 400 "Query parameter required", [])
  else match client with
  | None => (Fail 500 "API not configured", [])
  | Some client =>
      match converse db client haiku 1024 2 query [] with
      | (Raise e, log) => (Fail 500 e, log)
      | (Ok (response, _), log) =>
          let answer := response_text (resp_content response) in
          (Json (mkSearchResult query []
                   (Some (if Py.truthy answer then answer
                          else "No results found."))), log)
      end
  end.

(** The reply of an endpoint whose body may raise inside its [try]:
    the result as JSON, or status 500 with the message. *)
Definition answer {A} (outcome : result A) : Reply A :=
  match outcome with
  | Ok body => Json body
  | Raise e => Fail 500 e
  end.

(** The structured result built from the final text. *)
Definition package (query final_text : string) : result SearchResult :=
  results ← citations final_text;
  mret (mkSearchResult query results
          (match results with [] => Some final_text | _ => None end)).

(** [/api/search] : "up to 5 tool rounds". *)
Definition search (db : option Database) (client : option Client)
    (query : string) : Reply SearchResult * list Request :=
  let query := Py.strip query in
  if negb (Py.truthy query) then (Fail 400 "Query parameter required", [])
  else match client with
  | None => (Fail 500 "API not configured", [])
  | Some client =>
      match converse db client sonnet 2048 5 query [] with
      | (Raise e, log) => (Fail 500 e, log)
      | (Ok (response, _), log) =>
          (answer (package query (response_text (resp_content response))), log)
      end
  end.

(** *** The job tracker *)

Inductive JobStatus := pending | running | complete | error.

Global Instance JobStatus_eq_dec : EqDecision JobStatus.
Proof. solve_decision. Defined.

(** A job record: the dictionary stored under a job id, with the keys it
    may hold. *)
Record Job := mkJob {
  job_status : JobStatus;
  job_created : option string;
  job_result : option SearchResult;
  job_error : option string
}.

Definition error_job (msg : string) : Job := mkJob error None None (Some msg).

Definition complete_job (r : SearchResult) : Job :=
  mkJob complete None (Some r) None.

(** What the worker stores when it ends: the result, or the message of
    the exception its [except] clause caught. *)
Definition job_record (outcome : result SearchResult) : Job :=
  match outcome with
  | Ok r => complete_job r
  | Raise e => error_job e
  end.

(** The conversation of [run_search_job]: "up to 6 rounds", then the
    forced final answer. *)
Definition job_conversation (db : option Database) (client : Client)
    (query : string) : M string :=
  '(response, msgs) ← converse db client sonnet 2048 6 query;
  response ← force_final db client sonnet 2048 response msgs;
  mret (response_text (resp_content response)).

(** [run_search_job(job_id, query)], run to its end: the job table after
    it, and the exchanges it made. *)
Definition run_search_job (db : option Database) (client : option Client)
    (job_id query : string) (search_jobs : gmap string Job)
    : gmap string Job * list Request :=
  match search_jobs !! job_id with
  | None => (<[job_id := error_job (Py.repr job_id)]> search_jobs, [])
  | Some job =>
      let search_jobs :=
        <[job_id := mkJob running (job_created job) (job_result job)
                      (job_error job)]> search_jobs in
      match client with
      | None => (<[job_id := error_job "API not configured"]> search_jobs, [])
      | Some client =>
          let (outcome, log) := job_conversation db client query [] in
          (<[job_id := job_record (final_text ← outcome;
                                   package query final_text)]> search_jobs,
           log)
      end
  end.

(** [/api/search/start]; [job_id] is the fresh token and [now] the
    timestamp.  The worker thread is [run_search_job]. *)
Definition search_start (query job_id now : string)
    (search_jobs : gmap string Job)
    : Reply (string * JobStatus) * gmap string Job :=
  let query := Py.strip query in
  if negb (Py.truthy query) then (Fail 400 "Query parameter required", search_jobs)
  else (Json (job_id, pending),
        <[job_id := mkJob pending (Some now) None None]> search_jobs).

(** The body of a status reply. *)
Record StatusBody := mkStatusBody {
  body_status : JobStatus;
  body_result : option SearchResult;
  body_error : option string
}.

(** [/api/search/status/<job_id>] *)
Definition search_status (job_id : string) (search_jobs : gmap string Job)
    : Reply StatusBody * gmap string Job :=
  match search_jobs !! job_id with
  | None => (Fail 404 "Job not found", search_jobs)
  | Some job =>
      match job_status job with
      | complete =>
          match job_result job with
          | Some result =>
              (Json (mkStatusBody complete (Some result) None),
               delete job_id search_jobs)
          | None => (Fail 500 (Py.quote "result"), search_jobs)
          end
      | error =>
          (Json (mkStatusBody error None
                   (Some (default "Unknown error" (job_error job)))),
           delete job_id search_jobs)
      | st => (Json (mkStatusBody st None None), search_jobs)
      end
  end.

(** *** Configuration and the remaining endpoints *)

(** [get_api_key()]: the content of the key file when the file exists
    ([key_file] is its text), otherwise the environment variable. *)
Definition get_api_key (key_file env : option string) : option string :=
  match key_file with
  | Some text => Some (Py.strip text)
  | None => env
  end.

(** [get_client()]; [anthropic] builds the client for a key. *)
Definition get_client (anthropic : string → Client)
    (key_file env : option string) : option Client :=
  match get_api_key key_file env with
  | Some key => if Py.truthy key then Some (anthropic key) else None
  | None => None
  end.

Record Health := mkHealth {
  health_status : string;
  api_configured : bool;
  database_configured : bool;
  version : string
}.

(** [/api/health]; [db_file] tells whether the database file exists. *)
Definition health (key_file env : option string) (db_file : bool) : Health :=
  mkHealth "ok" (bool_decide (is_Some (get_api_key key_file env))) db_file "2.0".

(** [/api/search/section]: the request body is rewritten in place and
    handed to [search], which reads the same parsed body. *)
Definition search_section (db : option Database) (client : option Client)
    (query section : string) : Reply SearchResult * list Request :=
  let query := Py.strip query in
  if negb (Py.truthy query) then (Fail 400 "Query parameter required", [])
  else search db client
         ("Search the " +:+ section +:+ " section for: " +:+ query).

End Api.

(** ** What the specification says, in its own words *)

Module Spec.

(** "If an edge (src, dst, *, s) exists". *)
Definition edge_exists (db : Database) (src dst : string) (s : Sentiment) : Prop :=
  ∃ e, e ∈ character_relationships db
       ∧ from_character e = src ∧ to_character e = dst ∧ sentiment e = s.

(** "All matching relationship labels listed as reasons". *)
Definition all_labels (db : Database) (src dst : string) (s : Sentiment)
    (reasons : list string) : Prop :=
  ∀ l, l ∈ reasons ↔
       ∃ e, e ∈ character_relationships db
            ∧ from_character e = src ∧ to_character e = dst
            ∧ sentiment e = s ∧ relationship_type e = l.

(** "A relationship is recorded between the two, in either direction". *)
Definition related (db : Database) (a b : string) : Prop :=
  ∃ e, e ∈ character_relationships db
       ∧ ((from_character e = a ∧ to_character e = b)
          ∨ (from_character e = b ∧ to_character e = a)).

(** The three answers of [can_recruit], as text. *)
Definition no_text (r t : string) (reasons : list string) : string :=
  Py.join Py.nl
    [ Server.can_recruit_header r t;
      "NO - " +:+ t +:+ " " +:+ Py.join ", " reasons +:+ " " +:+ r ].

Definition yes_text (r t : string) (reasons : list string) : string :=
  Py.join Py.nl
    [ Server.can_recruit_header r t;
      "YES - " +:+ r +:+ " is " +:+ Py.join ", " reasons +:+ " with " +:+ t ].

Definition unknown_text (r t : string) : string :=
  Py.join Py.nl
    [ Server.can_recruit_header r t;
      "UNKNOWN - No direct relationship found";
      "(They are not friends, but also not enemies)" ].

(** Both names resolve: the first character whose name matches, with a
    non-empty name. *)
Definition resolves (db : Database) (name canonical : string) : Prop :=
  Server.find_character db name = Some canonical ∧ canonical ≠ "".

(** "Matches any word as a case-insensitive substring of page content
    (logical OR across words)". *)
Definition any_word_in (words : list string) (p : Page) : bool :=
  existsb (λ w, Sub.ci_substring w (Sql.c_str (content p))) words.

(** "Substring match on the name field OR the description/search-text
    field", capped at 10 rows per kind. *)
Definition in_name_or_text (query name : string) (text : option string) : bool :=
  Sub.ci_substring query (Sql.c_str name)
  || match text with
     | Some t => Sub.ci_substring query (Sql.c_str t)
     | None => false
     end.

Definition matching_characters (db : Database) (query : string) : list Character :=
  take 10 (filter (λ c, in_name_or_text query (full_name c) (search_text c))
             (characters db)).

Definition matching_buildings (db : Database) (query : string) : list Building :=
  take 10 (filter (λ b, in_name_or_text query (building_type b) (b_description b))
             (buildings db)).

Definition matching_vehicles (db : Database) (query : string) : list Vehicle :=
  take 10 (filter (λ v, in_name_or_text query (vehicle_type v) (v_description v))
             (enemy_vehicles db)).

Definition matching_skills (db : Database) (query : string) : list Skill :=
  take 10 (filter (λ s, Sub.ci_substring query (skill_name s)) (skills db)).

(** The manual has pages 1..196, each number once. *)
Definition pages_1_to_196 (db : Database) : Prop :=
  NoDup (page_number <$> manual_pages db)
  ∧ ∀ n, n ∈ (page_number <$> manual_pages db) ↔ 1 ≤ n ≤ 196.

(** A job table as the tracker writes it: a complete job holds a result. *)
Definition job_ok (j : Api.Job) : Prop :=
  Api.job_status j = Api.complete → is_Some (Api.job_result j).

(** The service asks for tools whenever it is offered them, with calls
    that run; and it answers when it is offered none. *)
Definition always_requests_tools (db : option Database) (client : Client) : Prop :=
  (∀ req, tools req = true →
     ∃ resp, client req = Ok resp ∧ stop_reason resp = tool_use
             ∧ ∃ rs, Api.run_tools db (resp_content resp) = Ok rs)
  ∧ (∀ req, tools req = false → ∃ resp, client req = Ok resp).

(** An exchange that offers the tools to the service. *)
Definition with_tools (req : Request) : Prop := tools req = true.

(** The fields of the input have the types the tool schemas declare:
    [page_number], when present, is an integer, and every other field,
    when present, is a text. *)
Definition well_typed (input : ToolInput) : Prop :=
  text_fields input !! "page_number" = None
  ∧ ∀ key, key ≠ "page_number" → int_fields input !! key = None.

(** A field the input does not carry, with a value of any type. *)
Definition absent (input : ToolInput) (key : string) : Prop :=
  text_fields input !! key = None ∧ int_fields input !! key = None.

(** The service answers the request by asking for tools, and running
    them raises [e]. *)
Definition tool_failure (db : option Database) (client : Client)
    (req : Request) (e : string) : Prop :=
  ∃ resp, client req = Ok resp ∧ stop_reason resp = tool_use
          ∧ Api.run_tools db (resp_content resp) = Raise e.

(** The [UNIQUE] key of a relationship row. *)
Definition edge_key (e : Edge) : string * string * string :=
  (from_character e, to_character e, relationship_type e).

(** The tool calls a response asks for, in the order it asks. *)
Fixpoint requested (blocks : list Block) : list (string * string * ToolInput) :=
  match blocks with
  | [] => []
  | TextBlock _ :: rest => requested rest
  | ToolUseBlock id name input :: rest => (id, name, input) :: requested rest
  end.

(** A call that carries every field its tool requires. *)
Definition well_formed_call (call : string * string * ToolInput) : Prop :=
  ∀ key, key ∈ Api.required call.1.2 → ¬ absent call.2 key.

(** The same database with another full-text index. *)
Definition with_index (db : Database)
    (index : string → result (list FtsHit)) : Database :=
  mkDatabase (characters db) (buildings db) (enemy_vehicles db) (skills db)
    (character_relationships db) (manual_pages db) index.

(** The request that opens a conversation. *)
Definition first_request (mdl : string) (max_tok : nat) (query : string) : Request :=
  mkRequest mdl max_tok true [mkMessage user (Text query)].

(** A job record in a final state, with what that state carries. *)
Definition terminal (j : Api.Job) : Prop :=
  (Api.job_status j = Api.complete ∧ is_Some (Api.job_result j))
  ∨ (Api.job_status j = Api.error ∧ is_Some (Api.job_error j)).

(** A negative edge touches the character, as source or as destination. *)
Definition has_enemy (db : Database) (c : string) : Prop :=
  ∃ e, e ∈ character_relationships db ∧ sentiment e = negative
       ∧ (from_character e = c ∨ to_character e = c).

(** The text has no asterisk. *)
Fixpoint no_asterisk (s : string) : bool :=
  match s with
  | EmptyString => true
  | String c s' => negb (Ascii.eqb c "*"%char) && no_asterisk s'
  end.

(** No closing bracket in the text. *)
Fixpoint no_bracket (s : string) : bool :=
  match s with
  | EmptyString => true
  | String c s' => negb (Ascii.eqb c "]"%char) && no_bracket s'
  end.

(** The exchanges of one conversation hang together: every request after
    the first repeats the messages of the request before it and adds the
    tool-requesting answer to that request, followed by the results of
    running the tools it asked for. *)
Definition chained (db : option Database) (client : Client)
    (log : list Request) : Prop :=
  ∀ i r1 r2, log !! i = Some r1 → log !! S i = Some r2 →
    ∃ response rs instruction,
      client r1 = Ok response ∧ stop_reason response = tool_use
      ∧ Api.run_tools db (resp_content response) = Ok rs
      ∧ messages r2
        = messages r1 ++ Api.turn_messages response rs instruction.

End Spec.

(** ** Sample data *)

Module Sample.

Definition plain_character (name : string) : Character :=
  mkCharacter name None None None None None.

(** The characters named in the relationship table. *)
Definition cast : list Character :=
  plain_character <$>
    remove_dups (concat ((λ e, [from_character e; to_character e])
                           <$> Relationships.RELATIONSHIPS)).

Definition no_index : string → result (list FtsHit) := λ _, Ok [].

(** The relationship graph as [build_relationships.py] builds it. *)
Definition graph_db : Database :=
  Relationships.build_relationship_database
    (mkDatabase cast [] [] [] [] [] no_index).

(** A mutual pair: Ann likes Bob, Bob loathes Ann. *)
Definition feud_db : Database :=
  mkDatabase [plain_character "Ann"; plain_character "Bob"] [] [] []
    [ mkEdge "Ann" "Bob" "friend" positive;
      mkEdge "Bob" "Ann" "loathes" negative;
      mkEdge "Bob" "Ann" "envies" negative ]
    [] no_index.

(** A manual of 196 numbered pages. *)
Definition numbered_page (n : nat) : Page :=
  mkPage (Z.of_nat n) "general" ("Text of page " +:+ pretty n).

Definition manual_db : Database :=
  mkDatabase [] [] [] [] [] (numbered_page <$> seq 1 196) no_index.

(** Three short pages and no usable index. *)
Definition small_db : Database :=
  mkDatabase
    [ mkCharacter "Captain John Stark" (Some "Captain") (Some 34)
        (Some "Officer") (Some "Leader of the peace force.") (Some "stark captain") ]
    [ mkBuilding "Radio Station" (Some "Broadcasts to the island.") None ]
    [ mkVehicle "Snow Buggy" (Some "Patrol") (Some "Fast and light.") ]
    [ mkSkill "Skiing" ]
    []
    [ mkPage 3 "general" "Go to it and ski";
      mkPage 1 "story" "The abc of skiing";
      mkPage 2 "equipment" "Rifles and snow" ]
    (λ _, Raise "no such table: manual_fts").

Definition hit (n : Z) (tag : string) (rank : Z) : FtsHit :=
  mkFtsHit n tag (λ _, "...>>>rifle<<<...") (Qc_of_Z rank).

(** An index that answers every query with three ranked hits. *)
Definition indexed_db : Database :=
  mkDatabase [] [] [] [] []
    [ mkPage 1 "weapons" "rifle"; mkPage 2 "equipment" "rifle";
      mkPage 3 "weapons" "rifle" ]
    (λ _, Ok [hit 1 "weapons" (-1); hit 2 "equipment" (-3); hit 3 "weapons" (-2)]).

(** A service that asks for page 1 whenever it may, and answers in text
    once tools are withheld. *)
Definition eager_client : Client := λ req,
  if tools req
  then Ok (mkResponse tool_use
             [ TextBlock "Looking.";
               ToolUseBlock "call" "show_page"
                 (mkToolInput ∅ {[ "page_number" := 1 ]}) ])
  else Ok (mkResponse end_turn [TextBlock "Final answer."]).

(** A service whose first request is a search without its query. *)
Definition careless_client : Client := λ _,
  Ok (mkResponse tool_use [ToolUseBlock "call" "search_manual" no_input]).

Definition one_job : gmap string Api.Job :=
  {[ "ab12cd34" := Api.mkJob Api.pending (Some "2024-01-01T00:00:00") None None ]}.

(** A service that is down. *)
Definition down_client : Client := λ _, Raise "Connection error.".

(** A service that answers at once. *)
Definition direct_client : Client := λ _,
  Ok (mkResponse end_turn [TextBlock "Skiing is covered on "; TextBlock "page 12."]).

End Sample.

(** * Properties *)

(** ** Text lemmas *)

Section text.

Lemma append_inj_l (s a b : string) : s +:+ a = s +:+ b → a = b.
Proof. induction s as [|c s IH]; simpl; [done|]. intros [= H]. auto. Qed.

Lemma join_two (h x : string) : Py.join Py.nl [h; x] = h +:+ Py.nl +:+ x.
Proof. done. Qed.

Lemma join_three (h x y : string) :
  Py.join Py.nl [h; x; y] = h +:+ Py.nl +:+ x +:+ Py.nl +:+ y.
Proof. done. Qed.

Lemma truthy_ne (s : string) : Py.truthy s = true ↔ s ≠ "".
Proof. destruct s; simpl; split; (done || congruence). Qed.

End text.

Lemma Ok_inj {A} (a b : A) : Ok a = Ok b → a = b.
Proof. by intros [= ->]. Qed.

(** ** Scans and the limits of [LIKE] *)

Section scans.

Context {A : Type}.

(** A scan whose condition never raises is a filter. *)
Lemma scan_ok (cond : A → result bool) (keep : A → bool) (rows : list A) :
  (∀ r, r ∈ rows → cond r = Ok (keep r)) →
  Sql.scan cond rows = Ok (filter (λ r, keep r) rows).
Proof.
  induction rows as [|r rows IH]; intros Hcond; [done|].
  simpl. rewrite (Hcond r) by apply list_elem_of_here.
  rewrite IH by (intros r' Hr'; apply Hcond; by apply list_elem_of_further).
  rewrite filter_cons. by destruct (keep r).
Qed.

(** A scan whose condition raises on every row raises on the first. *)
Lemma scan_raise (cond : A → result bool) (e : string) (r : A) (rows : list A) :
  cond r = Raise e → Sql.scan cond (r :: rows) = Raise e.
Proof. intros H. simpl. by rewrite H. Qed.

(** The rows a scan returns are rows on which the condition held. *)
Lemma scan_kept (cond : A → result bool) (rows kept : list A) :
  Sql.scan cond rows = Ok kept →
  ∀ r, r ∈ kept → r ∈ rows ∧ cond r = Ok true.
Proof.
  revert kept. induction rows as [|x rows IH]; intros kept; simpl.
  - intros [= <-] r Hr. by apply not_elem_of_nil in Hr.
  - destruct (cond x) as [b|e] eqn:Hx; [|discriminate].
    destruct (Sql.scan cond rows) as [kept'|e]; [|discriminate].
    intros [= <-] r Hr.
    assert (Hcases : (r = x ∧ b = true) ∨ r ∈ kept').
    { destruct b; [|by right].
      apply elem_of_cons in Hr as [->|Hr]; [by left | by right]. }
    destruct Hcases as [[-> ->]|Hr'].
    + split; [apply list_elem_of_here | done].
    + destruct (IH kept' eq_refl r Hr') as [Hin Hc].
      split; [by apply list_elem_of_further | done].
Qed.

Lemma like_run_ok (pat : string) (text : option string) :
  Sql.too_complex pat = false →
  Sql.like_run pat text = Ok (Sql.like_null pat text).
Proof. intros H. unfold Sql.like_run. by rewrite H. Qed.

Lemma like_run_raise (pat : string) (text : option string) :
  Sql.too_complex pat = true → Sql.like_run pat text = Raise Sql.pattern_error.
Proof. intros H. unfold Sql.like_run. by rewrite H. Qed.

(** One pattern applied to a column of every row. *)
Lemma scan_like (pat : string) (column : A → option string) (rows : list A) :
  Sql.too_complex pat = false →
  Sql.scan (λ r, Sql.like_run pat (column r)) rows
  = Ok (filter (λ r, Sql.like_null pat (column r)) rows).
Proof. intros H. apply scan_ok. intros r _. by apply like_run_ok. Qed.

End scans.

(** ** [ORDER BY] *)

Section sorting.

Context {A : Type} (R : relation A) `{∀ x y, Decision (R x y)}.

Lemma insert_by_Permutation (x : A) (l : list A) : Sql.insert_by R x l ≡ₚ x :: l.
Proof.
  induction l as [|y l IH]; [done|]. simpl. case_decide; [done|].
  rewrite IH. apply Permutation_swap.
Qed.

Lemma order_by_Permutation (l : list A) : Sql.order_by R l ≡ₚ l.
Proof.
  induction l as [|x l IH]; [done|]. unfold Sql.order_by in *. simpl.
  rewrite insert_by_Permutation. by f_equiv.
Qed.

Lemma order_by_nil (l : list A) : Sql.order_by R l = [] ↔ l = [].
Proof.
  split; [|by intros ->]. intros Hnil.
  apply Permutation_nil_r. rewrite <- Hnil. symmetry. apply order_by_Permutation.
Qed.

Context `{!Total R}.

Lemma Sorted_insert_by (x : A) (l : list A) :
  Sorted R l → Sorted R (Sql.insert_by R x l).
Proof.
  induction 1 as [|y l Hl IH Hhd]; simpl; [by repeat constructor|].
  case_decide as Hxy; [by repeat constructor|].
  constructor; [exact IH|].
  assert (Hyx : R y x) by (destruct (total R x y); done).
  destruct Hhd as [|z l' Hyz]; simpl; [by constructor|].
  case_decide; by constructor.
Qed.

Lemma Sorted_order_by (l : list A) : Sorted R (Sql.order_by R l).
Proof.
  induction l as [|x l IH]; [constructor|]. by apply Sorted_insert_by.
Qed.

(** Rows that come sorted, ties included, keep their order. *)
Lemma order_by_sorted (l : list A) : Sorted R l → Sql.order_by R l = l.
Proof.
  induction 1 as [|x l Hl IH Hhd]; [done|].
  unfold Sql.order_by in *. simpl. rewrite IH.
  destruct Hhd as [|y l' Hxy]; [done|]. simpl. by rewrite decide_True.
Qed.

Context `{!Transitive R}.

(** [ORDER BY ... LIMIT n]: the rows kept are sorted, they are [n] of the
    rows (all of them when there are fewer), and no row left out comes
    before a row kept. *)
Lemma take_order_by (n : nat) (l : list A) :
  ∃ rest,
    l ≡ₚ take n (Sql.order_by R l) ++ rest
    ∧ Sorted R (take n (Sql.order_by R l))
    ∧ length (take n (Sql.order_by R l)) = (n `min` length l)%nat
    ∧ ∀ k r, k ∈ take n (Sql.order_by R l) → r ∈ rest → R k r.
Proof.
  exists (drop n (Sql.order_by R l)).
  pose proof (Sorted_order_by l) as Hsorted.
  split; [by rewrite take_drop, order_by_Permutation|].
  split.
  { clear -Hsorted. revert n.
    induction Hsorted as [|x l' Hl IH Hhd]; intros [|n]; simpl; try constructor.
    - apply IH.
    - destruct Hhd as [|y l'' Hxy]; [rewrite take_nil; constructor|].
      destruct n; simpl; by constructor. }
  split; [by rewrite length_take, (Permutation_length (order_by_Permutation l))|].
  intros k r Hk Hr. apply (Sorted_StronglySorted R) in Hsorted.
  rewrite <- (take_drop n (Sql.order_by R l)) in Hsorted.
  by apply (StronglySorted_app_1_elem_of R _ _ k r Hsorted).
Qed.

End sorting.

(** ** The relationship graph *)

Section graph.

Variable db : Database.

Lemma edges_between_spec (src dst : string) (s : Sentiment) (e : Edge) :
  e ∈ Server.edges_between db src dst s ↔
  e ∈ character_relationships db
  ∧ from_character e = src ∧ to_character e = dst ∧ sentiment e = s.
Proof. unfold Server.edges_between. rewrite list_elem_of_filter. tauto. Qed.

Lemma edges_between_nil (src dst : string) (s : Sentiment) :
  Server.edges_between db src dst s = [] ↔ ¬ Spec.edge_exists db src dst s.
Proof.
  split.
  - intros Hnil (e & He). apply edges_between_spec in He.
    rewrite Hnil in He. by apply not_elem_of_nil in He.
  - intros Hno. destruct (Server.edges_between db src dst s) as [|e l] eqn:E; [done|].
    exfalso. apply Hno. exists e. apply edges_between_spec.
    rewrite E. apply list_elem_of_here.
Qed.

Lemma edges_between_labels (src dst : string) (s : Sentiment) :
  Spec.all_labels db src dst s
    (relationship_type <$> Server.edges_between db src dst s).
Proof.
  intros l. rewrite list_elem_of_fmap. split.
  - intros (e & -> & He). apply edges_between_spec in He. exists e. tauto.
  - intros (e & He & Hf & Ht & Hs & Hl). exists e. split; [done|].
    apply edges_between_spec. tauto.
Qed.

(** A name that resolves was looked up without an error. *)
Lemma select_character_found (name r : string) :
  Server.find_character db name = Some r →
  Server.select_character db name = Ok (Some r).
Proof.
  unfold Server.find_character.
  destruct (Server.select_character db name) as [[r'|]|e]; congruence.
Qed.

(** [can_recruit_query] once both names are resolved. *)
Lemma can_recruit_resolved (recruiter target r t : string) :
  Spec.resolves db recruiter r → Spec.resolves db target t →
  Server.can_recruit_query (Ok db) recruiter target =
    match Server.edges_between db t r negative,
          Server.edges_between db r t positive with
    | (_ :: _) as blocked, _ => Spec.no_text r t (relationship_type <$> blocked)
    | [], (_ :: _) as liked => Spec.yes_text r t (relationship_type <$> liked)
    | [], [] => Spec.unknown_text r t
    end.
Proof.
  intros [Hr Hr'] [Ht Ht']. unfold Server.can_recruit_query.
  rewrite (select_character_found _ _ Hr), (select_character_found _ _ Ht). simpl.
  apply truthy_ne in Hr', Ht'. rewrite Hr', Ht'. simpl.
  by destruct (Server.edges_between db t r negative),
              (Server.edges_between db r t positive).
Qed.

Lemma no_text_not_unknown (r t : string) (reasons : list string) :
  Spec.no_text r t reasons ≠ Spec.unknown_text r t.
Proof.
  unfold Spec.no_text, Spec.unknown_text. rewrite join_two, join_three.
  intros H. apply append_inj_l, append_inj_l in H. discriminate H.
Qed.

Lemma yes_text_not_unknown (r t : string) (reasons : list string) :
  Spec.yes_text r t reasons ≠ Spec.unknown_text r t.
Proof.
  unfold Spec.yes_text, Spec.unknown_text. rewrite join_two, join_three.
  intros H. apply append_inj_l, append_inj_l in H. discriminate H.
Qed.

End graph.

(** C1. Block before permit: once both names are resolved, a negative edge
    from the target to the recruiter gives NO with every matching label as
    a reason, whatever positive edges exist; failing that, a positive edge
    from the recruiter to the target gives YES with every matching label;
    failing both, the answer is UNKNOWN. *)
Theorem can_recruit_block_before_permit
    (db : Database) (recruiter target r t : string) :
  Spec.resolves db recruiter r → Spec.resolves db target t →
  (Spec.edge_exists db t r negative →
     ∃ reasons, Spec.all_labels db t r negative reasons
       ∧ Server.can_recruit_query (Ok db) recruiter target
         = Spec.no_text r t reasons)
  ∧ (¬ Spec.edge_exists db t r negative → Spec.edge_exists db r t positive →
     ∃ reasons, Spec.all_labels db r t positive reasons
       ∧ Server.can_recruit_query (Ok db) recruiter target
         = Spec.yes_text r t reasons)
  ∧ (¬ Spec.edge_exists db t r negative → ¬ Spec.edge_exists db r t positive →
     Server.can_recruit_query (Ok db) recruiter target = Spec.unknown_text r t).
Proof.
  intros Hr Ht. rewrite (can_recruit_resolved db _ _ r t Hr Ht).
  pose proof (edges_between_labels db t r negative) as Lneg.
  pose proof (edges_between_labels db r t positive) as Lpos.
  pose proof (edges_between_nil db t r negative) as Nneg.
  pose proof (edges_between_nil db r t positive) as Npos.
  destruct (Server.edges_between db t r negative) as [|b bs];
    destruct (Server.edges_between db r t positive) as [|p ps].
  - split; [|split]; [intros H; by apply Nneg in H | | done].
    intros _ H. by apply Npos in H.
  - split; [|split]; [intros H; by apply Nneg in H | | ].
    + intros _ _. eexists. split; [exact Lpos | done].
    + intros _ H. apply Npos in H. discriminate H.
  - split; [|split].
    + intros _. eexists. split; [exact Lneg | done].
    + intros H. exfalso. apply Nneg in H. discriminate H.
    + intros H. exfalso. apply Nneg in H. discriminate H.
  - split; [|split].
    + intros _. eexists. split; [exact Lneg | done].
    + intros H. exfalso. apply Nneg in H. discriminate H.
    + intros H. exfalso. apply Nneg in H. discriminate H.
Qed.

Lemma can_recruit_block_before_permit_witness :
  Spec.resolves Sample.feud_db "ann" "Ann"
  ∧ Spec.resolves Sample.feud_db "bob" "Bob"
  ∧ Spec.edge_exists Sample.feud_db "Ann" "Bob" positive
  ∧ ∃ reasons, Spec.all_labels Sample.feud_db "Bob" "Ann" negative reasons
      ∧ Server.can_recruit_query (Ok Sample.feud_db) "ann" "bob"
        = Spec.no_text "Ann" "Bob" reasons.
Proof.
  assert (Ha : Spec.resolves Sample.feud_db "ann" "Ann")
    by (split; [vm_compute; reflexivity | discriminate]).
  assert (Hb : Spec.resolves Sample.feud_db "bob" "Bob")
    by (split; [vm_compute; reflexivity | discriminate]).
  assert (Hpos : Spec.edge_exists Sample.feud_db "Ann" "Bob" positive).
  { exists (mkEdge "Ann" "Bob" "friend" positive).
    split; [apply list_elem_of_here | done]. }
  assert (Hneg : Spec.edge_exists Sample.feud_db "Bob" "Ann" negative).
  { exists (mkEdge "Bob" "Ann" "loathes" negative).
    split; [apply list_elem_of_further, list_elem_of_here | done]. }
  split; [exact Ha|]. split; [exact Hb|]. split; [exact Hpos|].
  exact (proj1 (can_recruit_block_before_permit
                  Sample.feud_db "ann" "bob" "Ann" "Bob" Ha Hb) Hneg).
Defined.

(** The two examples of the specification, on the table as built. *)
Example stark_recruits_courtenay :
  Server.can_recruit_query (Ok Sample.graph_db) "Stark" "Courtenay"
  = Spec.yes_text "Captain John Stark" "Lieutenant Howard Courtenay" ["friend"].
Proof. vm_compute. reflexivity. Qed.

Example rudzinski_blocked_by_grazzini :
  Server.can_recruit_query (Ok Sample.graph_db) "Rudzinski" "Grazzini"
  = Spec.no_text "Karl Rudzinski" "Franco Grazzini" ["hates"].
Proof. vm_compute. reflexivity. Qed.

(** C5, as stated, fails: Tasker respects Macleod, a recorded relationship,
    yet asking whether Macleod can recruit Tasker gives UNKNOWN. *)
Lemma unknown_despite_recorded_relationship :
  ¬ (∀ (db : Database) (recruiter target r t : string),
       Spec.resolves db recruiter r → Spec.resolves db target t →
       (Server.can_recruit_query (Ok db) recruiter target = Spec.unknown_text r t
        ↔ ¬ Spec.related db r t)).
Proof.
  intros H.
  specialize (H Sample.graph_db "Macleod" "Tasker"
                "Constable Gordon Macleod" "Sergeant George Tasker").
  destruct H as [H _].
  - split; [vm_compute; reflexivity | discriminate].
  - split; [vm_compute; reflexivity | discriminate].
  - apply H; [vm_compute; reflexivity|].
    exists (mkEdge "Sergeant George Tasker" "Constable Gordon Macleod"
              "respects" positive).
    split; [|right; done].
    apply list_elem_of_In. vm_compute. tauto.
Qed.

(** C5, amended. The answer is UNKNOWN exactly when there is neither a
    negative edge from the target to the recruiter nor a positive edge from
    the recruiter to the target; with either of those two edges the answer
    is NO or YES.  Edges in the two other directions do not count. *)
Theorem can_recruit_unknown_iff
    (db : Database) (recruiter target r t : string) :
  Spec.resolves db recruiter r → Spec.resolves db target t →
  (Server.can_recruit_query (Ok db) recruiter target = Spec.unknown_text r t
   ↔ ¬ Spec.edge_exists db t r negative ∧ ¬ Spec.edge_exists db r t positive)
  ∧ (Spec.edge_exists db t r negative ∨ Spec.edge_exists db r t positive →
     ∃ reasons,
       Server.can_recruit_query (Ok db) recruiter target = Spec.no_text r t reasons
       ∨ Server.can_recruit_query (Ok db) recruiter target = Spec.yes_text r t reasons).
Proof.
  intros Hr Ht. rewrite (can_recruit_resolved db _ _ r t Hr Ht).
  pose proof (edges_between_nil db t r negative) as Nneg.
  pose proof (edges_between_nil db r t positive) as Npos.
  destruct (Server.edges_between db t r negative) as [|b bs];
    destruct (Server.edges_between db r t positive) as [|p ps].
  - split; [split; [intros _; split; [by apply Nneg | by apply Npos] | done]|].
    intros [H|H]; exfalso; [by apply Nneg in H | by apply Npos in H].
  - split.
    + split; [intros H; by apply yes_text_not_unknown in H|].
      intros [_ H]. apply Npos in H. discriminate H.
    + intros _. eexists. by right.
  - split.
    + split; [intros H; by apply no_text_not_unknown in H|].
      intros [H _]. apply Nneg in H. discriminate H.
    + intros _. eexists. by left.
  - split.
    + split; [intros H; by apply no_text_not_unknown in H|].
      intros [H _]. apply Nneg in H. discriminate H.
    + intros _. eexists. by left.
Qed.

Lemma can_recruit_unknown_iff_witness :
  Server.can_recruit_query (Ok Sample.graph_db) "Pringle" "Chabrun"
  = Spec.unknown_text "Constable Harvey Pringle" "Jean-Luc Chabrun"
  ∧ Spec.related Sample.graph_db "Constable Harvey Pringle" "Jean-Luc Chabrun".
Proof.
  assert (Hp : Spec.resolves Sample.graph_db "Pringle" "Constable Harvey Pringle")
    by (split; [vm_compute; reflexivity | discriminate]).
  assert (Hc : Spec.resolves Sample.graph_db "Chabrun" "Jean-Luc Chabrun")
    by (split; [vm_compute; reflexivity | discriminate]).
  split.
  - apply (proj1 (can_recruit_unknown_iff Sample.graph_db
                    "Pringle" "Chabrun" _ _ Hp Hc)).
    rewrite <- !edges_between_nil. split; vm_compute; reflexivity.
  - exists (mkEdge "Constable Harvey Pringle" "Jean-Luc Chabrun" "blames" negative).
    split; [|left; done]. apply list_elem_of_In. vm_compute. tauto.
Defined.

(** ** The job tracker *)

Section jobs.

Implicit Types (search_jobs : gmap string Api.Job) (job_id : string).

Lemma search_status_unknown job_id search_jobs :
  search_jobs !! job_id = None →
  Api.search_status job_id search_jobs = (Api.Fail 404 "Job not found", search_jobs).
Proof. intros H. unfold Api.search_status. by rewrite H. Qed.

(** A status read never leaves a terminal record behind, and never
    disturbs another job. *)
Lemma search_status_other job_id other search_jobs :
  other ≠ job_id →
  (Api.search_status job_id search_jobs).2 !! other = search_jobs !! other.
Proof.
  intros Hne. unfold Api.search_status.
  destruct (search_jobs !! job_id) as [job|]; [|done].
  destruct (Api.job_status job); simpl; try done.
  - destruct (Api.job_result job); simpl; [|done].
    by rewrite lookup_delete_ne.
  - by rewrite lookup_delete_ne.
Qed.

Lemma job_record_ok (outcome : result Api.SearchResult) :
  Spec.job_ok (Api.job_record outcome).
Proof. destruct outcome; [intros _; by eexists | intros H; discriminate H]. Qed.

(** The worker keeps the table well formed. *)
Lemma run_search_job_ok db client job_id query search_jobs :
  map_Forall (λ _, Spec.job_ok) search_jobs →
  map_Forall (λ _, Spec.job_ok)
    (Api.run_search_job db client job_id query search_jobs).1.
Proof.
  intros Hok. unfold Api.run_search_job.
  destruct (search_jobs !! job_id) as [job|] eqn:E; simpl.
  - assert (Hrun : map_Forall (λ _, Spec.job_ok)
              (<[job_id:=Api.mkJob Api.running (Api.job_created job)
                           (Api.job_result job) (Api.job_error job)]> search_jobs)).
    { apply map_Forall_insert_2; [|done]. intros H. discriminate H. }
    destruct client as [client|]; simpl.
    + destruct (Api.job_conversation db client query []) as [outcome log]; simpl.
      apply map_Forall_insert_2; [apply job_record_ok | done].
    + apply map_Forall_insert_2; [|done]. intros H. discriminate H.
  - apply map_Forall_insert_2; [|done]. intros H. discriminate H.
Qed.

Lemma search_start_ok query job_id now search_jobs :
  map_Forall (λ _, Spec.job_ok) search_jobs →
  map_Forall (λ _, Spec.job_ok)
    (Api.search_start query job_id now search_jobs).2.
Proof.
  intros Hok. unfold Api.search_start.
  destruct (negb _); simpl; [done|].
  apply map_Forall_insert_2; [|done]. intros H. discriminate H.
Qed.

End jobs.

(** C3. A status read of an unknown id is NotFound; of a pending or
    running job it is the status alone and the table is untouched; of a
    complete job it is the stored result, of a failed job its message, and
    in both cases the record is deleted, so that the next read of the same
    id is NotFound. *)
Theorem search_status_one_shot
    (job_id : string) (search_jobs : gmap string Api.Job) :
  map_Forall (λ _, Spec.job_ok) search_jobs →
  (search_jobs !! job_id = None →
     Api.search_status job_id search_jobs
     = (Api.Fail 404 "Job not found", search_jobs))
  ∧ (∀ job, search_jobs !! job_id = Some job →
       Api.job_status job = Api.pending ∨ Api.job_status job = Api.running →
       Api.search_status job_id search_jobs
       = (Api.Json (Api.mkStatusBody (Api.job_status job) None None), search_jobs))
  ∧ (∀ job, search_jobs !! job_id = Some job →
       Api.job_status job = Api.complete →
       ∃ result, Api.job_result job = Some result
         ∧ Api.search_status job_id search_jobs
           = (Api.Json (Api.mkStatusBody Api.complete (Some result) None),
              delete job_id search_jobs)
         ∧ Api.search_status job_id (Api.search_status job_id search_jobs).2
           = (Api.Fail 404 "Job not found", delete job_id search_jobs))
  ∧ (∀ job, search_jobs !! job_id = Some job →
       Api.job_status job = Api.error →
       Api.search_status job_id search_jobs
       = (Api.Json (Api.mkStatusBody Api.error None
                      (Some (default "Unknown error" (Api.job_error job)))),
          delete job_id search_jobs)
       ∧ Api.search_status job_id (Api.search_status job_id search_jobs).2
         = (Api.Fail 404 "Job not found", delete job_id search_jobs)).
Proof.
  intros Hok. split; [apply search_status_unknown|].
  split; [|split].
  - intros job Hjob Hst. unfold Api.search_status. rewrite Hjob.
    by destruct Hst as [-> | ->].
  - intros job Hjob Hst.
    destruct (Hok job_id job Hjob Hst) as [result Hres].
    exists result. split; [done|].
    assert (Hfirst : Api.search_status job_id search_jobs
                     = (Api.Json (Api.mkStatusBody Api.complete (Some result) None),
                        delete job_id search_jobs)).
    { unfold Api.search_status. by rewrite Hjob, Hst, Hres. }
    split; [done|]. rewrite Hfirst. simpl.
    apply search_status_unknown, lookup_delete_eq.
  - intros job Hjob Hst.
    assert (Hfirst : Api.search_status job_id search_jobs
                     = (Api.Json (Api.mkStatusBody Api.error None
                          (Some (default "Unknown error" (Api.job_error job)))),
                        delete job_id search_jobs)).
    { unfold Api.search_status. by rewrite Hjob, Hst. }
    split; [done|]. rewrite Hfirst. simpl.
    apply search_status_unknown, lookup_delete_eq.
Qed.

Lemma search_status_one_shot_witness :
  let r := Api.mkSearchResult "skiing" [] (Some "See page 12.") in
  let table : gmap string Api.Job := {[ "ab12cd34" := Api.complete_job r ]} in
  ∃ result, Api.job_result (Api.complete_job r) = Some result
    ∧ Api.search_status "ab12cd34" table
      = (Api.Json (Api.mkStatusBody Api.complete (Some result) None),
         delete "ab12cd34" table)
    ∧ Api.search_status "ab12cd34" (Api.search_status "ab12cd34" table).2
      = (Api.Fail 404 "Job not found", delete "ab12cd34" table).
Proof.
  intros r table.
  assert (Hok : map_Forall (λ _, Spec.job_ok) table).
  { apply map_Forall_singleton. intros _. eexists. reflexivity. }
  apply (proj1 (proj2 (proj2 (search_status_one_shot "ab12cd34" table Hok)))
           (Api.complete_job r)); reflexivity.
Defined.

(** The life of one job: pending after submission, its result on the first
    read after the worker finished, NotFound on the second. *)
Example job_lifecycle :
  let submitted :=
    (Api.search_start "  page one  " "ab12cd34" "2024-01-01T00:00:00" ∅).2 in
  let finished :=
    (Api.run_search_job (Some Sample.manual_db) (Some Sample.eager_client)
       "ab12cd34" "page one" submitted).1 in
  (Api.search_status "ab12cd34" submitted).1
  = Api.Json (Api.mkStatusBody Api.pending None None)
  ∧ (Api.search_status "ab12cd34" finished).1
    = Api.Json (Api.mkStatusBody Api.complete
                  (Some (Api.mkSearchResult "page one" [] (Some "Final answer.")))
                  None)
  ∧ (Api.search_status "ab12cd34" (Api.search_status "ab12cd34" finished).2).1
    = Api.Fail 404 "Job not found".
Proof. vm_compute. auto. Qed.

(** ** The orchestration loop *)

Section loop.

Variables (db : option Database) (client : Client).
Variables (mdl : string) (max_tok : nat).

(** One pass through the loop body. *)
Lemma tool_rounds_step (n : nat) (response : Response) (msgs : list Message)
    (log : list Request) :
  Api.tool_rounds db client mdl max_tok (S n) response msgs log =
    if decide (stop_reason response = tool_use) then
      match Api.run_tools db (resp_content response) with
      | Raise e => (Raise e, log)
      | Ok rs =>
          let msgs' := msgs ++ Api.turn_messages response rs None in
          let req := mkRequest mdl max_tok true msgs' in
          match client req with
          | Raise e => (Raise e, log ++ [req])
          | Ok response' =>
              Api.tool_rounds db client mdl max_tok n response' msgs'
                (log ++ [req])
          end
      end
    else (Ok (response, msgs), log).
Proof.
  simpl. destruct (decide (stop_reason response = tool_use)); [|done].
  unfold mbind, Api.M_bind, Api.lift, Api.create.
  destruct (Api.run_tools db (resp_content response)); [|done].
  by destruct (client _).
Qed.

(** Whatever the service does, a loop with [n] rounds left makes at most
    [n] further exchanges, all of them offering the tools. *)
Lemma tool_rounds_bounded (n : nat) :
  ∀ response msgs log,
    ∃ ext, (Api.tool_rounds db client mdl max_tok n response msgs log).2
           = log ++ ext
           ∧ (length ext ≤ n)%nat ∧ Forall Spec.with_tools ext.
Proof.
  induction n as [|n IH]; intros response msgs log.
  - exists []. simpl. by rewrite app_nil_r.
  - rewrite tool_rounds_step.
    destruct (decide _) as [Hd|Hd];
      [|exists []; simpl; rewrite app_nil_r; split; [done|split; [lia|done]]].
    destruct (Api.run_tools _ _) as [rs|e];
      [|exists []; simpl; rewrite app_nil_r; split; [done|split; [lia|done]]].
    simpl. set (req := mkRequest _ _ _ _).
    destruct (client req) as [response'|e].
    + destruct (IH response' (msgs ++ Api.turn_messages response rs None)
                  (log ++ [req])) as (ext & -> & Hlen & Hall).
      exists (req :: ext). split; [by rewrite <- app_assoc|].
      split; [simpl; lia|]. by constructor.
    + exists [req]. simpl. split; [done|]. split; [lia|]. by constructor.
Qed.

Hypothesis eager : Spec.always_requests_tools db client.

(** A service that always asks for tools uses up every round. *)
Lemma tool_rounds_eager (n : nat) :
  ∀ response msgs log,
    stop_reason response = tool_use →
    (∃ rs, Api.run_tools db (resp_content response) = Ok rs) →
    ∃ response' msgs' ext,
      Api.tool_rounds db client mdl max_tok n response msgs log
      = (Ok (response', msgs'), log ++ ext)
      ∧ length ext = n ∧ Forall Spec.with_tools ext
      ∧ stop_reason response' = tool_use
      ∧ (∃ rs, Api.run_tools db (resp_content response') = Ok rs).
Proof.
  induction n as [|n IH]; intros response msgs log Hstop Hrun.
  - exists response, msgs, []. simpl. by rewrite app_nil_r.
  - rewrite tool_rounds_step. rewrite decide_True by done.
    destruct Hrun as [rs Hrs]. rewrite Hrs. simpl.
    set (req := mkRequest _ _ _ _).
    destruct (proj1 eager req eq_refl) as (response' & Hresp & Hstop' & Hrun').
    rewrite Hresp.
    destruct (IH response' (msgs ++ Api.turn_messages response rs None)
                (log ++ [req]) Hstop' Hrun')
      as (response'' & msgs'' & ext & -> & Hlen & Hall & Hs & Hr).
    exists response'', msgs'', (req :: ext).
    split; [by rewrite <- app_assoc|]. split; [simpl; lia|].
    split; [by constructor|]. done.
Qed.

End loop.

Section conversation.

Variables (db : option Database) (client : Client).
Variables (mdl : string) (max_tok : nat).

(** When the loop hands back a response that still asks for tools, it
    has used all its rounds. *)
Lemma tool_rounds_exhausted (n : nat) :
  ∀ response msgs log response' msgs' log',
    Api.tool_rounds db client mdl max_tok n response msgs log
    = (Ok (response', msgs'), log') →
    stop_reason response' = tool_use →
    ∃ ext, log' = log ++ ext ∧ length ext = n ∧ Forall Spec.with_tools ext.
Proof.
  induction n as [|n IH]; intros response msgs log response' msgs' log' Hrun Hstop.
  - injection Hrun as <- <- <-. exists []. by rewrite app_nil_r.
  - rewrite tool_rounds_step in Hrun.
    destruct (decide _) as [Hd|Hd]; [|injection Hrun as <- <- <-; done].
    destruct (Api.run_tools _ _) as [rs|e]; [|discriminate Hrun].
    simpl in Hrun. set (req := mkRequest _ _ _ _) in Hrun.
    destruct (client req) as [response''|e]; [|discriminate Hrun].
    destruct (IH _ _ _ _ _ _ Hrun Hstop) as (ext & -> & Hlen & Hall).
    exists (req :: ext). split; [by rewrite <- app_assoc|].
    split; [simpl; lia|]. by constructor.
Qed.

Lemma converse_unfold (limit : nat) (query : string) :
  Api.converse db client mdl max_tok limit query [] =
    let msgs := [mkMessage user (Text query)] in
    let req := mkRequest mdl max_tok true msgs in
    match client req with
    | Raise e => (Raise e, [req])
    | Ok response =>
        Api.tool_rounds db client mdl max_tok limit response msgs [req]
    end.
Proof.
  unfold Api.converse, mbind, Api.M_bind, Api.create. simpl.
  by destruct (client _).
Qed.

Lemma converse_bounded (limit : nat) (query : string) :
  (length (Api.converse db client mdl max_tok limit query []).2 ≤ S limit)%nat
  ∧ Forall Spec.with_tools (Api.converse db client mdl max_tok limit query []).2.
Proof.
  rewrite converse_unfold. simpl. set (req := mkRequest _ _ _ _).
  destruct (client req) as [response|e].
  - destruct (tool_rounds_bounded db client mdl max_tok limit response
                [mkMessage user (Text query)] [req]) as (ext & -> & Hlen & Hall).
    simpl. split; [lia|]. by constructor.
  - simpl. split; [lia|]. by repeat constructor.
Qed.

Lemma converse_exhausted (limit : nat) (query : string) response msgs log :
  Api.converse db client mdl max_tok limit query [] = (Ok (response, msgs), log) →
  stop_reason response = tool_use →
  length log = S limit ∧ Forall Spec.with_tools log.
Proof.
  rewrite converse_unfold. simpl. set (req := mkRequest _ _ _ _).
  destruct (client req) as [response0|e]; [|discriminate].
  intros Hrun Hstop.
  destruct (tool_rounds_exhausted _ _ _ _ _ _ _ Hrun Hstop) as (ext & -> & Hlen & Hall).
  simpl. split; [lia|]. by constructor.
Qed.

Lemma converse_eager (limit : nat) (query : string) :
  Spec.always_requests_tools db client →
  ∃ response msgs log,
    Api.converse db client mdl max_tok limit query [] = (Ok (response, msgs), log)
    ∧ length log = S limit ∧ Forall Spec.with_tools log
    ∧ stop_reason response = tool_use
    ∧ (∃ rs, Api.run_tools db (resp_content response) = Ok rs).
Proof.
  intros eager. rewrite converse_unfold. simpl. set (req := mkRequest _ _ _ _).
  destruct (proj1 eager req eq_refl) as (response0 & -> & Hstop & Hrun).
  destruct (tool_rounds_eager db client mdl max_tok eager limit response0
              [mkMessage user (Text query)] [req] Hstop Hrun)
    as (response & msgs & ext & -> & Hlen & Hall & Hs & Hr).
  exists response, msgs, (req :: ext). simpl.
  split; [done|]. split; [lia|]. split; [by constructor|]. done.
Qed.

(** The forced final answer adds at most one exchange, without tools. *)
Lemma force_final_unfold (response : Response) (msgs : list Message)
    (log : list Request) :
  Api.force_final db client mdl max_tok response msgs log =
    if decide (stop_reason response = tool_use) then
      match Api.run_tools db (resp_content response) with
      | Raise e => (Raise e, log)
      | Ok rs =>
          (client (mkRequest mdl max_tok false
                     (msgs ++ Api.turn_messages response rs
                                (Some Api.final_instruction))),
           log ++ [mkRequest mdl max_tok false
                     (msgs ++ Api.turn_messages response rs
                                (Some Api.final_instruction))])
      end
    else (Ok response, log).
Proof.
  unfold Api.force_final. destruct (decide _) as [Hd|Hd]; [|done].
  unfold mbind, Api.M_bind, Api.lift, Api.create.
  by destruct (Api.run_tools _ _).
Qed.

End conversation.

Section job_exchanges.

Variables (db : option Database) (client : Client) (query : string).

(** The exchanges of a job: at most seven with tools, then at most one
    without, which can only be the eighth. *)
Lemma job_conversation_bounded :
  let log := (Api.job_conversation db client query []).2 in
  (length log ≤ 8)%nat
  ∧ ∀ i req, log !! i = Some req → tools req = false → i = 7%nat.
Proof.
  unfold Api.job_conversation, mbind, Api.M_bind.
  pose proof (converse_bounded db client Api.sonnet 2048 6 query) as [Hlen Hall].
  pose proof (converse_exhausted db client Api.sonnet 2048 6 query) as Hex.
  destruct (Api.converse db client Api.sonnet 2048 6 query [])
    as [[[response msgs]|e] log0]; simpl in *.
  - rewrite force_final_unfold.
    destruct (decide (stop_reason response = tool_use)) as [Hd|Hd].
    + destruct (Hex response msgs log0 eq_refl Hd) as [Hlen7 _].
      destruct (Api.run_tools _ _) as [rs|e]; simpl.
      * set (req := mkRequest _ _ _ _).
        destruct (client req); simpl in *;
          (split; [rewrite length_app; simpl; lia|]);
          intros i r Hi Hr;
          (destruct (decide (i < length log0)%nat) as [Hlt|Hge];
           [ rewrite lookup_app_l in Hi by done;
             rewrite Forall_lookup in Hall;
             apply Hall in Hi;
             unfold Spec.with_tools in Hi; congruence
           | apply lookup_lt_Some in Hi; rewrite length_app in Hi;
             simpl in Hi; lia ]).
      * split; [lia|]. intros i r Hi Hr.
        rewrite Forall_lookup in Hall. apply Hall in Hi.
        unfold Spec.with_tools in Hi. congruence.
    + simpl. split; [lia|]. intros i r Hi Hr.
      rewrite Forall_lookup in Hall. apply Hall in Hi.
      unfold Spec.with_tools in Hi. congruence.
  - split; [lia|]. intros i r Hi Hr.
    rewrite Forall_lookup in Hall. apply Hall in Hi.
    unfold Spec.with_tools in Hi. congruence.
Qed.

Lemma job_conversation_eager :
  Spec.always_requests_tools db client →
  ∃ final_text log,
    Api.job_conversation db client query [] = (Ok final_text, log)
    ∧ length log = 8%nat
    ∧ ∀ i req, log !! i = Some req → tools req = bool_decide (i < 7)%nat.
Proof.
  intros eager. unfold Api.job_conversation, mbind, Api.M_bind.
  destruct (converse_eager db client Api.sonnet 2048 6 query eager)
    as (response & msgs & log0 & -> & Hlen & Hall & Hstop & rs & Hrs).
  simpl. rewrite force_final_unfold, decide_True by done. rewrite Hrs. simpl.
  set (req := mkRequest _ _ _ _).
  destruct (proj2 eager req eq_refl) as [final ->]. simpl.
  exists (Api.response_text (resp_content final)), (log0 ++ [req]).
  split; [done|]. split; [rewrite length_app; simpl; lia|].
  intros i r Hi.
  destruct (decide (i < length log0)%nat) as [Hlt|Hge].
  - rewrite lookup_app_l in Hi by done.
    rewrite Forall_lookup in Hall.
    apply Hall in Hi. unfold Spec.with_tools in Hi.
    rewrite Hi. symmetry. apply bool_decide_eq_true. lia.
  - pose proof (lookup_lt_Some _ _ _ Hi) as Hb. rewrite length_app in Hb.
    simpl in Hb. assert (i = length log0) as -> by lia.
    rewrite lookup_app_r, Nat.sub_diag in Hi by lia. injection Hi as <-.
    simpl. symmetry. apply bool_decide_eq_false. lia.
Qed.

End job_exchanges.

Section cumulative.

Variables (db : option Database) (client : Client).

Lemma chained_one (req : Request) : Spec.chained db client [req].
Proof. intros i r1 r2 H1 H2. by destruct i. Qed.


Lemma chained_snoc (log : list Request) (r1 r2 : Request)
    (response : Response) (rs : list ToolResult) (instruction : option string) :
  Spec.chained db client log → list.last log = Some r1 →
  client r1 = Ok response → stop_reason response = tool_use →
  Api.run_tools db (resp_content response) = Ok rs →
  messages r2 = messages r1 ++ Api.turn_messages response rs instruction →
  Spec.chained db client (log ++ [r2]).
Proof.
  intros Hch Hlast Hresp Hstop Hrun Hmsgs i a b Ha Hb.
  pose proof (lookup_lt_Some _ _ _ Hb) as Hlen.
  rewrite length_app in Hlen. simpl in Hlen.
  destruct (decide (S i < length log)%nat) as [Hlt|Hge].
  - rewrite lookup_app_l in Ha, Hb by lia. by apply (Hch i).
  - assert (S i = length log) as Hi by lia.
    rewrite lookup_app_l in Ha by lia.
    rewrite lookup_app_r, Hi, Nat.sub_diag in Hb by lia. injection Hb as <-.
    rewrite list.last_lookup, <- Hi in Hlast. simpl in Hlast.
    assert (a = r1) as -> by congruence.
    by exists response, rs, instruction.
Qed.

Variables (mdl : string) (max_tok : nat).

(** The loop keeps the exchanges chained, and the messages it holds are
    those of the last request. *)
Lemma tool_rounds_chained (n : nat) :
  ∀ response msgs log r_last,
    list.last log = Some r_last → messages r_last = msgs →
    client r_last = Ok response → Spec.chained db client log →
    Spec.chained db client
      (Api.tool_rounds db client mdl max_tok n response msgs log).2
    ∧ ∀ response' msgs',
        (Api.tool_rounds db client mdl max_tok n response msgs log).1
        = Ok (response', msgs') →
        ∃ r', list.last (Api.tool_rounds db client mdl max_tok n response msgs log).2
              = Some r'
              ∧ messages r' = msgs' ∧ client r' = Ok response'.
Proof.
  induction n as [|n IH]; intros response msgs log r_last Hlast Hmsgs Hresp Hch.
  - simpl. split; [done|]. intros response' msgs' [= <- <-]. by exists r_last.
  - rewrite tool_rounds_step.
    destruct (decide _) as [Hd|Hd];
      [|simpl; split; [done|]; intros response' msgs' [= <- <-]; by exists r_last].
    destruct (Api.run_tools _ _) as [rs|e0] eqn:Hrun;
      [|simpl; split; [done|]; intros ?? [=]].
    simpl. set (req := mkRequest _ _ _ _).
    assert (Hch' : Spec.chained db client (log ++ [req])).
    { eapply chained_snoc; try done. simpl. by rewrite Hmsgs. }
    destruct (client req) as [response'|e0] eqn:Hreq.
    + apply (IH response' _ (log ++ [req]) req); try done.
      by rewrite list.last_snoc.
    + simpl. split; [done|]. intros ?? [=].
Qed.

Lemma converse_chained (limit : nat) (query : string) :
  Spec.chained db client (Api.converse db client mdl max_tok limit query []).2
  ∧ (∀ r, (Api.converse db client mdl max_tok limit query []).2 !! 0%nat = Some r →
          r = Spec.first_request mdl max_tok query)
  ∧ ∀ response msgs,
      (Api.converse db client mdl max_tok limit query []).1 = Ok (response, msgs) →
      ∃ r', list.last (Api.converse db client mdl max_tok limit query []).2 = Some r'
            ∧ messages r' = msgs ∧ client r' = Ok response.
Proof.
  rewrite converse_unfold. simpl. set (req := mkRequest _ _ _ _).
  destruct (client req) as [response|e0] eqn:Hreq.
  - destruct (tool_rounds_chained limit response [mkMessage user (Text query)]
                [req] req eq_refl eq_refl Hreq (chained_one req)) as [Hch Hlast].
    split; [done|]. split; [|done].
    destruct (tool_rounds_bounded db client mdl max_tok limit response
                [mkMessage user (Text query)] [req]) as (ext & -> & _).
    by intros r [= <-].
  - simpl. split; [apply chained_one|]. split; [by intros r [= <-]|].
    intros ?? [=].
Qed.

End cumulative.

Lemma job_conversation_chained
    (db : option Database) (client : Client) (query : string) :
  Spec.chained db client (Api.job_conversation db client query []).2
  ∧ (∀ r, (Api.job_conversation db client query []).2 !! 0%nat = Some r →
          r = Spec.first_request Api.sonnet 2048 query)
  ∧ ∀ final_text,
      (Api.job_conversation db client query []).1 = Ok final_text →
      ∃ r' response,
        list.last (Api.job_conversation db client query []).2 = Some r'
        ∧ client r' = Ok response
        ∧ final_text = Api.response_text (resp_content response).
Proof.
  unfold Api.job_conversation, mbind, Api.M_bind.
  destruct (converse_chained db client Api.sonnet 2048 6 query)
    as (Hch & Hfirst & Hlast).
  destruct (Api.converse db client Api.sonnet 2048 6 query [])
    as [[[response msgs]|e0] log0]; simpl in *;
    [|split; [done|]; split; [done|]; intros ? [=]].
  destruct (Hlast response msgs eq_refl) as (r' & Hr' & Hmsgs & Hresp).
  rewrite force_final_unfold.
  destruct (decide (stop_reason response = tool_use)) as [Hd|Hd].
  - destruct (Api.run_tools _ _) as [rs|e1] eqn:Hrun;
      [|split; [done|]; split; [done|]; intros ? [=]].
    simpl. set (req := mkRequest _ _ _ _).
    assert (Hch' : Spec.chained db client (log0 ++ [req])).
    { eapply chained_snoc; try done. simpl. by rewrite Hmsgs. }
    assert (Hfirst' : ∀ r, (log0 ++ [req]) !! 0%nat = Some r →
                           r = Spec.first_request Api.sonnet 2048 query).
    { intros r Hr. apply Hfirst.
      rewrite lookup_app_l in Hr; [done|].
      destruct log0; [discriminate Hr'|simpl; lia]. }
    destruct (client req) as [final|e2] eqn:Hfinal; simpl;
      (split; [done|]; split; [done|]); [|intros ? [=]].
    intros final_text [= <-]. exists req, final.
    by rewrite list.last_snoc.
  - simpl. split; [done|]. split; [done|].
    intros final_text [= <-]. by exists r', response.
Qed.

Lemma eager_client_always_requests_tools :
  Spec.always_requests_tools (Some Sample.manual_db) Sample.eager_client.
Proof.
  split; intros req Hreq; unfold Sample.eager_client; rewrite Hreq.
  - eexists. split; [reflexivity|]. split; [reflexivity|].
    eexists. vm_compute. reflexivity.
  - eexists. reflexivity.
Qed.

(** C2, as stated, fails: with a service that asks for tools on every
    round, the background job makes eight exchanges, not at most seven, and
    the two interactive profiles never withhold the tools: their last
    exchange still offers them. *)
Lemma background_job_makes_eight_exchanges :
  Spec.always_requests_tools (Some Sample.manual_db) Sample.eager_client
  ∧ tools <$> (Api.run_search_job (Some Sample.manual_db)
                 (Some Sample.eager_client) "ab12cd34" "page one"
                 Sample.one_job).2
    = [true; true; true; true; true; true; true; false]
  ∧ tools <$> (Api.search_fast (Some Sample.manual_db)
                 (Some Sample.eager_client) "page one").2
    = [true; true; true]
  ∧ tools <$> (Api.search (Some Sample.manual_db)
                 (Some Sample.eager_client) "page one").2
    = [true; true; true; true; true; true].
Proof.
  split; [exact eager_client_always_requests_tools|].
  vm_compute. auto.
Qed.

(** C2, amended. The loop always ends.  Whatever the service does, the
    short profile (2 rounds) makes at most 3 exchanges and the standard
    profile (5 rounds) at most 6, every one offering the tools; a job
    (6 rounds) makes at most 8, and only the eighth can withhold the tools.
    When the service answers every request that offers the tools with a
    request for tools whose calls all run, and answers the request without
    tools, these numbers are reached exactly.  The interactive profiles
    then answer from the response to their last request, which still asks
    for tools: the short profile with its text (or "No results found." for
    an empty text), the standard profile with that text packaged (status
    500 when packaging raises).  The job stores what packaging the text of
    the response to its eighth, tool-less request gives: the result as
    complete, or the exception as error. *)
Theorem orchestration_exchanges
    (db : option Database) (client : Client) (query : string) :
  ((length (Api.search_fast db (Some client) query).2 ≤ 3)%nat
   ∧ Forall Spec.with_tools (Api.search_fast db (Some client) query).2)
  ∧ ((length (Api.search db (Some client) query).2 ≤ 6)%nat
     ∧ Forall Spec.with_tools (Api.search db (Some client) query).2)
  ∧ (∀ job_id search_jobs,
       let log := (Api.run_search_job db (Some client) job_id query search_jobs).2 in
       (length log ≤ 8)%nat
       ∧ ∀ i req, log !! i = Some req → tools req = false → i = 7%nat)
  ∧ (Spec.always_requests_tools db client →
     (Py.strip query ≠ "" →
      ∃ request last log,
        list.last log = Some request ∧ client request = Ok last
        ∧ stop_reason last = tool_use
        ∧ length log = 3%nat ∧ Forall Spec.with_tools log
        ∧ Api.search_fast db (Some client) query
          = (Api.Json (Api.mkSearchResult (Py.strip query) []
                         (Some (if Py.truthy (Api.response_text (resp_content last))
                                then Api.response_text (resp_content last)
                                else "No results found."))), log))
     ∧ (Py.strip query ≠ "" →
        ∃ request last log,
          list.last log = Some request ∧ client request = Ok last
          ∧ stop_reason last = tool_use
          ∧ length log = 6%nat ∧ Forall Spec.with_tools log
          ∧ Api.search db (Some client) query
            = (Api.answer (Api.package (Py.strip query)
                             (Api.response_text (resp_content last))), log))
     ∧ (∀ job_id search_jobs, is_Some (search_jobs !! job_id) →
        ∃ request final log,
          log !! 7%nat = Some request ∧ client request = Ok final
          ∧ length log = 8%nat
          ∧ (∀ i req, log !! i = Some req → tools req = bool_decide (i < 7)%nat)
          ∧ Api.run_search_job db (Some client) job_id query search_jobs
            = (<[job_id := Api.job_record
                             (Api.package query
                                (Api.response_text (resp_content final)))]>
                 search_jobs, log))).
Proof.
  split; [|split; [|split; [|intros eager; split; [|split]]]].
  - unfold Api.search_fast. destruct (negb _); [simpl; split; [lia|done]|].
    pose proof (converse_bounded db client Api.haiku 1024 2 (Py.strip query)) as H.
    destruct (Api.converse _ _ _ _ _ _ _) as [[[response msgs]|e] log]; exact H.
  - unfold Api.search. destruct (negb _); [simpl; split; [lia|done]|].
    pose proof (converse_bounded db client Api.sonnet 2048 5 (Py.strip query)) as H.
    destruct (Api.converse _ _ _ _ _ _ _) as [[[response msgs]|e] log]; exact H.
  - intros job_id search_jobs. unfold Api.run_search_job.
    destruct (search_jobs !! job_id) as [job|];
      [|simpl; split; [lia|]; intros i req Hi; by rewrite lookup_nil in Hi].
    pose proof (job_conversation_bounded db client query) as H.
    destruct (Api.job_conversation db client query []) as [outcome log]; exact H.
  - intros Hq. apply truthy_ne in Hq. unfold Api.search_fast. rewrite Hq. simpl.
    destruct (converse_chained db client Api.haiku 1024 2 (Py.strip query))
      as (_ & _ & Hlast).
    destruct (converse_eager db client Api.haiku 1024 2 (Py.strip query) eager)
      as (last & msgs & log & Hrun & Hlen & Hall & Hstop & _).
    rewrite Hrun in Hlast |- *.
    destruct (Hlast last msgs eq_refl) as (request & Hreq & _ & Hresp).
    by exists request, last, log.
  - intros Hq. apply truthy_ne in Hq. unfold Api.search. rewrite Hq. simpl.
    destruct (converse_chained db client Api.sonnet 2048 5 (Py.strip query))
      as (_ & _ & Hlast).
    destruct (converse_eager db client Api.sonnet 2048 5 (Py.strip query) eager)
      as (last & msgs & log & Hrun & Hlen & Hall & Hstop & _).
    rewrite Hrun in Hlast |- *.
    destruct (Hlast last msgs eq_refl) as (request & Hreq & _ & Hresp).
    by exists request, last, log.
  - intros job_id search_jobs [job Hjob]. unfold Api.run_search_job. rewrite Hjob.
    destruct (job_conversation_chained db client query) as (_ & _ & Hlast).
    destruct (job_conversation_eager db client query eager)
      as (final_text & log & Hrun & Hlen & Htools).
    rewrite Hrun in Hlast |- *.
    destruct (Hlast final_text eq_refl) as (request & final & Hreq & Hresp & ->).
    exists request, final, log.
    simpl in Hreq. rewrite list.last_lookup, Hlen in Hreq.
    split; [exact Hreq|]. split; [exact Hresp|]. split; [exact Hlen|].
    split; [exact Htools|]. simpl. by rewrite insert_insert_eq.
Qed.

Lemma orchestration_exchanges_witness :
  ∃ request final log,
    log !! 7%nat = Some request ∧ Sample.eager_client request = Ok final
    ∧ length log = 8%nat
    ∧ (∀ i req, log !! i = Some req → tools req = bool_decide (i < 7)%nat)
    ∧ Api.run_search_job (Some Sample.manual_db) (Some Sample.eager_client)
        "ab12cd34" "page one" Sample.one_job
      = (<["ab12cd34" := Api.job_record
                           (Api.package "page one"
                              (Api.response_text (resp_content final)))]>
           Sample.one_job, log).
Proof.
  apply (proj2 (proj2 (proj2 (proj2 (proj2
           (orchestration_exchanges (Some Sample.manual_db) Sample.eager_client
              "page one")))
           eager_client_always_requests_tools))).
  eexists. vm_compute. reflexivity.
Defined.

(** ** Page lookup *)

Section pages.

Variable db : Database.

Lemma fetch_page_none (n : Z) :
  n ∉ (page_number <$> manual_pages db) → Server.fetch_page db n = None.
Proof.
  intros Hn. unfold Server.fetch_page.
  destruct (filter _ _) as [|p l] eqn:E; [done|]. exfalso. apply Hn.
  assert (Hp : p ∈ filter (λ p, page_number p = n) (manual_pages db))
    by (rewrite E; apply list_elem_of_here).
  apply list_elem_of_filter in Hp as [<- Hp]. by apply list_elem_of_fmap_2.
Qed.

Lemma fetch_page_some (n : Z) :
  n ∈ (page_number <$> manual_pages db) →
  ∃ p, Server.fetch_page db n = Some p
       ∧ p ∈ manual_pages db ∧ page_number p = n.
Proof.
  intros Hn. apply list_elem_of_fmap in Hn as (q & -> & Hq).
  unfold Server.fetch_page.
  destruct (filter _ _) as [|p l] eqn:E.
  - assert (Hq' : q ∈ filter (λ p, page_number p = page_number q) (manual_pages db))
      by (by apply list_elem_of_filter).
    rewrite E in Hq'. by apply not_elem_of_nil in Hq'.
  - exists p. split; [done|].
    assert (Hp : p ∈ filter (λ p, page_number p = page_number q) (manual_pages db))
      by (rewrite E; apply list_elem_of_here).
    apply list_elem_of_filter in Hp as [Hp1 Hp2]. done.
Qed.

(** With page numbers unique, the number determines the stored row. *)
Lemma page_number_unique (p q : Page) :
  NoDup (page_number <$> manual_pages db) →
  p ∈ manual_pages db → q ∈ manual_pages db →
  page_number p = page_number q → p = q.
Proof.
  intros Hnd Hp Hq Heq.
  apply list_elem_of_lookup in Hp as [i Hi], Hq as [j Hj].
  assert (i = j) as ->.
  { eapply NoDup_lookup; [exact Hnd| |];
      rewrite list_lookup_fmap; [by rewrite Hi | by rewrite Hj, Heq]. }
  congruence.
Qed.

End pages.

Lemma manual_db_pages : Spec.pages_1_to_196 Sample.manual_db.
Proof.
  split.
  - apply (bool_decide_unpack _). vm_compute. reflexivity.
  - intros n. split.
    + intros Hn. apply list_elem_of_fmap in Hn as (p & -> & Hp).
      apply list_elem_of_fmap in Hp as (k & -> & Hk).
      apply elem_of_seq in Hk. simpl. lia.
    + intros Hn. apply list_elem_of_fmap.
      exists (Sample.numbered_page (Z.to_nat n)). split; [simpl; lia|].
      apply list_elem_of_fmap_2, elem_of_seq. lia.
Qed.

(** C6, as stated, fails for the MCP server: its NotFound text for pages 0
    and 197 names the requested page only, not the valid range. *)
Lemma server_not_found_names_no_range :
  Spec.pages_1_to_196 Sample.manual_db
  ∧ Server.show_page_query (Ok Sample.manual_db) 0 = "Page 0 not found"
  ∧ Server.show_page_query (Ok Sample.manual_db) 197 = "Page 197 not found".
Proof. split; [exact manual_db_pages | vm_compute; auto]. Qed.

Lemma int64_spec (n : Z) :
  Sql.int64 n = true ↔ -9223372036854775808 ≤ n ≤ 9223372036854775807.
Proof. unfold Sql.int64. rewrite andb_true_iff, !Z.leb_le. done. Qed.

(** C6, amended. In a manual whose pages are numbered 1..196, each number
    once, both lookups return for every n in 1..196 the header with page
    number n and the section tag of the stored page n, followed by its full
    content.  For any other n that fits a signed 64-bit integer the API
    answers NotFound naming the range 1-196, while the MCP server answers
    NotFound naming only n.  A number outside the 64-bit range cannot be
    bound to the statement, and both answer with the error text of that
    failure. *)
Theorem show_page_exact (db : Database) :
  Spec.pages_1_to_196 db →
  (∀ n, 1 ≤ n ≤ 196 →
     ∃ p, p ∈ manual_pages db ∧ page_number p = n
       ∧ (∀ q, q ∈ manual_pages db → page_number q = n → q = p)
       ∧ Api.show_page_db (Some db) n
         = "=== Page " +:+ pretty n +:+ " [" +:+ section_type p +:+ "] ==="
           +:+ Py.nl +:+ Py.nl +:+ content p
       ∧ Server.show_page_query (Ok db) n
         = "=== Page " +:+ pretty n +:+ " [" +:+ section_type p +:+ "] ==="
           +:+ Py.nl +:+ Py.nl +:+ content p)
  ∧ (∀ n, ¬ (1 ≤ n ≤ 196) →
       -9223372036854775808 ≤ n ≤ 9223372036854775807 →
       Api.show_page_db (Some db) n
       = "Page " +:+ pretty n +:+ " not found. Valid pages are 1-196."
       ∧ Server.show_page_query (Ok db) n = "Page " +:+ pretty n +:+ " not found")
  ∧ (∀ n, ¬ (-9223372036854775808 ≤ n ≤ 9223372036854775807) →
       Api.show_page_db (Some db) n
       = "Error: Python int too large to convert to SQLite INTEGER"
       ∧ Server.show_page_query (Ok db) n
         = "Error: Python int too large to convert to SQLite INTEGER").
Proof.
  intros [Hnd Hdense]. split; [|split].
  - intros n Hn.
    assert (Hfits : Sql.int64 n = true) by (apply int64_spec; lia).
    apply Hdense in Hn.
    destruct (fetch_page_some db n Hn) as (p & Hfetch & Hp & Hnum).
    exists p. split; [done|]. split; [done|]. split.
    + intros q Hq Hqn. apply (page_number_unique db); [done..|congruence].
    + unfold Api.show_page_db, Server.show_page_query. rewrite Hfits, Hfetch.
      unfold Server.page_text. by rewrite Hnum.
  - intros n Hn Hfits. apply int64_spec in Hfits. rewrite <- Hdense in Hn.
    unfold Api.show_page_db, Server.show_page_query.
    by rewrite Hfits, (fetch_page_none db n Hn).
  - intros n Hn. rewrite <- int64_spec in Hn. apply not_true_is_false in Hn.
    unfold Api.show_page_db, Server.show_page_query. by rewrite Hn.
Qed.

Lemma show_page_exact_witness :
  (∃ p, p ∈ manual_pages Sample.manual_db ∧ page_number p = 196
     ∧ (∀ q, q ∈ manual_pages Sample.manual_db → page_number q = 196 → q = p)
     ∧ Api.show_page_db (Some Sample.manual_db) 196
       = "=== Page " +:+ pretty 196 +:+ " [" +:+ section_type p +:+ "] ==="
         +:+ Py.nl +:+ Py.nl +:+ content p
     ∧ Server.show_page_query (Ok Sample.manual_db) 196
       = "=== Page " +:+ pretty 196 +:+ " [" +:+ section_type p +:+ "] ==="
         +:+ Py.nl +:+ Py.nl +:+ content p)
  ∧ Api.show_page_db (Some Sample.manual_db) 197
    = "Page " +:+ pretty 197 +:+ " not found. Valid pages are 1-196."
  ∧ Server.show_page_query (Ok Sample.manual_db) 9223372036854775808
    = "Error: Python int too large to convert to SQLite INTEGER".
Proof.
  destruct (show_page_exact Sample.manual_db manual_db_pages)
    as (Hin & Hout & Hbig).
  split; [|split].
  - apply Hin. lia.
  - apply Hout; lia.
  - apply Hbig. lia.
Defined.

(** ** Section filter *)

(** C7, as stated, fails for the MCP server: given the section "weapons" it
    runs the search, using the name as a pattern on the section tag, and
    returns the two pages tagged "weapons". *)
Lemma server_searches_unknown_section :
  ("weapons" ∉ Api.valid_sections)
  ∧ Server.filter_by_section_query (Ok Sample.indexed_db) "weapons" "rifle"
    = Py.join Py.nl
        [ "Found 2 results in 'weapons':" +:+ Py.nl;
          "**Page 1** [weapons]"; "  ...>>>rifle<<<..." +:+ Py.nl;
          "**Page 3** [weapons]"; "  ...>>>rifle<<<..." +:+ Py.nl ].
Proof.
  split; [|vm_compute; reflexivity].
  apply (bool_decide_unpack _). vm_compute. reflexivity.
Qed.

(** C7, amended. For a section name outside the five valid ones the API
    runs no statement and returns the Validation text that lists exactly
    the five names.  The MCP server has no such check and never answers
    with the Validation text: it keeps the name as given and compares the
    section tag of every hit of the index with the pattern made of the
    name.  When that pattern is within the length limit of [LIKE] (50000
    bytes) the answer is the first 15 matching hits, or "No results" when
    there is none; when the pattern is longer (up to the 1000000000 bytes
    a statement accepts) and the index has a hit, the answer is the error
    text of the failed comparison. *)
Theorem invalid_section_validation
    (db : option Database) (conn : result Database) (section query : string) :
  section ∉ Api.valid_sections →
  Api.filter_by_section_run db section query
  = ([], "Invalid section " +:+ Py.quote section
         +:+ ". Valid sections: characters, equipment, locations, story_sections, general_content")
  ∧ Api.filter_by_section_db db section query
    = "Invalid section " +:+ Py.quote section
      +:+ ". Valid sections: characters, equipment, locations, story_sections, general_content"
  ∧ Server.section_map section = section
  ∧ Server.filter_by_section_query conn section query
    ≠ "Invalid section " +:+ Py.quote section
      +:+ ". Valid sections: characters, equipment, locations, story_sections, general_content"
  ∧ (∀ d hits, conn = Ok d → manual_fts d query = Ok hits →
       Sql.too_complex (Sql.contains_pat section) = false →
       let results :=
         hit_row 64 <$>
           take 15 (filter (λ h, Sql.like (Sql.contains_pat section) (hit_section h))
                      hits) in
       (results = [] →
          Server.filter_by_section_query conn section query
          = "No results found for " +:+ Py.quote query +:+ " in section "
            +:+ Py.quote section)
       ∧ (results ≠ [] →
          Server.filter_by_section_query conn section query
          = Py.join Py.nl
              (("Found " +:+ pretty (length results) +:+ " results in "
                +:+ Py.quote section +:+ ":" +:+ Py.nl)
               :: concat (row_lines <$> results))))
  ∧ (∀ d hits, conn = Ok d → manual_fts d query = Ok hits → hits ≠ [] →
       50000 < Sql.utf8_length (Sql.contains_pat section) ≤ 1000000000 →
       Server.filter_by_section_query conn section query
       = "Error: LIKE or GLOB pattern too complex").
Proof.
  intros Hbad.
  assert (Hmap : Server.section_map section = section).
  { unfold Server.section_map. unfold Api.valid_sections in Hbad.
    repeat case_decide; subst; try done; exfalso; apply Hbad; set_solver. }
  assert (Hrun : Api.filter_by_section_run db section query
                 = ([], "Invalid section " +:+ Py.quote section
                        +:+ ". Valid sections: characters, equipment, locations, story_sections, general_content")).
  { unfold Api.filter_by_section_run. rewrite bool_decide_eq_false_2 by done.
    reflexivity. }
  split; [done|]. split; [unfold Api.filter_by_section_db; by rewrite Hrun|].
  split; [done|]. split; [|split].
  - unfold Server.filter_by_section_query. destruct conn as [d|msg]; [|discriminate].
    destruct (mbind _ _) as [kept|msg]; [|discriminate].
    destruct (hit_row 64 <$> take 15 kept) as [|r rs]; [discriminate|].
    simpl. discriminate.
  - intros d hits -> Hhits Hfits results. unfold Server.filter_by_section_query.
    rewrite Hhits, Hmap. cbn [mbind result_bind].
    rewrite (scan_like _ (λ h, Some (hit_section h))) by done.
    cbn [Sql.like_null]. fold results. split.
    + intros ->. done.
    + intros Hne. by destruct results.
  - intros d hits -> Hhits Hne [Hlong _].
    assert (Sql.too_complex (Sql.contains_pat section) = true)
      by (by apply Z.ltb_lt).
    unfold Server.filter_by_section_query.
    rewrite Hhits, Hmap. cbn [mbind result_bind].
    destruct hits as [|h hits]; [done|].
    by rewrite (scan_raise _ Sql.pattern_error h hits) by by apply like_run_raise.
Qed.

Lemma invalid_section_validation_witness :
  Api.filter_by_section_run (Some Sample.indexed_db) "weapons" "rifle"
  = ([], "Invalid section " +:+ Py.quote "weapons"
         +:+ ". Valid sections: characters, equipment, locations, story_sections, general_content").
Proof.
  apply (invalid_section_validation (Some Sample.indexed_db)
           (Ok Sample.indexed_db) "weapons" "rifle").
  apply (bool_decide_unpack _). vm_compute. reflexivity.
Defined.

(** ** Tool dispatch *)

Section tool_failures.

Variables (db : option Database) (client : Client).
Variables (mdl : string) (max_tok : nat).

(** The first call that raises ends the turn with its exception. *)
Lemma run_tools_first_failure (before : list Block) (id name : string)
    (input : ToolInput) (rest : list Block) (e : string) :
  (∃ rs, Api.run_tools db before = Ok rs) →
  Api.execute_tool db name input = Raise e →
  Api.run_tools db (before ++ ToolUseBlock id name input :: rest) = Raise e.
Proof.
  intros Hbefore Hcall.
  induction before as [|[t|id' name' input'] before IH]; simpl in *.
  - by rewrite Hcall.
  - by apply IH.
  - destruct (Api.execute_tool db name' input') as [out|e'];
      [|by destruct Hbefore].
    destruct (Api.run_tools db before) as [rs|e']; [|by destruct Hbefore].
    rewrite IH by by eexists. done.
Qed.

(** Tools that raise end the loop: the response that asked for them
    answered the last request made, and the exception is the outcome. *)
Lemma tool_rounds_tool_failure (n : nat) :
  ∀ response msgs log,
    ∃ ext, (Api.tool_rounds db client mdl max_tok n response msgs log).2
           = log ++ ext
      ∧ (∀ e, (0 < n)%nat → stop_reason response = tool_use →
           Api.run_tools db (resp_content response) = Raise e →
           ext = []
           ∧ (Api.tool_rounds db client mdl max_tok n response msgs log).1
             = Raise e)
      ∧ ∀ i req e, ext !! i = Some req → (S i < n)%nat →
          Spec.tool_failure db client req e →
          S i = length ext
          ∧ (Api.tool_rounds db client mdl max_tok n response msgs log).1
            = Raise e.
Proof.
  induction n as [|n IH]; intros response msgs log.
  - exists []. simpl. rewrite app_nil_r. split; [done|].
    split; [intros; lia|]. intros i req e Hi. by rewrite lookup_nil in Hi.
  - rewrite tool_rounds_step.
    destruct (decide _) as [Hd|Hd]; cycle 1.
    { exists []. simpl. rewrite app_nil_r. split; [done|].
      split; [done|]. intros i req e Hi. by rewrite lookup_nil in Hi. }
    destruct (Api.run_tools _ _) as [rs|e0] eqn:Hrun; cycle 1.
    { exists []. simpl. rewrite app_nil_r. split; [done|].
      split; [by intros e _ _ [= ->]|].
      intros i req e Hi. by rewrite lookup_nil in Hi. }
    simpl. set (req0 := mkRequest _ _ _ _).
    destruct (client req0) as [response'|e0] eqn:Hreq0.
    + destruct (IH response' (msgs ++ Api.turn_messages response rs None)
                  (log ++ [req0])) as (ext & Hlog & Hnow & Hlater).
      exists (req0 :: ext). rewrite Hlog, <- app_assoc. split; [done|].
      split; [by intros e _ _ [=]|].
      intros [|i] req e Hi Hlt (resp & Hresp & Hstop & Hraise).
      * injection Hi as <-. rewrite Hreq0 in Hresp. injection Hresp as <-.
        destruct (Hnow e ltac:(lia) Hstop Hraise) as [-> Hres]. done.
      * destruct (Hlater i req e Hi ltac:(lia)) as [Hlast Hres];
          [by exists resp|].
        split; [simpl; lia | exact Hres].
    + exists [req0]. simpl. split; [done|]. split; [by intros e _ _ [=]|].
      intros [|i] req e Hi Hlt (resp & Hresp & _); [|by destruct i].
      injection Hi as <-. congruence.
Qed.

Lemma converse_tool_failure (limit : nat) (query : string) :
  ∀ i req e,
    (Api.converse db client mdl max_tok limit query []).2 !! i = Some req →
    (i < limit)%nat →
    Spec.tool_failure db client req e →
    S i = length (Api.converse db client mdl max_tok limit query []).2
    ∧ (Api.converse db client mdl max_tok limit query []).1 = Raise e.
Proof.
  rewrite converse_unfold. simpl. set (req0 := mkRequest _ _ _ _).
  destruct (client req0) as [response|e0] eqn:Hreq0.
  - destruct (tool_rounds_tool_failure limit response
                [mkMessage user (Text query)] [req0])
      as (ext & Hlog & Hnow & Hlater).
    rewrite Hlog. intros [|i] req e Hi Hlt (resp & Hresp & Hstop & Hraise).
    + injection Hi as <-. rewrite Hreq0 in Hresp. injection Hresp as <-.
      destruct (Hnow e Hlt Hstop Hraise) as [-> Hres]. done.
    + destruct (Hlater i req e Hi Hlt) as [Hlast Hres]; [by exists resp|].
      split; [simpl; lia | exact Hres].
  - intros [|i] req e Hi Hlt (resp & Hresp & _); [|by destruct i].
    injection Hi as <-. congruence.
Qed.

End tool_failures.

(** In the job, tools that raise inside the loop end it. *)
Lemma job_conversation_tool_failure
    (db : option Database) (client : Client) (query : string) :
  ∀ i req e,
    (Api.job_conversation db client query []).2 !! i = Some req →
    (i < 6)%nat →
    Spec.tool_failure db client req e →
    S i = length (Api.job_conversation db client query []).2
    ∧ (Api.job_conversation db client query []).1 = Raise e.
Proof.
  intros i req e. unfold Api.job_conversation, mbind, Api.M_bind.
  pose proof (converse_tool_failure db client Api.sonnet 2048 6 query i req e)
    as H.
  pose proof (converse_exhausted db client Api.sonnet 2048 6 query) as Hfull.
  destruct (Api.converse db client Api.sonnet 2048 6 query [])
    as [[[response msgs]|e0] log0]; simpl in *;
    [|intros Hi Hlt Hfail; destruct (H Hi Hlt Hfail) as [Hlast [= ->]]; done].
  rewrite force_final_unfold.
  destruct (decide (stop_reason response = tool_use)) as [Hd|Hd];
    [|simpl; intros Hi Hlt Hfail; by destruct (H Hi Hlt Hfail)].
  destruct (Hfull _ _ _ eq_refl Hd) as [Hlen _].
  destruct (Api.run_tools _ _) as [rs|e1];
    [|simpl; intros Hi Hlt Hfail; by destruct (H Hi Hlt Hfail)].
  simpl. set (req1 := mkRequest _ _ _ _).
  assert (Hlog : ∀ A (f : Response → A) ,
            (match client req1 with
             | Ok a => (Ok (f a), log0 ++ [req1])
             | Raise e2 => (Raise e2, log0 ++ [req1])
             end).2 = log0 ++ [req1]) by (intros; by destruct (client req1)).
  intros Hi Hlt Hfail. exfalso.
  assert (Hi' : log0 !! i = Some req).
  { destruct (client req1); simpl in Hi;
      by rewrite lookup_app_l in Hi by lia. }
  by destruct (H Hi' Hlt Hfail).
Qed.

(** A well-typed input holds a field it carries under its declared type. *)
Lemma present_text (input : ToolInput) (key : string) :
  Spec.well_typed input → key ≠ "page_number" → ¬ Spec.absent input key →
  ∃ v, text_fields input !! key = Some v.
Proof.
  intros [_ Hint] Hkey Hpresent.
  destruct (text_fields input !! key) as [v|] eqn:Hv; [by exists v|].
  exfalso. apply Hpresent. split; [done | by apply Hint].
Qed.

Lemma present_int (input : ToolInput) :
  Spec.well_typed input → ¬ Spec.absent input "page_number" →
  ∃ n, int_fields input !! "page_number" = Some n.
Proof.
  intros [Htext _] Hpresent.
  destruct (int_fields input !! "page_number") as [n|] eqn:Hn; [by exists n|].
  exfalso. apply Hpresent. by split.
Qed.

(** C8, as stated, fails: neither dispatcher validates.  The MCP server
    reads a missing page number as 0 and a missing query as the empty text
    and runs the tool; the API raises the key error of the missing field,
    which ends the whole request with status 500. *)
Lemma missing_argument_not_validated :
  Server.call_tool (Ok Sample.manual_db) "show_page" no_input
  = [Server.mkTextContent "Page 0 not found"]
  ∧ Server.call_tool (Ok Sample.small_db) "quick_search" no_input
    = Server.call_tool (Ok Sample.small_db) "quick_search"
        (mkToolInput {[ "query" := "" ]} ∅)
  ∧ Api.execute_tool (Some Sample.manual_db) "search_manual" no_input
    = Raise "'query'"
  ∧ (Api.search (Some Sample.manual_db) (Some Sample.careless_client) "skiing").1
    = Api.Fail 500 "'query'".
Proof. vm_compute. auto. Qed.

(** C8, amended, for inputs whose fields have the types the tool schemas
    declare.  Neither dispatcher checks the required fields before it
    dispatches.

    The MCP server reads every argument with [arguments.get(key,
    default)]: each tool function is called with the value of a field
    that is present and with the default (0 for the page number, the
    empty text otherwise) for one that is absent, and its text is
    returned.

    In the API the fields are looked up in the order of the tool's
    required list, and the first one that is absent raises the key error
    naming it; no text is returned.  A call that raises ends the turn
    with its exception when the calls before it ran.  Tools that raise
    end the surrounding run: the exchange that requested them is the last
    one, the interactive endpoints reply 500 with the message and the job
    is stored as failed with it.  (The tools of a response are run when
    it answers one of the first 2 exchanges of the fast search, the first
    5 of the search and the first 6 of the job, and when the loop of the
    job hands a response that still asks for tools to the forced final
    answer.) *)
Theorem missing_argument_behaviour (input : ToolInput) :
  Spec.well_typed input →
  (∀ conn,
     Server.call_tool conn "quick_search" input
     = [Server.mkTextContent
          (Server.quick_search_query conn
             (default "" (text_fields input !! "query")))]
     ∧ Server.call_tool conn "search_manual" input
       = [Server.mkTextContent
            (Server.search_manual_query conn
               (default "" (text_fields input !! "query")))]
     ∧ Server.call_tool conn "filter_by_section" input
       = [Server.mkTextContent
            (Server.filter_by_section_query conn
               (default "" (text_fields input !! "section"))
               (default "" (text_fields input !! "query")))]
     ∧ Server.call_tool conn "show_page" input
       = [Server.mkTextContent
            (Server.show_page_query conn
               (default 0 (int_fields input !! "page_number")))]
     ∧ Server.call_tool conn "can_recruit" input
       = [Server.mkTextContent
            (Server.can_recruit_query conn
               (default "" (text_fields input !! "recruiter"))
               (default "" (text_fields input !! "target")))]
     ∧ Server.call_tool conn "who_can_recruit" input
       = [Server.mkTextContent
            (Server.who_can_recruit_query conn
               (default "" (text_fields input !! "target")))]
     ∧ Server.call_tool conn "get_enemies" input
       = [Server.mkTextContent
            (Server.get_enemies_query conn
               (default "" (text_fields input !! "character")))]
     ∧ Server.call_tool conn "get_friends" input
       = [Server.mkTextContent
            (Server.get_friends_query conn
               (default "" (text_fields input !! "character")))])
  ∧ (∀ key, Spec.absent input key →
       default "" (text_fields input !! key) = ""
       ∧ default 0 (int_fields input !! key) = 0)
  ∧ (∀ db name before key after,
       Api.required name = before ++ key :: after →
       Forall (λ k, ¬ Spec.absent input k) before →
       Spec.absent input key →
       Api.execute_tool db name input = Raise ("'" +:+ key +:+ "'"))
  ∧ (∀ db name e before id rest,
       Api.execute_tool db name input = Raise e →
       (∃ rs, Api.run_tools db before = Ok rs) →
       Api.run_tools db (before ++ ToolUseBlock id name input :: rest)
       = Raise e)
  ∧ (∀ db client query i req e,
       Spec.tool_failure db client req e →
       ((Api.search_fast db (Some client) query).2 !! i = Some req →
        (i < 2)%nat →
        S i = length (Api.search_fast db (Some client) query).2
        ∧ (Api.search_fast db (Some client) query).1 = Api.Fail 500 e)
       ∧ ((Api.search db (Some client) query).2 !! i = Some req →
          (i < 5)%nat →
          S i = length (Api.search db (Some client) query).2
          ∧ (Api.search db (Some client) query).1 = Api.Fail 500 e)
       ∧ (∀ job_id search_jobs,
            (Api.run_search_job db (Some client) job_id query search_jobs).2 !! i
            = Some req →
            (i < 6)%nat →
            S i = length (Api.run_search_job db (Some client) job_id query
                            search_jobs).2
            ∧ (Api.run_search_job db (Some client) job_id query search_jobs).1
                !! job_id
              = Some (Api.error_job e)))
  ∧ (∀ db client query job_id search_jobs response msgs log e,
       is_Some (search_jobs !! job_id) →
       Api.converse db client Api.sonnet 2048 6 query [] = (Ok (response, msgs), log) →
       stop_reason response = tool_use →
       Api.run_tools db (resp_content response) = Raise e →
       Api.run_search_job db (Some client) job_id query search_jobs
       = (<[job_id := Api.error_job e]> search_jobs, log)).
Proof.
  intros Htyped. split; [by intros conn|]. split; [by intros key [-> ->]|].
  split; [|split; [|split]].
  - intros db name before key after Hreq Hbefore Habs.
    destruct Habs as [Htext Hint].
    unfold Api.required in Hreq. unfold Api.execute_tool, get_text, get_int.
    destruct (decide (name = "search_manual")) as [->|N1].
    { destruct before as [|b1 [|b2 before]]; simplify_eq/=. by rewrite Htext. }
    destruct (decide (name = "show_page")) as [->|N2].
    { destruct before as [|b1 [|b2 before]]; simplify_eq/=. by rewrite Hint. }
    destruct (decide (name = "filter_by_section")) as [->|N3].
    { destruct before as [|b1 [|b2 [|b3 before]]]; simplify_eq/=.
      - by rewrite Htext.
      - apply list.Forall_cons in Hbefore as [Hsection _].
        destruct (present_text input "section" Htyped ltac:(done) Hsection)
          as [v ->].
        by rewrite Htext. }
    destruct (decide (name = "quick_search")) as [->|N4].
    { destruct before as [|b1 [|b2 before]]; simplify_eq/=. by rewrite Htext. }
    by destruct before.
  - intros db name e before id rest Hcall Hbefore.
    by apply run_tools_first_failure.
  - intros db client query i req e Hfail. split; [|split].
    + unfold Api.search_fast.
      destruct (negb _); [simpl; intros Hi; by rewrite lookup_nil in Hi|].
      pose proof (converse_tool_failure db client Api.haiku 1024 2
                    (Py.strip query) i req e) as H.
      destruct (Api.converse _ _ _ _ _ _ _) as [[[response msgs]|e0] log];
        simpl in *; intros Hi Hlt; destruct (H Hi Hlt Hfail) as [Hlast Hres];
        [discriminate Hres|]. injection Hres as ->. done.
    + unfold Api.search.
      destruct (negb _); [simpl; intros Hi; by rewrite lookup_nil in Hi|].
      pose proof (converse_tool_failure db client Api.sonnet 2048 5
                    (Py.strip query) i req e) as H.
      destruct (Api.converse _ _ _ _ _ _ _) as [[[response msgs]|e0] log];
        simpl in *; intros Hi Hlt; destruct (H Hi Hlt Hfail) as [Hlast Hres];
        [discriminate Hres|]. injection Hres as ->. done.
    + intros job_id search_jobs. unfold Api.run_search_job.
      destruct (search_jobs !! job_id) as [job|];
        [|simpl; intros Hi; by rewrite lookup_nil in Hi].
      pose proof (job_conversation_tool_failure db client query i req e) as H.
      destruct (Api.job_conversation db client query []) as [[text|e0] log];
        simpl in *; intros Hi Hlt; destruct (H Hi Hlt Hfail) as [Hlast Hres];
        [discriminate Hres|]. injection Hres as ->.
      split; [done|]. by rewrite lookup_insert_eq.
  - intros db client query job_id search_jobs response msgs log e
      [job Hjob] Hconv Hstop Hraise.
    unfold Api.run_search_job. rewrite Hjob.
    unfold Api.job_conversation, mbind, Api.M_bind. rewrite Hconv. simpl.
    rewrite force_final_unfold, decide_True by done. rewrite Hraise. simpl.
    by rewrite insert_insert_eq.
Qed.

Lemma missing_argument_behaviour_witness :
  Server.call_tool (Ok Sample.manual_db) "show_page" no_input
  = [Server.mkTextContent
       (Server.show_page_query (Ok Sample.manual_db)
          (default 0 (int_fields no_input !! "page_number")))]
  ∧ Api.execute_tool (Some Sample.manual_db) "filter_by_section"
      (mkToolInput {[ "section" := "equipment" ]} ∅)
    = Raise ("'" +:+ "query" +:+ "'").
Proof.
  assert (Hempty : Spec.well_typed no_input) by (split; [done | by intros]).
  assert (Hsection : Spec.well_typed (mkToolInput {[ "section" := "equipment" ]} ∅))
    by (split; [done | by intros]).
  split.
  - apply (missing_argument_behaviour no_input Hempty).
  - destruct (missing_argument_behaviour _ Hsection) as (_ & _ & Hapi & _).
    apply (Hapi (Some Sample.manual_db) "filter_by_section" ["section"] "query" []).
    + reflexivity.
    + constructor; [|constructor]. intros [Habs _]. vm_compute in Habs.
      discriminate Habs.
    + split; vm_compute; reflexivity.
Defined.

(** ** [LIKE] patterns and substrings *)

Section like.

Lemma like_match_percent (p s : string) :
  Sql.like_match (String "%"%char p) s =
    Sql.like_match p s
    || match s with
       | EmptyString => false
       | String _ s' => Sql.like_match (String "%"%char p) s'
       end.
Proof. by destruct s. Qed.

Lemma like_match_any (s : string) : Sql.like_match "%" s = true.
Proof.
  induction s as [|c s IH]; [done|].
  rewrite like_match_percent. simpl Sql.like_match at 1. by rewrite IH.
Qed.

Lemma plain_cons (c : ascii) (w : string) :
  Sub.plain (String c w) = true →
  Ascii.eqb c "%"%char = false ∧ Ascii.eqb c "_"%char = false
  ∧ Ascii.eqb c "000"%char = false ∧ Sub.plain w = true.
Proof.
  simpl. rewrite !andb_true_iff, !negb_true_iff. tauto.
Qed.

(** A pattern made of plain characters followed by [%] tests a prefix. *)
Lemma like_match_plain_prefix (w : string) :
  Sub.plain w = true →
  ∀ s, Sql.like_match (w +:+ "%") s = Sub.ci_prefix w s.
Proof.
  induction w as [|c w IH]; intros Hplain s.
  - apply like_match_any.
  - apply plain_cons in Hplain as (Hpct & Hund & _ & Hw).
    change (String c w +:+ "%") with (String c (w +:+ "%")).
    destruct s as [|d s]; simpl; rewrite Hpct; [done|].
    by rewrite Hund, IH.
Qed.

Lemma like_match_contains (w : string) :
  Sub.plain w = true →
  ∀ s, Sql.like_match (Sql.contains_pat w) s = Sub.ci_substring w s.
Proof.
  intros Hplain s. unfold Sql.contains_pat.
  change ("%" +:+ w +:+ "%") with (String "%"%char (w +:+ "%")).
  induction s as [|d s IH]; rewrite like_match_percent, like_match_plain_prefix by done.
  - by destruct w.
  - simpl Sub.ci_substring. by rewrite IH.
Qed.

(** A pattern without NUL is read whole. *)
Lemma c_str_contains_pat (w : string) :
  Sub.plain w = true → Sql.c_str (Sql.contains_pat w) = Sql.contains_pat w.
Proof.
  intros Hplain. unfold Sql.contains_pat.
  change ("%" +:+ w +:+ "%") with (String "%"%char (w +:+ "%")).
  cbn [Sql.c_str]. change (Ascii.eqb "%" "000") with false. cbn iota. f_equal.
  induction w as [|c w IH]; [done|].
  apply plain_cons in Hplain as (_ & _ & Hnul & Hw).
  change (String c w +:+ "%") with (String c (w +:+ "%")).
  cbn [Sql.c_str]. rewrite Hnul. by rewrite IH.
Qed.

(** For a word without wildcards or NUL, [LIKE '%word%'] is the
    case-insensitive substring test on the text SQLite sees. *)
Lemma like_contains (w : string) :
  Sub.plain w = true →
  ∀ s, Sql.like (Sql.contains_pat w) s = Sub.ci_substring w (Sql.c_str s).
Proof.
  intros Hplain s. unfold Sql.like.
  by rewrite c_str_contains_pat, like_match_contains.
Qed.

Lemma like_null_contains (w : string) (text : option string) :
  Sub.plain w = true →
  Sql.like_null (Sql.contains_pat w) text
  = match text with
    | Some t => Sub.ci_substring w (Sql.c_str t)
    | None => false
    end.
Proof. intros Hplain. destruct text; [by apply like_contains | done]. Qed.

(** The [OR] chain over patterns within the limit. *)
Lemma any_like_ok (words : list string) (text : string) :
  Forall (λ w, Sql.too_complex (Sql.contains_pat w) = false) words →
  Api.any_like (Sql.contains_pat <$> words) text
  = Ok (existsb (λ w, Sql.like (Sql.contains_pat w) text) words).
Proof.
  induction 1 as [|w words Hw _ IH]; [done|].
  rewrite fmap_cons. cbn [Api.any_like existsb].
  rewrite like_run_ok by done. cbn [mbind result_bind Sql.like_null].
  destruct (Sql.like (Sql.contains_pat w) text); [done|]. exact IH.
Qed.

Lemma any_word_like_plain (words : list string) (p : Page) :
  Forall (λ w, Sub.plain w = true) words →
  existsb (λ w, Sql.like (Sql.contains_pat w) (content p)) words
  = Spec.any_word_in words p.
Proof.
  unfold Spec.any_word_in.
  induction 1 as [|w words Hw _ IH]; [done|].
  cbn [existsb]. rewrite like_contains by done. by rewrite IH.
Qed.

End like.

(** ** The two search tiers *)

Section tiers.

Global Instance by_rank_total : Total by_rank.
Proof. intros h1 h2. unfold by_rank. apply Qc_le_total. Qed.

Global Instance by_rank_trans : Transitive by_rank.
Proof. intros h1 h2 h3. unfold by_rank. apply Qcle_trans. Qed.

Global Instance by_page_total : Total by_page.
Proof. intros p1 p2. unfold by_page. lia. Qed.

Global Instance by_page_trans : Transitive by_page.
Proof. intros p1 p2 p3. unfold by_page. lia. Qed.

Lemma Sorted_take {A} (R : relation A) (n : nat) (l : list A) :
  Sorted R l → Sorted R (take n l).
Proof.
  intros Hsorted. revert n.
  induction Hsorted as [|x l Hl IH Hhd]; intros [|n]; simpl; try constructor.
  - apply IH.
  - destruct Hhd as [|y l' Hxy]; [rewrite take_nil; constructor|].
    destruct n; simpl; by constructor.
Qed.

Lemma order_by_rank_nil (hits : list FtsHit) :
  order_by_rank hits = [] ↔ hits = [].
Proof. apply order_by_nil. Qed.

Lemma take_15_nil {A} (l : list A) : take 15 l = [] ↔ l = [].
Proof. split; [|by intros ->]. by destruct l. Qed.

(** What tier 1 gives, read off the index. *)
Lemma fts_tier_rows (db : Database) (query : string) :
  Api.fts_tier (Some db) query None =
    match manual_fts db query with
    | Raise _ => []
    | Ok hits => hit_row 200 <$> take 15 (order_by_rank hits)
    end.
Proof.
  unfold Api.fts_tier. destruct (manual_fts db query) as [hits|msg]; [|done].
  assert (Hall : filter (λ h, Api.in_section None (hit_section h)) hits = hits).
  { induction hits as [|h hits IH]; [done|].
    rewrite filter_cons_True by done. by rewrite IH. }
  by rewrite Hall.
Qed.

Lemma fts_tier_nil (db : Database) (query : string) :
  Api.fts_tier (Some db) query None = [] ↔
  (∃ msg, manual_fts db query = Raise msg) ∨ manual_fts db query = Ok [].
Proof.
  rewrite fts_tier_rows. destruct (manual_fts db query) as [hits|msg].
  - split.
    + intros H. right. f_equal.
      apply fmap_nil_inv in H. apply (proj1 (take_15_nil _)) in H.
      by apply (proj1 (order_by_rank_nil _)) in H.
    + intros [[msg Hm]|[= ->]]; [discriminate Hm | done].
  - split; [intros _; left; by eexists | done].
Qed.

Lemma fts_tier_length (db : option Database) (query : string)
    (section : option string) :
  (length (Api.fts_tier db query section) ≤ 15)%nat.
Proof.
  unfold Api.fts_tier. destruct db as [db|]; [|simpl; lia].
  destruct (manual_fts db query) as [hits|msg]; [|simpl; lia].
  rewrite length_fmap, length_take. lia.
Qed.

(** The pattern of a word is two bytes longer than the word. *)
Lemma utf8_length_contains_pat (w : string) :
  Sql.utf8_length (Sql.contains_pat w) = Sql.utf8_length w + 2.
Proof.
  unfold Sql.contains_pat.
  change ("%" +:+ w +:+ "%") with (String "%"%char (w +:+ "%")).
  cbn [Sql.utf8_length]. change (nat_of_ascii "%" <? 128)%nat with true. cbn iota.
  induction w as [|c w IH]; [done|].
  change (String c w +:+ "%") with (String c (w +:+ "%")).
  cbn [Sql.utf8_length]. lia.
Qed.

Lemma word_within_limit (w : string) :
  Sql.utf8_length w ≤ 49998 → Sql.too_complex (Sql.contains_pat w) = false.
Proof.
  intros H. unfold Sql.too_complex. rewrite utf8_length_contains_pat.
  apply Z.ltb_ge. lia.
Qed.

(** Tier 2 never returns more than 15 rows. *)
Lemma like_tier_length (db : option Database) (words : list string)
    (section : option string) (rows : list Row) :
  Api.like_tier db words section = Ok rows → (length rows ≤ 15)%nat.
Proof.
  unfold Api.like_tier. destruct (Sql.too_deep _); [discriminate|].
  destruct db as [db|]; [|discriminate].
  destruct (Sql.scan _ _) as [pages|e]; [|discriminate].
  intros [= <-]. rewrite length_fmap, length_take. lia.
Qed.

(** Tier 2 within the limits of the engine: a filter, sorted and cut. *)
Lemma like_tier_ok (db : Database) (words : list string) (section : option string) :
  Api.where_depth words section ≤ 1000 →
  Forall (λ w, Sql.too_complex (Sql.contains_pat w) = false) words →
  Api.like_tier (Some db) words section
  = Ok (Api.page_row <$>
          take 15 (order_by_page
             (filter (λ p, existsb (λ w, Sql.like (Sql.contains_pat w) (content p))
                             words
                           && Api.in_section section (section_type p))
                (manual_pages db)))).
Proof.
  intros Hdepth Hwords. unfold Api.like_tier, Sql.too_deep.
  rewrite (proj2 (Z.ltb_ge _ _)) by done.
  rewrite (scan_ok _ (λ p, existsb (λ w, Sql.like (Sql.contains_pat w) (content p))
                              words
                            && Api.in_section section (section_type p))).
  - done.
  - intros p _. by rewrite any_like_ok.
Qed.

(** Tier 2 beyond the depth limit: the statement is refused. *)
Lemma like_tier_deep (db : option Database) (words : list string)
    (section : option string) :
  1000 < Api.where_depth words section →
  Api.like_tier db words section = Raise Sql.depth_error.
Proof.
  intros Hdepth. unfold Api.like_tier, Sql.too_deep.
  by rewrite (proj2 (Z.ltb_lt _ _)).
Qed.

End tiers.

Section search_manual.

Lemma long_words_short (query : string) :
  Forall (λ w, (String.length w ≤ 2)%nat) (Py.split query) →
  Api.long_words query = [].
Proof.
  unfold Api.long_words. induction 1 as [|w ws Hw _ IH]; [done|].
  rewrite filter_cons_False by lia. exact IH.
Qed.

(** The rows of [search_manual_db] decide its text. *)
Lemma search_manual_text (db : option Database) (query : string) :
  Api.search_manual_db db query =
    match (Api.two_tier db query None).2 with
    | Raise msg => "Error: " +:+ msg
    | Ok [] => "No results found for " +:+ Py.quote query
               +:+ ". Try different keywords or check spelling."
    | Ok results =>
        Api.found_lines ("Found " +:+ pretty (length results) +:+ " results for "
                         +:+ Py.quote query +:+ ":" +:+ Py.nl) results
    end.
Proof.
  unfold Api.search_manual_db, Api.search_manual_run.
  by destruct (Api.two_tier db query None) as [stmts [[|r rs]|msg]].
Qed.

(** Neither tier returns more than 15 rows. *)
Lemma two_tier_length (db : option Database) (query : string)
    (section : option string) (rows : list Row) :
  (Api.two_tier db query section).2 = Ok rows → (length rows ≤ 15)%nat.
Proof.
  unfold Api.two_tier.
  pose proof (fts_tier_length db query section) as Hfts.
  destruct (Api.fts_tier db query section) as [|r rs]; [|by intros [= <-]].
  destruct (Api.long_words query) as [|w ws]; [intros [= <-]; simpl; lia|].
  apply like_tier_length.
Qed.

End search_manual.

(** C10. When no word of the query is longer than two characters and the
    indexed tier gives no row, [search_manual_db] runs the index statement
    only and returns the no-results text, whatever the pages contain. *)
Theorem short_words_skip_fallback (db : option Database) (query : string) :
  Forall (λ w, (String.length w ≤ 2)%nat) (Py.split query) →
  Api.fts_tier db query None = [] →
  Api.search_manual_run db query
  = ([Api.FtsSelect query None],
     "No results found for " +:+ Py.quote query
     +:+ ". Try different keywords or check spelling.").
Proof.
  intros Hshort Hfts. unfold Api.search_manual_run, Api.two_tier.
  by rewrite Hfts, (long_words_short query Hshort).
Qed.

Lemma short_words_skip_fallback_witness :
  mkPage 3 "general" "Go to it and ski" ∈ manual_pages Sample.small_db
  ∧ Spec.any_word_in (Py.split "go it") (mkPage 3 "general" "Go to it and ski")
    = true
  ∧ Api.search_manual_run (Some Sample.small_db) "go it"
    = ([Api.FtsSelect "go it" None],
       "No results found for " +:+ Py.quote "go it"
       +:+ ". Try different keywords or check spelling.").
Proof.
  split; [apply list_elem_of_here|]. split; [vm_compute; reflexivity|].
  apply (short_words_skip_fallback (Some Sample.small_db) "go it").
  - apply (bool_decide_unpack _). vm_compute. reflexivity.
  - vm_compute. reflexivity.
Defined.

(** C4, as stated, fails: the word "a_c" occurs in no page, yet the
    fallback returns page 1, whose text "The abc of skiing" matches the
    pattern [%a_c%]. *)
Lemma like_wildcard_matches_without_substring :
  Api.long_words "a_c" = ["a_c"]
  ∧ Forall (λ p, Sub.ci_substring "a_c" (content p) = false)
      (manual_pages Sample.small_db)
  ∧ Api.search_manual_run (Some Sample.small_db) "a_c"
    = ([Api.FtsSelect "a_c" None; Api.LikeSelect ["a_c"] None],
       Py.join Py.nl
         [ "Found 1 results for 'a_c':" +:+ Py.nl;
           "**Page 1** [story]"; "  The abc of skiing" +:+ Py.nl ]).
Proof.
  split; [vm_compute; reflexivity|]. split; [|vm_compute; reflexivity].
  apply (bool_decide_unpack _). vm_compute. reflexivity.
Qed.

(** C4, amended. [search_manual_db] returns at most 15 rows, whenever it
    returns rows.  When the index answers with hits, the rows are the hits of best
    rank, 15 of them or all when there are fewer, best first, and no other
    statement is run.  When the index raises or gives no hit, the query is
    split into its words longer than two characters.  Without such a word
    nothing more is run.  With fewer than 1000 such words, each at most
    49998 bytes long and free of the wildcards [%] and [_] and of NUL, the
    fallback keeps the pages whose content, as SQLite reads it (up to a
    NUL character), contains one of the words, letter case ignored for
    ASCII letters; it returns the 15 of lowest page number, or all when
    there are fewer, by ascending page number, each with the first 500
    characters of that content.  With 1000 words or more (up to a million)
    the statement is refused and the answer is the error text of the
    depth limit. *)
Theorem search_manual_two_tiers (db : Database) (query : string) :
  (∀ rows, (Api.two_tier (Some db) query None).2 = Ok rows →
     (length rows ≤ 15)%nat
     ∧ Api.search_manual_db (Some db) query
       = match rows with
         | [] => "No results found for " +:+ Py.quote query
                 +:+ ". Try different keywords or check spelling."
         | _ => Api.found_lines
                  ("Found " +:+ pretty (length rows) +:+ " results for "
                   +:+ Py.quote query +:+ ":" +:+ Py.nl) rows
         end)
  ∧ (∀ hits, manual_fts db query = Ok hits → hits ≠ [] →
       ∃ kept rest,
         Api.two_tier (Some db) query None
         = ([Api.FtsSelect query None], Ok (hit_row 200 <$> kept))
         ∧ hits ≡ₚ kept ++ rest
         ∧ length kept = (15 `min` length hits)%nat
         ∧ Sorted by_rank kept
         ∧ ∀ k r, k ∈ kept → r ∈ rest → by_rank k r)
  ∧ ((∃ msg, manual_fts db query = Raise msg) ∨ manual_fts db query = Ok [] →
       (Api.long_words query = [] →
        Api.two_tier (Some db) query None = ([Api.FtsSelect query None], Ok []))
       ∧ (Api.long_words query ≠ [] →
          Z.of_nat (length (Api.long_words query)) < 1000 →
          Forall (λ w, Sub.plain w = true ∧ Sql.utf8_length w ≤ 49998)
            (Api.long_words query) →
          ∃ pages rest,
            Api.two_tier (Some db) query None
            = ([Api.FtsSelect query None;
                Api.LikeSelect (Api.long_words query) None],
               Ok ((λ p, mkRow (page_number p) (section_type p)
                           (Py.prefix 500 (Sql.c_str (content p)))) <$> pages))
            ∧ filter (λ p, Spec.any_word_in (Api.long_words query) p)
                (manual_pages db) ≡ₚ pages ++ rest
            ∧ length pages
              = (15 `min` length (filter (λ p, Spec.any_word_in
                                                 (Api.long_words query) p)
                                    (manual_pages db)))%nat
            ∧ Sorted by_page pages
            ∧ ∀ p r, p ∈ pages → r ∈ rest → page_number p ≤ page_number r)
       ∧ (1000 ≤ Z.of_nat (length (Api.long_words query)) ≤ 1000000 →
          Api.search_manual_run (Some db) query
          = ([Api.FtsSelect query None;
              Api.LikeSelect (Api.long_words query) None],
             "Error: Expression tree is too large (maximum depth 1000)"))).
Proof.
  split; [|split].
  - intros rows Hrows. rewrite search_manual_text, Hrows.
    split; [by eapply two_tier_length | by destruct rows].
  - intros hits Hhits Hne.
    destruct (take_order_by by_rank 15 hits) as (rest & Hperm & Hsorted & Hlen & Hbest).
    exists (take 15 (order_by_rank hits)), rest.
    split; [|done].
    unfold Api.two_tier. rewrite fts_tier_rows, Hhits.
    destruct (hit_row 200 <$> take 15 (order_by_rank hits)) as [|r rs] eqn:E; [|done].
    apply fmap_nil_inv in E. apply (proj1 (take_15_nil _)) in E.
    by apply (proj1 (order_by_rank_nil _)) in E.
  - intros Hindex. apply fts_tier_nil in Hindex.
    split; [|split].
    + intros Hwords. unfold Api.two_tier. by rewrite Hindex, Hwords.
    + intros Hne Hcount Hwords.
      assert (Hlimit : Forall (λ w, Sql.too_complex (Sql.contains_pat w) = false)
                         (Api.long_words query)).
      { eapply list.Forall_impl; [exact Hwords|]. intros w [_ Hw].
        by apply word_within_limit. }
      assert (Hplain : Forall (λ w, Sub.plain w = true) (Api.long_words query)).
      { eapply list.Forall_impl; [exact Hwords|]. by intros w [Hw _]. }
      assert (Hfilter :
        filter (λ p, existsb (λ w, Sql.like (Sql.contains_pat w) (content p))
                       (Api.long_words query)
                     && Api.in_section None (section_type p)) (manual_pages db)
        = filter (λ p, Spec.any_word_in (Api.long_words query) p)
            (manual_pages db)).
      { apply list_filter_iff. intros p.
        rewrite any_word_like_plain by done. simpl. by rewrite andb_true_r. }
      destruct (take_order_by by_page 15
                  (filter (λ p, Spec.any_word_in (Api.long_words query) p)
                     (manual_pages db)))
        as (rest & Hperm & Hsorted & Hlen & Hbest).
      exists (take 15 (order_by_page
                (filter (λ p, Spec.any_word_in (Api.long_words query) p)
                   (manual_pages db)))), rest.
      split; [|done].
      unfold Api.two_tier. rewrite Hindex.
      destruct (Api.long_words query) as [|w ws] eqn:Ew; [done|].
      rewrite like_tier_ok; [by rewrite Hfilter | | done].
      unfold Api.where_depth. simpl length in *. lia.
    + intros [Hmany _]. unfold Api.search_manual_run, Api.two_tier.
      rewrite Hindex.
      destruct (Api.long_words query) as [|w ws] eqn:Ew; [simpl in Hmany; lia|].
      rewrite like_tier_deep; [done|].
      unfold Api.where_depth. simpl length in *. lia.
Qed.

Lemma search_manual_two_tiers_witness :
  ∃ pages rest,
    Api.two_tier (Some Sample.small_db) "SKI rifles" None
    = ([Api.FtsSelect "SKI rifles" None;
        Api.LikeSelect (Api.long_words "SKI rifles") None],
       Ok ((λ p, mkRow (page_number p) (section_type p)
                   (Py.prefix 500 (Sql.c_str (content p)))) <$> pages))
    ∧ filter (λ p, Spec.any_word_in (Api.long_words "SKI rifles") p)
        (manual_pages Sample.small_db) ≡ₚ pages ++ rest
    ∧ length pages
      = (15 `min` length (filter (λ p, Spec.any_word_in
                                         (Api.long_words "SKI rifles") p)
                            (manual_pages Sample.small_db)))%nat
    ∧ Sorted by_page pages
    ∧ ∀ p r, p ∈ pages → r ∈ rest → page_number p ≤ page_number r.
Proof.
  destruct (search_manual_two_tiers Sample.small_db "SKI rifles")
    as (_ & _ & Hfallback).
  destruct Hfallback as (_ & Hwords & _); [left; by eexists|].
  apply Hwords.
  - vm_compute. discriminate.
  - vm_compute. reflexivity.
  - apply (bool_decide_unpack _). vm_compute. reflexivity.
Defined.

(** ** Entity lookup *)

Section entities.

Variables (db : Database) (query : string).
Hypothesis plain_query : Sub.plain query = true.
Hypothesis short_query : Sql.utf8_length query ≤ 49998.

Lemma like_or_plain (name : string) (text : option string) :
  Server.like_or (Sql.contains_pat query) name text
  = Ok (Spec.in_name_or_text query name text).
Proof.
  unfold Server.like_or, Spec.in_name_or_text.
  rewrite !like_run_ok by (by apply word_within_limit).
  cbn [mbind result_bind Sql.like_null].
  rewrite like_contains, like_null_contains by done.
  by destruct (Sub.ci_substring query (Sql.c_str name)).
Qed.

Lemma select_characters_plain :
  Server.select_characters db query = Ok (Spec.matching_characters db query).
Proof.
  unfold Server.select_characters, Spec.matching_characters.
  rewrite (scan_ok _ (λ c, Spec.in_name_or_text query (full_name c) (search_text c)))
    by (intros c _; apply like_or_plain).
  done.
Qed.

Lemma select_buildings_plain :
  Server.select_buildings db query = Ok (Spec.matching_buildings db query).
Proof.
  unfold Server.select_buildings, Spec.matching_buildings.
  rewrite (scan_ok _ (λ b, Spec.in_name_or_text query (building_type b)
                             (b_description b)))
    by (intros b _; apply like_or_plain).
  done.
Qed.

Lemma select_vehicles_plain :
  Server.select_vehicles db query = Ok (Spec.matching_vehicles db query).
Proof.
  unfold Server.select_vehicles, Spec.matching_vehicles.
  rewrite (scan_ok _ (λ v, Spec.in_name_or_text query (vehicle_type v)
                             (v_description v)))
    by (intros v _; apply like_or_plain).
  done.
Qed.

End entities.

(** An entity scan with a pattern beyond the limit raises on its first
    row. *)
Lemma like_or_raise (pat name : string) (text : option string) :
  Sql.too_complex pat = true →
  Server.like_or pat name text = Raise Sql.pattern_error.
Proof. intros H. unfold Server.like_or. by rewrite !like_run_raise by done. Qed.

(** C9, as stated, fails: skills are entity records, listed by
    [list_entities_query], but the lookup does not search them. *)
Lemma quick_search_skips_kinds :
  Spec.matching_skills Sample.small_db "Skiing" = [mkSkill "Skiing"]
  ∧ Server.quick_search_query (Ok Sample.small_db) "Skiing"
    = "No entities found matching 'Skiing'".
Proof. vm_compute. auto. Qed.

(** C9, amended. For a query of at most 49998 bytes, free of the
    wildcards [%] and [_] and of NUL, the MCP lookup matches characters,
    buildings and enemy vehicles (not skills) by substring, letter case
    ignored for ASCII letters, of the name or of the search text or
    description, each read up to a NUL character; it keeps the first 10 of
    each kind and prints one labeled block per kind that has a match, and
    it returns the "No entities found" text exactly when none of the three
    kinds has a match.  For a longer query (up to the size a statement
    accepts) and a database with a row in one of the three tables, the
    answer is the error text of the pattern limit. *)
Theorem quick_search_by_kind (db : Database) (query : string) :
  (Sub.plain query = true → Sql.utf8_length query ≤ 49998 →
   let cs := Spec.matching_characters db query in
   let bs := Spec.matching_buildings db query in
   let vs := Spec.matching_vehicles db query in
   ((length cs ≤ 10)%nat ∧ (length bs ≤ 10)%nat ∧ (length vs ≤ 10)%nat)
   ∧ Server.quick_search_query (Ok db) query
     = match cs, bs, vs with
       | [], [], [] => "No entities found matching " +:+ Py.quote query
       | _, _, _ =>
           Py.join Py.nl
             (Server.block "=== CHARACTERS ===" (Server.character_block 300) cs
              ++ Server.block (Py.nl +:+ "=== BUILDINGS ===")
                   Server.building_block bs
              ++ Server.block (Py.nl +:+ "=== ENEMY VEHICLES ===")
                   Server.vehicle_block vs)
       end
   ∧ (Server.quick_search_query (Ok db) query
      = "No entities found matching " +:+ Py.quote query
      ↔ cs = [] ∧ bs = [] ∧ vs = []))
  ∧ (49998 < Sql.utf8_length query ≤ 999999998 →
     characters db ≠ [] ∨ buildings db ≠ [] ∨ enemy_vehicles db ≠ [] →
     Server.quick_search_query (Ok db) query
     = "Error: LIKE or GLOB pattern too complex").
Proof.
  split.
  - intros Hplain Hshort cs bs vs.
    split; [unfold cs, bs, vs, Spec.matching_characters, Spec.matching_buildings,
              Spec.matching_vehicles; rewrite !length_take; lia|].
    unfold Server.quick_search_query.
    rewrite select_characters_plain, select_buildings_plain,
      select_vehicles_plain by done.
    cbn [mbind result_bind mret result_ret]. fold cs bs vs.
    destruct cs as [|c cs'], bs as [|b bs'], vs as [|v vs']; simpl;
      (split; [reflexivity|]);
      (split; [try discriminate; done | try done; intros (? & ? & ?); discriminate]).
  - intros [Hlong _] Hrows.
    assert (Hpat : Sql.too_complex (Sql.contains_pat query) = true).
    { unfold Sql.too_complex. rewrite utf8_length_contains_pat.
      apply Z.ltb_lt. lia. }
    unfold Server.quick_search_query, Server.select_characters,
      Server.select_buildings, Server.select_vehicles.
    destruct (characters db) as [|c cs];
      [|by rewrite (scan_raise _ Sql.pattern_error) by by apply like_or_raise].
    destruct (buildings db) as [|b bs];
      [|by rewrite (scan_raise _ Sql.pattern_error) by by apply like_or_raise].
    destruct (enemy_vehicles db) as [|v vs];
      [|by rewrite (scan_raise _ Sql.pattern_error) by by apply like_or_raise].
    by destruct Hrows as [H|[H|H]].
Qed.

Lemma quick_search_by_kind_witness :
  Server.quick_search_query (Ok Sample.small_db) "STARK"
  = Py.join Py.nl
      (Server.block "=== CHARACTERS ===" (Server.character_block 300)
         (Spec.matching_characters Sample.small_db "STARK"))
  ∧ length (Spec.matching_characters Sample.small_db "STARK") = 1%nat.
Proof.
  assert (Hplain : Sub.plain "STARK" = true) by (vm_compute; reflexivity).
  assert (Hshort : Sql.utf8_length "STARK" ≤ 49998) by (vm_compute; discriminate).
  destruct (proj1 (quick_search_by_kind Sample.small_db "STARK") Hplain Hshort)
    as (_ & Hserver & _).
  split; [rewrite Hserver|]; vm_compute; reflexivity.
Defined.

(** ** Citations: the scan never runs out of fuel *)

Section citations.

Lemma strip_prefix_length (lit s rest : string) :
  Api.strip_prefix lit s = Some rest →
  String.length s = (String.length lit + String.length rest)%nat.
Proof.
  revert s. induction lit as [|a lit IH]; intros s; simpl.
  - by intros [= ->].
  - destruct s as [|b s]; [discriminate|].
    destruct (Ascii.eqb a b); [|discriminate].
    intros H. apply IH in H. simpl. lia.
Qed.

Lemma span_length (f : ascii → bool) (s : string) :
  String.length s
  = (String.length (Api.span f s).1 + String.length (Api.span f s).2)%nat.
Proof.
  induction s as [|c s IH]; [done|]. simpl.
  destruct (f c); [|done]. destruct (Api.span f s) as [a b]. simpl in *. lia.
Qed.

(** A citation match consumes at least one character. *)
Lemma match_citation_shorter (s : string) n section rest :
  Api.match_citation s = Some (n, section, rest) →
  (String.length rest < String.length s)%nat.
Proof.
  unfold Api.match_citation.
  destruct (Api.strip_prefix "**Page " s) as [s1|] eqn:H1;
    [|simpl; discriminate].
  cbn [mbind option_bind].
  pose proof (span_length Api.is_digit s1) as L2.
  destruct (Api.span Api.is_digit s1) as [digits s2].
  destruct (Py.truthy digits); [|discriminate].
  destruct (Api.strip_prefix "** [" s2) as [s3|] eqn:H3;
    [|simpl; discriminate].
  cbn [mbind option_bind].
  pose proof (span_length (λ c, negb (Ascii.eqb c "]"%char)) s3) as L4.
  destruct (Api.span _ s3) as [sec s4].
  destruct (Py.truthy sec); [|discriminate].
  destruct (Api.strip_prefix "]" s4) as [s5|] eqn:H5;
    [|simpl; discriminate].
  cbn [mbind option_bind].
  intros [= _ _ <-].
  apply strip_prefix_length in H1, H3, H5. simpl in *. lia.
Qed.

(** Any fuel above the length of the text gives the same citations. *)
Lemma citations_go_fuel (fuel1 : nat) :
  ∀ fuel2 s,
    (String.length s < fuel1)%nat → (String.length s < fuel2)%nat →
    Api.citations_go fuel1 s = Api.citations_go fuel2 s.
Proof.
  induction fuel1 as [|fuel1 IH]; intros [|fuel2] s H1 H2; try lia.
  cbn [Api.citations_go].
  destruct (Api.match_citation s) as [[[n section] rest]|] eqn:Hm.
  - apply match_citation_shorter in Hm. by rewrite (IH fuel2 rest) by lia.
  - destruct s as [|c s]; [done|]. simpl in H1, H2. apply IH; lia.
Qed.

Lemma citations_fuel (fuel : nat) (final_text : string) :
  (String.length final_text < fuel)%nat →
  Api.citations_go fuel final_text = Api.citations final_text.
Proof. intros H. apply citations_go_fuel; [done | lia]. Qed.

End citations.

(** ** The model on concrete inputs *)

Example split_drops_blank_runs :
  Py.split "  how do  I ski " = ["how"; "do"; "I"; "ski"].
Proof. reflexivity. Qed.

Example long_words_keeps_three_and_up :
  Api.long_words "how do I ski" = ["how"; "ski"].
Proof. reflexivity. Qed.

Example like_ignores_ascii_case :
  Sql.like (Sql.contains_pat "stark") "Captain John STARK" = true.
Proof. reflexivity. Qed.

Example like_underscore_is_a_wildcard :
  Sql.like (Sql.contains_pat "a_c") "abc" = true
  ∧ Sub.ci_substring "a_c" "abc" = false.
Proof. split; reflexivity. Qed.

Example citations_of_two_markers :
  Api.citations "See **Page 12** [general] skiing basics **Page 3** [story] the raid"
  = Ok [ Api.mkCitation 12 "general" "skiing basics";
         Api.mkCitation 3 "story" "the raid" ].
Proof. vm_compute. reflexivity. Qed.

Example insert_or_ignore_keeps_every_edge :
  character_relationships Sample.graph_db = Relationships.RELATIONSHIPS.
Proof. vm_compute. reflexivity. Qed.

(** * Further properties of the code *)

(** ** Relationship queries *)

Section graph_queries.

Variable db : Database.

Lemma edges_from_spec (src : string) (s : Sentiment) (e : Edge) :
  e ∈ Server.edges_from db src s ↔
  e ∈ character_relationships db ∧ from_character e = src ∧ sentiment e = s.
Proof. unfold Server.edges_from. rewrite list_elem_of_filter. tauto. Qed.

Lemma edges_to_spec (dst : string) (s : Sentiment) (e : Edge) :
  e ∈ Server.edges_to db dst s ↔
  e ∈ character_relationships db ∧ to_character e = dst ∧ sentiment e = s.
Proof. unfold Server.edges_to. rewrite list_elem_of_filter. tauto. Qed.

Lemma filter_nil_iff {A} (P : A → Prop) `{∀ x, Decision (P x)} (l : list A) :
  filter P l = [] ↔ ∀ x, x ∈ l → ¬ P x.
Proof.
  split.
  - intros Hnil x Hx HP.
    assert (Hin : x ∈ filter P l) by (by apply list_elem_of_filter).
    rewrite Hnil in Hin. by apply not_elem_of_nil in Hin.
  - intros Hno. destruct (filter P l) as [|x l'] eqn:E; [done|].
    assert (Hin : x ∈ filter P l) by (rewrite E; apply list_elem_of_here).
    apply list_elem_of_filter in Hin as [HP Hx]. by destruct (Hno x Hx).
Qed.

(** The lookup within the pattern limit: the first matching row. *)
Lemma select_character_ok (name : string) :
  Sql.utf8_length name ≤ 49998 →
  Server.select_character db name
  = Ok (full_name <$>
          head (filter (λ c, Sql.like (Sql.contains_pat name) (full_name c))
                  (characters db))).
Proof.
  intros Hshort. unfold Server.select_character.
  by rewrite (scan_like _ (λ c, Some (full_name c)))
    by (by apply word_within_limit).
Qed.

Lemma select_character_none (name : string) :
  Sql.utf8_length name ≤ 49998 →
  Forall (λ c, Sql.like (Sql.contains_pat name) (full_name c) = false)
    (characters db) →
  Server.select_character db name = Ok None.
Proof.
  intros Hshort Hall. rewrite select_character_ok by done.
  assert (Hnil : filter (λ c, Sql.like (Sql.contains_pat name) (full_name c))
                   (characters db) = []).
  { apply filter_nil_iff. intros c Hc Hlike.
    rewrite Forall_lookup in Hall. apply list_elem_of_lookup in Hc as [i Hi].
    apply Hall in Hi. rewrite Hi in Hlike. exact Hlike. }
  by rewrite Hnil.
Qed.

(** The lookup beyond the pattern limit raises as soon as there is a row. *)
Lemma select_character_raise (name : string) :
  49998 < Sql.utf8_length name → characters db ≠ [] →
  Server.select_character db name = Raise Sql.pattern_error.
Proof.
  intros Hlong Hrows. unfold Server.select_character.
  destruct (characters db) as [|c cs]; [done|].
  rewrite (scan_raise _ Sql.pattern_error); [done|].
  apply like_run_raise. unfold Sql.too_complex.
  rewrite utf8_length_contains_pat. apply Z.ltb_lt. lia.
Qed.

Lemma like_everything (s : string) : Sql.like (Sql.contains_pat "") s = true.
Proof.
  unfold Sql.contains_pat, Sql.like.
  change (Sql.c_str ("%" +:+ "" +:+ "%")) with (String "%"%char "%").
  induction (Sql.c_str s) as [|c s' IH]; [done|].
  rewrite like_match_percent, like_match_any. done.
Qed.

End graph_queries.

(** X1. A character without outgoing edges: [who_can_recruit_query] is not
    an error, it prints the two "none listed" lines, whatever edges point
    at the character. *)
Theorem who_can_recruit_without_edges (db : Database) (target t : string) :
  Server.find_character db target = Some t →
  Forall (λ e, from_character e ≠ t) (character_relationships db) →
  Server.who_can_recruit_query (Ok db) target
  = Py.join Py.nl
      [ "=== Who can recruit " +:+ t +:+ "? ===" +:+ Py.nl;
        "CAN RECRUIT: No specific friends listed";
        Py.nl +:+ "CANNOT RECRUIT: No enemies listed" ].
Proof.
  intros Hfind Hnone. unfold Server.who_can_recruit_query.
  rewrite (select_character_found _ _ _ Hfind).
  assert (Hfrom : ∀ s, Server.edges_from db t s = []).
  { intros s. apply filter_nil_iff. intros e He [Hf _].
    rewrite Forall_lookup in Hnone. apply list_elem_of_lookup in He as [i Hi].
    by apply (Hnone i e). }
  by rewrite !Hfrom.
Qed.

Lemma who_can_recruit_without_edges_witness :
  Server.who_can_recruit_query (Ok Sample.graph_db) "flynn"
  = Py.join Py.nl
      [ "=== Who can recruit " +:+ "Constable Fergus Flynn" +:+ "? ===" +:+ Py.nl;
        "CAN RECRUIT: No specific friends listed";
        Py.nl +:+ "CANNOT RECRUIT: No enemies listed" ]
  ∧ Spec.edge_exists Sample.graph_db "Gregory Flint" "Constable Fergus Flynn" positive.
Proof.
  split.
  - apply (who_can_recruit_without_edges Sample.graph_db "flynn"
             "Constable Fergus Flynn"); [vm_compute; reflexivity|].
    apply (bool_decide_unpack _). vm_compute. reflexivity.
  - exists (mkEdge "Gregory Flint" "Constable Fergus Flynn" "friend" positive).
    split; [|done]. apply list_elem_of_In. vm_compute. tauto.
Defined.

(** X2. A name that matches no character.  For a name of at most 49998
    bytes that no character's full name matches under [LIKE '%name%'],
    [who_can_recruit_query], [get_enemies_query] and [get_friends_query]
    answer "Character '<name>' not found", naming the text as given.
    [can_recruit_query] looks up both names before it tests either: it
    gives that answer for the recruiter when the target is at most 49998
    bytes long, and for the target when the recruiter resolves.  For a
    longer name (up to the size a statement accepts) and a non-empty
    characters table, all four answer with the error text of the pattern
    limit, also when the other name of [can_recruit_query] matches
    nothing. *)
Theorem unresolved_name_not_found (db : Database) (name other : string) :
  (Sql.utf8_length name ≤ 49998 →
   Forall (λ c, Sql.like (Sql.contains_pat name) (full_name c) = false)
     (characters db) →
   Server.who_can_recruit_query (Ok db) name
   = "Character " +:+ Py.quote name +:+ " not found"
   ∧ Server.get_enemies_query (Ok db) name
     = "Character " +:+ Py.quote name +:+ " not found"
   ∧ Server.get_friends_query (Ok db) name
     = "Character " +:+ Py.quote name +:+ " not found"
   ∧ (Sql.utf8_length other ≤ 49998 →
      Server.can_recruit_query (Ok db) name other
      = "Character " +:+ Py.quote name +:+ " not found")
   ∧ (∀ r, Spec.resolves db other r →
        Server.can_recruit_query (Ok db) other name
        = "Character " +:+ Py.quote name +:+ " not found"))
  ∧ (49998 < Sql.utf8_length name ≤ 999999998 → characters db ≠ [] →
     Server.who_can_recruit_query (Ok db) name
     = "Error: LIKE or GLOB pattern too complex"
     ∧ Server.get_enemies_query (Ok db) name
       = "Error: LIKE or GLOB pattern too complex"
     ∧ Server.get_friends_query (Ok db) name
       = "Error: LIKE or GLOB pattern too complex"
     ∧ Server.can_recruit_query (Ok db) name other
       = "Error: LIKE or GLOB pattern too complex"
     ∧ (Sql.utf8_length other ≤ 49998 →
        Server.can_recruit_query (Ok db) other name
        = "Error: LIKE or GLOB pattern too complex")).
Proof.
  split.
  - intros Hshort Hall.
    pose proof (select_character_none db name Hshort Hall) as Hnone.
    unfold Server.who_can_recruit_query, Server.get_enemies_query,
      Server.get_friends_query, Server.can_recruit_query.
    rewrite Hnone. repeat (split; [done|]). split.
    + intros Hother. rewrite (select_character_ok db other Hother). done.
    + intros r [Hr Hne]. rewrite (select_character_found _ _ _ Hr).
      apply truthy_ne in Hne. simpl. by rewrite Hne.
  - intros [Hlong _] Hrows.
    pose proof (select_character_raise db name Hlong Hrows) as Hraise.
    unfold Server.who_can_recruit_query, Server.get_enemies_query,
      Server.get_friends_query, Server.can_recruit_query.
    rewrite Hraise. repeat (split; [done|]).
    intros Hother. by rewrite (select_character_ok db other Hother).
Qed.

Lemma unresolved_name_not_found_witness :
  Server.can_recruit_query (Ok Sample.graph_db) "Zorro" "Stark"
  = "Character " +:+ Py.quote "Zorro" +:+ " not found".
Proof.
  destruct (unresolved_name_not_found Sample.graph_db "Zorro" "Stark")
    as [Hshort _].
  apply Hshort.
  - vm_compute. discriminate.
  - apply (bool_decide_unpack _). vm_compute. reflexivity.
  - vm_compute. discriminate.
Defined.

Section graph_texts.

Lemma list_ascii_app (a b : string) :
  String.list_ascii_of_string (a +:+ b)
  = String.list_ascii_of_string a ++ String.list_ascii_of_string b.
Proof. induction a as [|c a IH]; simpl; [done|]. by rewrite IH. Qed.

Lemma no_text_not_yes (r t : string) (reasons reasons' : list string) :
  Spec.no_text r t reasons ≠ Spec.yes_text r t reasons'.
Proof.
  unfold Spec.no_text, Spec.yes_text. rewrite !join_two.
  intros H. apply append_inj_l, append_inj_l in H. discriminate H.
Qed.

Lemma join_cons2 (sep a b : string) (l : list string) :
  Py.join sep (a :: b :: l) = a +:+ sep +:+ Py.join sep (b :: l).
Proof. done. Qed.

(** The shared layout of the friends and enemies reports: the "none"
    line is printed exactly when both lists are empty. *)
Lemma two_lists_none (title out_header in_header none : string)
    (outgoing incoming : list Edge) (x : ascii) :
  x ∈ String.list_ascii_of_string out_header →
  x ∉ String.list_ascii_of_string none →
  (∀ rest, none ≠ Py.nl +:+ rest) →
  Server.two_lists title out_header in_header none outgoing incoming
  = Py.join Py.nl [title; none]
  ↔ outgoing = [] ∧ incoming = [].
Proof.
  intros Hin Hout Hnl. split; [|by intros [-> ->]].
  unfold Server.two_lists. rewrite join_two.
  destruct outgoing as [|e out]; [destruct incoming as [|e inc]; [done|]|].
  - simpl. destruct (Server.from_line <$> inc) as [|l ls]; simpl;
      intros H; apply append_inj_l, append_inj_l in H;
      symmetry in H; exfalso; eapply Hnl; exact H.
  - rewrite fmap_cons. simpl app. rewrite 2!join_cons2.
    intros H. apply append_inj_l, append_inj_l in H.
    exfalso. apply Hout. rewrite <- H, list_ascii_app. apply elem_of_app. by left.
Qed.

End graph_texts.

(** X3. A relationship tool called without its character reads the empty
    name, which matches every row.  On a non-empty characters table the
    three reports are therefore about a character of the table, the one
    whose row the lookup fetches, and never "not found". *)
Theorem missing_character_reads_a_row (db : Database) :
  characters db ≠ [] →
  Server.call_tool (Ok db) "get_enemies" no_input
  = [Server.mkTextContent (Server.get_enemies_query (Ok db) "")]
  ∧ ∃ c, c ∈ characters db
      ∧ (∃ body, Server.get_enemies_query (Ok db) ""
                 = ("=== Enemies of " +:+ full_name c +:+ " ===" +:+ Py.nl)
                   +:+ Py.nl +:+ body)
      ∧ (∃ body, Server.get_friends_query (Ok db) ""
                 = ("=== Friends of " +:+ full_name c +:+ " ===" +:+ Py.nl)
                   +:+ Py.nl +:+ body)
      ∧ (∃ body, Server.who_can_recruit_query (Ok db) ""
                 = ("=== Who can recruit " +:+ full_name c +:+ "? ===" +:+ Py.nl)
                   +:+ Py.nl +:+ body).
Proof.
  intros Hrows. split; [done|].
  destruct (characters db) as [|c rest] eqn:Hchars; [done|].
  exists c. split; [apply list_elem_of_here|].
  assert (Hfind : Server.select_character db "" = Ok (Some (full_name c))).
  { rewrite select_character_ok by (vm_compute; discriminate).
    rewrite Hchars, filter_cons_True by (by rewrite like_everything). done. }
  unfold Server.get_enemies_query, Server.get_friends_query,
    Server.who_can_recruit_query, Server.two_lists. rewrite Hfind.
  split; [|split].
  - destruct (Server.edges_from db (full_name c) negative) as [|e l];
      destruct (Server.edges_to db (full_name c) negative) as [|e' l'];
      by eexists.
  - destruct (Server.edges_from db (full_name c) positive) as [|e l];
      destruct (Server.edges_to db (full_name c) positive) as [|e' l'];
      by eexists.
  - destruct (Server.edges_from db (full_name c) positive) as [|e l];
      by eexists.
Qed.

Lemma missing_character_reads_a_row_witness :
  ∃ c, c ∈ characters Sample.feud_db
    ∧ ∃ body, Server.get_enemies_query (Ok Sample.feud_db) ""
              = ("=== Enemies of " +:+ full_name c +:+ " ===" +:+ Py.nl)
                +:+ Py.nl +:+ body.
Proof.
  destruct (missing_character_reads_a_row Sample.feud_db) as (_ & c & Hc & He & _).
  - vm_compute. discriminate.
  - exists c. split; [exact Hc | exact He].
Defined.

(** X4. [get_enemies_query] prints "No enemies found!" exactly when no
    negative edge has the character as source or destination, and
    [get_friends_query] prints "No friends found!" exactly when no
    positive edge has. *)
Theorem no_enemies_iff (db : Database) (character c : string) :
  Server.find_character db character = Some c →
  (Server.get_enemies_query (Ok db) character
   = Py.join Py.nl ["=== Enemies of " +:+ c +:+ " ===" +:+ Py.nl; "No enemies found!"]
   ↔ ¬ Spec.has_enemy db c)
  ∧ (Server.get_friends_query (Ok db) character
     = Py.join Py.nl ["=== Friends of " +:+ c +:+ " ===" +:+ Py.nl; "No friends found!"]
     ↔ ¬ ∃ e, e ∈ character_relationships db ∧ sentiment e = positive
              ∧ (from_character e = c ∨ to_character e = c)).
Proof.
  intros Hfind. unfold Server.get_enemies_query, Server.get_friends_query.
  rewrite (select_character_found _ _ _ Hfind). split.
  - rewrite (two_lists_none _ _ _ _ _ _ "D"%char); cycle 1.
    { rewrite list_ascii_app. apply elem_of_app. right.
      apply list_elem_of_In. vm_compute. tauto. }
    { intros H. apply list_elem_of_In in H. vm_compute in H.
      repeat destruct H as [H|H]; try discriminate H. done. }
    { intros rest. discriminate. }
    unfold Server.edges_from, Server.edges_to.
    rewrite !filter_nil_iff. unfold Spec.has_enemy. split.
    + intros [Hfrom Hto] (e & He & Hs & [Hf|Ht]).
      * by apply (Hfrom e He).
      * by apply (Hto e He).
    + intros Hno. split; intros e He [H1 H2]; apply Hno; exists e; auto.
  - rewrite (two_lists_none _ _ _ _ _ _ "L"%char); cycle 1.
    { rewrite list_ascii_app. apply elem_of_app. right.
      apply list_elem_of_In. vm_compute. tauto. }
    { intros H. apply list_elem_of_In in H. vm_compute in H.
      repeat destruct H as [H|H]; try discriminate H. done. }
    { intros rest. discriminate. }
    unfold Server.edges_from, Server.edges_to.
    rewrite !filter_nil_iff. split.
    + intros [Hfrom Hto] (e & He & Hs & [Hf|Ht]).
      * by apply (Hfrom e He).
      * by apply (Hto e He).
    + intros Hno. split; intros e He [H1 H2]; apply Hno; exists e; auto.
Qed.

Lemma no_enemies_iff_witness :
  Server.get_enemies_query (Ok Sample.graph_db) "Rudel"
  = Py.join Py.nl ["=== Enemies of " +:+ "Konrad Rudel" +:+ " ===" +:+ Py.nl;
                   "No enemies found!"].
Proof.
  assert (Hfind : Server.find_character Sample.graph_db "Rudel"
                  = Some "Konrad Rudel") by (vm_compute; reflexivity).
  apply (proj1 (no_enemies_iff Sample.graph_db "Rudel" "Konrad Rudel" Hfind)).
  assert (Hall : Forall (λ e, ¬ (sentiment e = negative
                                 ∧ (from_character e = "Konrad Rudel"
                                    ∨ to_character e = "Konrad Rudel")))
                    (character_relationships Sample.graph_db))
    by (apply (bool_decide_unpack _); vm_compute; reflexivity).
  intros (e & He & Hs & Hc). apply list_elem_of_lookup in He as [i Hi].
  apply (Forall_lookup_1 _ _ _ _ Hall Hi). split; assumption.
Defined.

(** X5. The CANNOT RECRUIT list and [can_recruit_query] agree.  The text
    of [who_can_recruit_query] for a target ends with its CANNOT RECRUIT
    block, one line per row of the rows it selected: the negative edges
    that leave the target.  A character is the destination of one of these
    rows exactly when asking whether that character can recruit the target
    answers NO. *)
Theorem cannot_list_matches_no (db : Database) (recruiter target r t : string) :
  Spec.resolves db recruiter r → Spec.resolves db target t →
  ∃ can_block cannot_recruit,
    Server.who_can_recruit_query (Ok db) target
    = Py.join Py.nl
        (["=== Who can recruit " +:+ t +:+ "? ===" +:+ Py.nl]
         ++ can_block
         ++ match cannot_recruit with
            | [] => [Py.nl +:+ "CANNOT RECRUIT: No enemies listed"]
            | _ => (Py.nl +:+ "CANNOT RECRUIT:")
                   :: (Server.to_line <$> cannot_recruit)
            end)
    ∧ (∀ e, e ∈ cannot_recruit
            ↔ e ∈ character_relationships db
              ∧ from_character e = t ∧ sentiment e = negative)
    ∧ ((∃ e, e ∈ cannot_recruit ∧ to_character e = r)
       ↔ ∃ reasons, Server.can_recruit_query (Ok db) recruiter target
                    = Spec.no_text r t reasons).
Proof.
  intros Hr Ht. rewrite (can_recruit_resolved db _ _ r t Hr Ht).
  eexists _, (Server.edges_from db t negative). split; [|split].
  - unfold Server.who_can_recruit_query.
    rewrite (select_character_found _ _ _ (proj1 Ht)). reflexivity.
  - intros e. apply edges_from_spec.
  - assert (Hlist : (∃ e, e ∈ Server.edges_from db t negative ∧ to_character e = r)
                    ↔ Spec.edge_exists db t r negative).
    { unfold Spec.edge_exists. split.
      - intros (e & He & Hto). apply edges_from_spec in He. exists e. tauto.
      - intros (e & He & Hf & Hto & Hs). exists e. split; [|done].
        apply edges_from_spec. tauto. }
    rewrite Hlist. pose proof (edges_between_nil db t r negative) as Nneg.
    pose proof (edges_between_spec db t r negative) as Hspec.
    destruct (Server.edges_between db t r negative) as [|b bs].
    + split.
      * intros H. exfalso. by apply (proj1 Nneg).
      * intros [reasons H]. exfalso.
        destruct (Server.edges_between db r t positive).
        -- symmetry in H. by apply no_text_not_unknown in H.
        -- symmetry in H. by apply no_text_not_yes in H.
    + split; [intros _; by eexists|]. intros _.
      exists b. apply Hspec, list_elem_of_here.
Qed.

Lemma cannot_list_matches_no_witness :
  ∃ reasons, Server.can_recruit_query (Ok Sample.graph_db) "Rudzinski" "Grazzini"
             = Spec.no_text "Karl Rudzinski" "Franco Grazzini" reasons.
Proof.
  assert (Hr : Spec.resolves Sample.graph_db "Rudzinski" "Karl Rudzinski")
    by (split; [vm_compute; reflexivity | discriminate]).
  assert (Hg : Spec.resolves Sample.graph_db "Grazzini" "Franco Grazzini")
    by (split; [vm_compute; reflexivity | discriminate]).
  destruct (cannot_list_matches_no Sample.graph_db
              "Rudzinski" "Grazzini" _ _ Hr Hg)
    as (can_block & rows & _ & Hrows & Hiff).
  apply Hiff.
  exists (mkEdge "Franco Grazzini" "Karl Rudzinski" "hates" negative).
  split; [|done]. apply Hrows. split; [|done].
  apply list_elem_of_In. vm_compute. tauto.
Defined.

(** ** Building the relationship table *)

Section build_table.

Lemma same_key_spec (e1 e2 : Edge) :
  Relationships.same_key e1 e2 = true ↔ Spec.edge_key e1 = Spec.edge_key e2.
Proof.
  unfold Relationships.same_key, Spec.edge_key.
  rewrite bool_decide_eq_true. split; [by intros (-> & -> & ->)|].
  by intros [= -> -> ->].
Qed.

Lemma key_present (table : list Edge) (e : Edge) :
  existsb (Relationships.same_key e) table = true
  ↔ Spec.edge_key e ∈ Spec.edge_key <$> table.
Proof.
  rewrite existsb_exists, list_elem_of_fmap. split.
  - intros (e' & He' & Hk). exists e'. split; [by apply same_key_spec|].
    by apply list_elem_of_In.
  - intros (e' & Hk & He'). exists e'. split; [by apply list_elem_of_In|].
    by apply same_key_spec.
Qed.

(** The [INSERT OR IGNORE] loop, started from any table with unique keys. *)
Lemma insert_all_spec (l : list Edge) :
  ∀ table,
    NoDup (Spec.edge_key <$> table) →
    ∃ added,
      foldl Relationships.insert_or_ignore table l = table ++ added
      ∧ added `sublist_of` l
      ∧ NoDup (Spec.edge_key <$> (table ++ added))
      ∧ ∀ e, e ∈ l → Spec.edge_key e ∈ Spec.edge_key <$> (table ++ added).
Proof.
  induction l as [|e l IH]; intros table Hnd.
  - exists []. rewrite app_nil_r. split; [done|]. split; [done|].
    split; [done|]. intros e He. by apply not_elem_of_nil in He.
  - simpl. unfold Relationships.insert_or_ignore at 2.
    destruct (existsb (Relationships.same_key e) table) eqn:Hex.
    + destruct (IH table Hnd) as (added & Heq & Hsub & Hnd' & Hcov).
      exists added. split; [done|]. split; [by apply sublist_cons|].
      split; [done|]. intros e' [->|He']%elem_of_cons; [|by apply Hcov].
      apply key_present in Hex. rewrite fmap_app. apply elem_of_app. by left.
    + assert (Hfresh : Spec.edge_key e ∉ Spec.edge_key <$> table).
      { intros Hin. apply key_present in Hin. congruence. }
      destruct (IH (table ++ [e])) as (added & Heq & Hsub & Hnd' & Hcov).
      { rewrite fmap_app. apply (proj2 (list.NoDup_app _ _)). split; [done|]. split.
        - intros k Hk [->|H]%elem_of_cons; [done|].
          by apply not_elem_of_nil in H.
        - apply NoDup_singleton. }
      exists (e :: added). rewrite <- app_assoc in Heq, Hnd', Hcov.
      split; [done|]. split; [by apply sublist_skip|]. split; [done|].
      intros e' [->|He']%elem_of_cons; [|by apply Hcov].
      rewrite fmap_app. apply elem_of_app. right. simpl. apply list_elem_of_here.
Qed.

End build_table.

Lemma insert_all_distinct (l : list Edge) :
  ∀ table,
    NoDup (Spec.edge_key <$> (table ++ l)) →
    foldl Relationships.insert_or_ignore table l = table ++ l.
Proof.
  induction l as [|e l IH]; intros table Hnd; [by rewrite app_nil_r|].
  simpl. unfold Relationships.insert_or_ignore at 2.
  assert (Hfresh : existsb (Relationships.same_key e) table = false).
  { apply not_true_is_false. intros Hex. apply key_present in Hex.
    rewrite fmap_app in Hnd. apply list.NoDup_app in Hnd as (_ & Hdisj & _).
    apply (Hdisj _ Hex). simpl. apply list_elem_of_here. }
  rewrite Hfresh, IH; rewrite <- app_assoc; done.
Qed.

(** X6. Whatever list of relationships is inserted, the table built by
    [INSERT OR IGNORE] under the unique key holds no two rows with the
    same (from, to, relationship) key, keeps for every listed relationship
    a row with its key, and is a sub-list of the list, its rows in the
    order of the list; a list without duplicate keys is stored whole. *)
Theorem relationship_table_keys_unique (l : list Edge) :
  NoDup (Spec.edge_key <$> foldl Relationships.insert_or_ignore [] l)
  ∧ (∀ e, e ∈ l →
       Spec.edge_key e
       ∈ Spec.edge_key <$> foldl Relationships.insert_or_ignore [] l)
  ∧ foldl Relationships.insert_or_ignore [] l `sublist_of` l
  ∧ (NoDup (Spec.edge_key <$> l) →
     foldl Relationships.insert_or_ignore [] l = l).
Proof.
  destruct (insert_all_spec l [] (NoDup_nil_2 (A:=string * string * string)))
    as (added & Heq & Hsub & Hnd & Hcov).
  rewrite Heq. split; [done|]. split; [done|]. split; [done|].
  intros Hl. rewrite <- Heq. by apply (insert_all_distinct l []).
Qed.

Lemma relationship_table_keys_unique_witness :
  foldl Relationships.insert_or_ignore [] Relationships.RELATIONSHIPS
  = Relationships.RELATIONSHIPS.
Proof.
  apply (relationship_table_keys_unique Relationships.RELATIONSHIPS).
  apply (bool_decide_unpack _). vm_compute. reflexivity.
Defined.

(** ** The section listing *)

Section sections.

Global Instance by_first_page_total : Total Server.by_first_page.
Proof. intros g1 g2. unfold Server.by_first_page. lia. Qed.









End sections.


(** ** Scoped search and index failures *)

Section scoped.

Lemma fts_tier_in_section (db : option Database) (query section : string) :
  Forall (λ r, r_section r = section) (Api.fts_tier db query (Some section)).
Proof.
  unfold Api.fts_tier. destruct db as [db|]; [|done].
  destruct (manual_fts db query) as [hits|msg]; [|done].
  apply Forall_fmap, Forall_forall. intros h Hh. simpl.
  apply list_elem_of_In, subseteq_take in Hh.
  unfold order_by_rank in Hh. rewrite order_by_Permutation in Hh.
  apply list_elem_of_filter in Hh as [Hs _]. simpl in Hs.
  by apply bool_decide_unpack in Hs.
Qed.

Lemma like_tier_in_section (db : option Database) (words : list string)
    (section : string) (rows : list Row) :
  Api.like_tier db words (Some section) = Ok rows →
  Forall (λ r, r_section r = section) rows.
Proof.
  unfold Api.like_tier. destruct (Sql.too_deep _); [discriminate|].
  destruct db as [db|]; [|discriminate].
  destruct (Sql.scan _ _) as [pages|e] eqn:Hscan; [|discriminate].
  intros [= <-]. apply Forall_fmap, Forall_forall. intros p Hp. simpl.
  apply list_elem_of_In, subseteq_take in Hp.
  unfold order_by_page in Hp. rewrite order_by_Permutation in Hp.
  destruct (scan_kept _ _ _ Hscan p Hp) as [_ Hcond].
  destruct (Api.any_like _ _) as [matched|e]; [|discriminate].
  injection Hcond as Hcond. apply andb_true_iff in Hcond as [_ Hs].
  by apply bool_decide_eq_true in Hs.
Qed.

(** The rows of [filter_by_section_db] decide its text. *)
Lemma filter_by_section_text (db : option Database) (section query : string) :
  section ∈ Api.valid_sections →
  Api.filter_by_section_db db section query =
    match (Api.two_tier db query (Some section)).2 with
    | Raise msg => "Error: " +:+ msg
    | Ok [] => "No results for " +:+ Py.quote query +:+ " in " +:+ section
               +:+ " section."
    | Ok results =>
        Api.found_lines
          ("Found " +:+ pretty (length results) +:+ " results for "
           +:+ Py.quote query +:+ " in " +:+ section +:+ ":" +:+ Py.nl)
          results
    end.
Proof.
  intros Hvalid. unfold Api.filter_by_section_db, Api.filter_by_section_run.
  rewrite bool_decide_eq_true_2 by done.
  by destruct (Api.two_tier db query (Some section)) as [stmts [[|r rs]|msg]].
Qed.

End scoped.

(** X8. For a valid section name the scoped search stays inside the
    section: whenever it has rows, from the index or from the fallback,
    every row it prints carries exactly the section tag asked for, and
    there are at most 15.  It has rows (possibly none) for every query
    with fewer than 999 words of three characters or more, each of at most
    49998 bytes.  For a query without index hits that has 999 such words
    or more (up to a million) the [WHERE] clause of the fallback, one
    level deeper than that of the plain search, is refused, and the text
    is the error text of the depth limit. *)
Theorem filter_by_section_stays_in_section
    (db : Database) (section query : string) :
  section ∈ Api.valid_sections →
  (∀ rows, (Api.two_tier (Some db) query (Some section)).2 = Ok rows →
     Forall (λ r, r_section r = section) rows
     ∧ (length rows ≤ 15)%nat
     ∧ Api.filter_by_section_db (Some db) section query
       = match rows with
         | [] => "No results for " +:+ Py.quote query +:+ " in " +:+ section
                 +:+ " section."
         | _ => Api.found_lines
                  ("Found " +:+ pretty (length rows) +:+ " results for "
                   +:+ Py.quote query +:+ " in " +:+ section +:+ ":" +:+ Py.nl)
                  rows
         end)
  ∧ (Z.of_nat (length (Api.long_words query)) < 999 →
     Forall (λ w, Sql.utf8_length w ≤ 49998) (Api.long_words query) →
     ∃ rows, (Api.two_tier (Some db) query (Some section)).2 = Ok rows)
  ∧ (Api.fts_tier (Some db) query (Some section) = [] →
     999 ≤ Z.of_nat (length (Api.long_words query)) ≤ 1000000 →
     Api.filter_by_section_db (Some db) section query
     = "Error: Expression tree is too large (maximum depth 1000)").
Proof.
  intros Hvalid. split; [|split].
  - intros rows Hrows. rewrite (filter_by_section_text _ _ _ Hvalid), Hrows.
    split; [|split; [by eapply two_tier_length | by destruct rows]].
    unfold Api.two_tier in Hrows.
    pose proof (fts_tier_in_section (Some db) query section) as Htag.
    destruct (Api.fts_tier (Some db) query (Some section)) as [|r rs].
    + destruct (Api.long_words query) as [|w ws].
      * injection Hrows as <-. done.
      * by eapply like_tier_in_section.
    + injection Hrows as <-. done.
  - intros Hcount Hwords. unfold Api.two_tier.
    destruct (Api.fts_tier (Some db) query (Some section)) as [|r rs];
      [|by eexists].
    destruct (Api.long_words query) as [|w ws] eqn:Hw; [by eexists|].
    cbn [snd]. rewrite like_tier_ok; [by eexists| |].
    + unfold Api.where_depth. lia.
    + eapply list.Forall_impl; [exact Hwords|]. intros x Hx.
      by apply word_within_limit.
  - intros Hfts [Hcount _]. rewrite (filter_by_section_text _ _ _ Hvalid).
    unfold Api.two_tier. rewrite Hfts.
    destruct (Api.long_words query) as [|w ws] eqn:Hw; [simpl in Hcount; lia|].
    cbn [snd]. rewrite like_tier_deep; [done|].
    unfold Api.where_depth. lia.
Qed.

Lemma filter_by_section_stays_in_section_witness :
  ∃ rows,
    (Api.two_tier (Some Sample.small_db) "rifles skiing" (Some "equipment")).2
    = Ok rows
    ∧ Forall (λ r, r_section r = "equipment") rows
    ∧ r_page <$> rows = [2].
Proof.
  assert (Hvalid : "equipment" ∈ Api.valid_sections)
    by (apply (bool_decide_unpack _); vm_compute; reflexivity).
  pose proof (filter_by_section_stays_in_section Sample.small_db
                "equipment" "rifles skiing" Hvalid) as [Hrows _].
  assert (Heq : (Api.two_tier (Some Sample.small_db) "rifles skiing"
                   (Some "equipment")).2
                = Ok [mkRow 2 "equipment" "Rifles and snow"])
    by (vm_compute; reflexivity).
  destruct (Hrows _ Heq) as (Htag & _).
  exists [mkRow 2 "equipment" "Rifles and snow"].
  split; [exact Heq|]. split; [exact Htag | reflexivity].
Defined.

(** X9. A failing index is handled differently by the two front ends.  In
    the API it is swallowed: both page searches answer exactly as they
    would over an index without hits.  In the MCP server it surfaces: both
    page searches answer "Error: " followed by the message. *)
Theorem index_failure_silent_in_api
    (db : Database) (query section msg : string) :
  manual_fts db query = Raise msg →
  Api.search_manual_run (Some db) query
  = Api.search_manual_run (Some (Spec.with_index db (λ _, Ok []))) query
  ∧ Api.filter_by_section_run (Some db) section query
    = Api.filter_by_section_run (Some (Spec.with_index db (λ _, Ok []))) section query
  ∧ Server.search_manual_query (Ok db) query = "Error: " +:+ msg
  ∧ Server.filter_by_section_query (Ok db) section query = "Error: " +:+ msg.
Proof.
  intros Hfail.
  assert (Hfts : ∀ s, Api.fts_tier (Some db) query s = []
                      ∧ Api.fts_tier (Some (Spec.with_index db (λ _, Ok []))) query s
                        = []).
  { intros s. unfold Api.fts_tier. by rewrite Hfail. }
  split; [|split; [|split]].
  - unfold Api.search_manual_run, Api.two_tier.
    by rewrite (proj1 (Hfts None)), (proj2 (Hfts None)).
  - unfold Api.filter_by_section_run, Api.two_tier.
    by rewrite (proj1 (Hfts (Some section))), (proj2 (Hfts (Some section))).
  - unfold Server.search_manual_query. by rewrite Hfail.
  - unfold Server.filter_by_section_query. by rewrite Hfail.
Qed.

Lemma index_failure_silent_in_api_witness :
  Api.search_manual_db (Some Sample.small_db) "rifles"
  = Py.join Py.nl
      [ "Found 1 results for 'rifles':" +:+ Py.nl;
        "**Page 2** [equipment]"; "  Rifles and snow" +:+ Py.nl ]
  ∧ Server.search_manual_query (Ok Sample.small_db) "rifles"
    = "Error: " +:+ "no such table: manual_fts".
Proof.
  assert (Hfail : manual_fts Sample.small_db "rifles"
                  = Raise "no such table: manual_fts") by reflexivity.
  destruct (index_failure_silent_in_api Sample.small_db "rifles" "equipment"
              _ Hfail) as (Hrun & _ & Hserver & _).
  split; [|exact Hserver].
  unfold Api.search_manual_db. rewrite Hrun. vm_compute. reflexivity.
Defined.

(** ** Running the tools of one turn *)

Section turn.

Variable db : option Database.

(** A well-typed call runs exactly when the input carries every required
    field. *)
Lemma execute_tool_ok (name : string) (input : ToolInput) :
  Spec.well_typed input →
  (∃ out, Api.execute_tool db name input = Ok out)
  ↔ ∀ key, key ∈ Api.required name → ¬ Spec.absent input key.
Proof.
  intros Htyped.
  assert (Htext : ∀ key, key ≠ "page_number" →
            (text_fields input !! key = None ↔ Spec.absent input key)).
  { intros key Hkey. split; [|by intros [? _]].
    intros H. split; [done|]. by apply Htyped. }
  assert (Hint : int_fields input !! "page_number" = None
                 ↔ Spec.absent input "page_number").
  { split; [|by intros [_ ?]]. intros H. split; [apply Htyped | done]. }
  unfold Api.execute_tool, Api.required, get_text, get_int.
  destruct (decide (name = "search_manual")) as [->|N1].
  { split.
    - intros [out Hout] key ->%list_elem_of_singleton Habs.
      apply Htext in Habs; [|done]. by rewrite Habs in Hout.
    - intros Hreq. destruct (text_fields input !! "query") eqn:E; [by eexists|].
      exfalso. apply (Hreq "query"); [apply list_elem_of_here | by apply Htext]. }
  destruct (decide (name = "show_page")) as [->|N2].
  { split.
    - intros [out Hout] key ->%list_elem_of_singleton Habs.
      apply Hint in Habs. by rewrite Habs in Hout.
    - intros Hreq. destruct (int_fields input !! "page_number") eqn:E;
        [by eexists|].
      exfalso. apply (Hreq "page_number"); [apply list_elem_of_here | by apply Hint]. }
  destruct (decide (name = "filter_by_section")) as [->|N3].
  { split.
    - intros [out Hout] key Hkey Habs.
      apply elem_of_cons in Hkey as [->|Hkey].
      + apply Htext in Habs; [|done]. by rewrite Habs in Hout.
      + apply list_elem_of_singleton in Hkey as ->.
        apply Htext in Habs; [|done]. rewrite Habs in Hout.
        by destruct (text_fields input !! "section").
    - intros Hreq. destruct (text_fields input !! "section") eqn:E1.
      + destruct (text_fields input !! "query") eqn:E2; [by eexists|].
        exfalso. apply (Hreq "query");
          [apply list_elem_of_further, list_elem_of_here | by apply Htext].
      + exfalso. apply (Hreq "section");
          [apply list_elem_of_here | by apply Htext]. }
  destruct (decide (name = "quick_search")) as [->|N4].
  { split.
    - intros [out Hout] key ->%list_elem_of_singleton Habs.
      apply Htext in Habs; [|done]. by rewrite Habs in Hout.
    - intros Hreq. destruct (text_fields input !! "query") eqn:E; [by eexists|].
      exfalso. apply (Hreq "query"); [apply list_elem_of_here | by apply Htext]. }
  split; [intros _ key []%not_elem_of_nil | intros _; by eexists].
Qed.

Lemma run_tools_ok (blocks : list Block) :
  Forall (λ call, Spec.well_typed call.2) (Spec.requested blocks) →
  (∃ rs, Api.run_tools db blocks = Ok rs)
  ↔ Forall Spec.well_formed_call (Spec.requested blocks).
Proof.
  induction blocks as [|[t|id name input] blocks IH]; simpl.
  - split; [done | intros _; by eexists].
  - exact IH.
  - intros [Htyped Hrest]%list.Forall_cons. specialize (IH Hrest).
    rewrite list.Forall_cons.
    pose proof (execute_tool_ok name input Htyped) as Hex.
    unfold Spec.well_formed_call at 1. simpl.
    destruct (Api.execute_tool db name input) as [out|e].
    + destruct (Api.run_tools db blocks) as [rs|e'].
      * split; [intros _|intros _; by eexists].
        split; [apply Hex; by eexists | apply IH; by eexists].
      * split; [intros [rs H]; discriminate H|].
        intros [_ H]. apply IH in H as [rs H]. discriminate H.
    + split; [intros [rs H]; discriminate H|].
      intros [H _]. apply Hex in H as [out H]. discriminate H.
Qed.

Lemma run_tools_results (blocks : list Block) :
  ∀ rs, Api.run_tools db blocks = Ok rs →
    Forall2 (λ call r, tool_use_id r = call.1.1
                       ∧ Api.execute_tool db call.1.2 call.2
                         = Ok (tool_result_content r))
      (Spec.requested blocks) rs.
Proof.
  induction blocks as [|[t|id name input] blocks IH]; simpl; intros rs.
  - intros [= <-]. constructor.
  - apply IH.
  - destruct (Api.execute_tool db name input) as [out|e] eqn:Hex; [|discriminate].
    destruct (Api.run_tools db blocks) as [rs'|e']; [|discriminate].
    intros [= <-]. constructor; [by split | by apply IH].
Qed.

End turn.

(** X10. The tool results of a turn answer the requested calls one for
    one and in the order requested: each result carries the id of its
    call and the text that call's tool returned; text blocks in between
    are passed over. *)
Theorem tool_results_follow_request_order
    (db : option Database) (blocks : list Block) (rs : list ToolResult) :
  Api.run_tools db blocks = Ok rs →
  tool_use_id <$> rs = (λ call, call.1.1) <$> Spec.requested blocks
  ∧ Forall2 (λ call r, tool_use_id r = call.1.1
                       ∧ Api.execute_tool db call.1.2 call.2
                         = Ok (tool_result_content r))
      (Spec.requested blocks) rs.
Proof.
  intros Hrun. pose proof (run_tools_results db blocks rs Hrun) as H.
  split; [|exact H]. clear Hrun.
  induction H as [|call r calls rs' [Hid _] _ IH]; [done|].
  csimpl. by rewrite Hid, IH.
Qed.

Lemma tool_results_follow_request_order_witness :
  tool_use_id <$>
    [ mkToolResult "b" "Unknown tool: teleport";
      mkToolResult "a" "Page 0 not found. Valid pages are 1-196." ]
  = ["b"; "a"].
Proof.
  apply (tool_results_follow_request_order (Some Sample.manual_db)
           [ ToolUseBlock "b" "teleport" no_input;
             TextBlock "and then";
             ToolUseBlock "a" "show_page" (mkToolInput ∅ {[ "page_number" := 0 ]}) ]).
  vm_compute. reflexivity.
Defined.

(** X11. For requested calls whose fields have the types the tool
    schemas declare (the page number an integer, every other field a
    text), a turn's tools raise exactly when some requested call of a
    known tool lacks one of its required fields altogether.  A call of an
    unknown tool never raises: it is answered with the text
    "Unknown tool: <name>". *)
Theorem turn_raises_only_on_missing_field
    (db : option Database) (blocks : list Block) :
  Forall (λ call, Spec.well_typed call.2) (Spec.requested blocks) →
  ((∃ rs, Api.run_tools db blocks = Ok rs)
   ↔ Forall Spec.well_formed_call (Spec.requested blocks))
  ∧ (∀ name input,
       name ∉ ["search_manual"; "show_page"; "filter_by_section"; "quick_search"] →
       Api.execute_tool db name input = Ok ("Unknown tool: " +:+ name)).
Proof.
  intros Htyped. split; [by apply run_tools_ok|].
  intros name input Hname. unfold Api.execute_tool.
  repeat case_decide; subst; try done; exfalso; apply Hname; set_solver.
Qed.

Lemma turn_raises_only_on_missing_field_witness :
  ¬ ∃ rs, Api.run_tools (Some Sample.manual_db)
            [ ToolUseBlock "a" "show_page" (mkToolInput ∅ {[ "page_number" := 5 ]});
              ToolUseBlock "b" "search_manual" no_input ] = Ok rs.
Proof.
  assert (Htyped : Forall (λ call : string * string * ToolInput,
                             Spec.well_typed call.2)
                     [ ("a", "show_page", mkToolInput ∅ {[ "page_number" := 5 ]});
                       ("b", "search_manual", no_input) ]).
  { repeat constructor; simpl; try done.
    intros key Hkey. by apply lookup_singleton_ne. }
  intros Hrun.
  apply (turn_raises_only_on_missing_field (Some Sample.manual_db)
           [ ToolUseBlock "a" "show_page" (mkToolInput ∅ {[ "page_number" := 5 ]});
             ToolUseBlock "b" "search_manual" no_input ] Htyped) in Hrun.
  apply list.Forall_cons in Hrun as [_ Hrun].
  apply list.Forall_cons in Hrun as [Hquery _].
  apply (Hquery "query"); [apply list_elem_of_here | by split].
Defined.

(** ** One conversation, exchange by exchange *)

Section trace.

Variables (db : option Database) (client : Client).
Variables (mdl : string) (max_tok : nat).

(** After a request that the service failed, the loop makes no other:
    the failure is its result. *)
Lemma tool_rounds_no_retry (n : nat) :
  ∀ response msgs log,
    ∃ ext, (Api.tool_rounds db client mdl max_tok n response msgs log).2
           = log ++ ext
      ∧ ∀ i req e, ext !! i = Some req → client req = Raise e →
          S i = length ext
          ∧ (Api.tool_rounds db client mdl max_tok n response msgs log).1
            = Raise e.
Proof.
  induction n as [|n IH]; intros response msgs log.
  - exists []. simpl. rewrite app_nil_r. split; [done|].
    intros i req e Hi. by rewrite lookup_nil in Hi.
  - rewrite tool_rounds_step.
    destruct (decide _) as [Hd|Hd];
      [|exists []; simpl; rewrite app_nil_r; split; [done|];
        intros i req e Hi; by rewrite lookup_nil in Hi].
    destruct (Api.run_tools _ _) as [rs|e0];
      [|exists []; simpl; rewrite app_nil_r; split; [done|];
        intros i req e Hi; by rewrite lookup_nil in Hi].
    simpl. set (req0 := mkRequest _ _ _ _).
    destruct (client req0) as [response'|e0] eqn:Hreq0.
    + destruct (IH response' (msgs ++ Api.turn_messages response rs None)
                  (log ++ [req0])) as (ext & Hlog & Hfail).
      exists (req0 :: ext). rewrite Hlog, <- app_assoc. split; [done|].
      intros [|i] req e Hi Hraise.
      * injection Hi as <-. congruence.
      * destruct (Hfail i req e Hi Hraise) as [Hlast Hres].
        split; [simpl; lia | exact Hres].
    + exists [req0]. simpl. split; [done|].
      intros [|i] req e Hi Hraise; [|by destruct i].
      injection Hi as <-. split; [done|]. congruence.
Qed.

Lemma converse_no_retry (limit : nat) (query : string) :
  ∀ i req e,
    (Api.converse db client mdl max_tok limit query []).2 !! i = Some req →
    client req = Raise e →
    S i = length (Api.converse db client mdl max_tok limit query []).2
    ∧ (Api.converse db client mdl max_tok limit query []).1 = Raise e.
Proof.
  rewrite converse_unfold. simpl. set (req0 := mkRequest _ _ _ _).
  destruct (client req0) as [response|e0] eqn:Hreq0.
  - destruct (tool_rounds_no_retry limit response
                [mkMessage user (Text query)] [req0]) as (ext & Hlog & Hfail).
    rewrite Hlog. intros [|i] req e Hi Hraise.
    + injection Hi as <-. congruence.
    + destruct (Hfail i req e Hi Hraise) as [Hlast Hres].
      split; [simpl; lia | exact Hres].
  - intros [|i] req e Hi Hraise; [|by destruct i].
    injection Hi as <-. simpl. split; [done|]. congruence.
Qed.

End trace.

Lemma job_conversation_no_retry
    (db : option Database) (client : Client) (query : string) :
  ∀ i req e,
    (Api.job_conversation db client query []).2 !! i = Some req →
    client req = Raise e →
    S i = length (Api.job_conversation db client query []).2
    ∧ (Api.job_conversation db client query []).1 = Raise e.
Proof.
  intros i req e. unfold Api.job_conversation, mbind, Api.M_bind.
  pose proof (converse_no_retry db client Api.sonnet 2048 6 query i req e) as H.
  destruct (Api.converse db client Api.sonnet 2048 6 query [])
    as [[[response msgs]|e0] log0]; simpl in *;
    [|intros Hi Hraise; destruct (H Hi Hraise) as [Hlast [= ->]]; done].
  rewrite force_final_unfold.
  destruct (decide (stop_reason response = tool_use)) as [Hd|Hd];
    [|simpl; intros Hi Hraise; by destruct (H Hi Hraise)].
  destruct (Api.run_tools _ _) as [rs|e1];
    [|simpl; intros Hi Hraise; by destruct (H Hi Hraise)].
  simpl. set (req1 := mkRequest _ _ _ _).
  assert (Hlog : ∀ A (f : Response → A) ,
            (match client req1 with
             | Ok a => (Ok (f a), log0 ++ [req1])
             | Raise e2 => (Raise e2, log0 ++ [req1])
             end).2 = log0 ++ [req1]) by (intros; by destruct (client req1)).
  intros Hi Hraise.
  destruct (decide (i < length log0)%nat) as [Hlt|Hge].
  - exfalso. destruct (client req1); simpl in Hi;
      rewrite lookup_app_l in Hi by done; by destruct (H Hi Hraise).
  - assert (Hreq : req = req1 ∧ i = length log0).
    { destruct (client req1); simpl in Hi;
        pose proof (lookup_lt_Some _ _ _ Hi) as Hb;
        rewrite length_app in Hb; simpl in Hb;
        (assert (i = length log0) as -> by lia);
        rewrite lookup_app_r, Nat.sub_diag in Hi by lia;
        injection Hi as <-; done. }
    destruct Hreq as [-> ->]. rewrite Hraise. simpl.
    rewrite length_app. simpl. split; [lia|done].
Qed.

(** X12. A response that does not ask for tools ends the conversation at
    once: one exchange, and the outcome is built from the text blocks of
    that response, concatenated.  The short profile returns the text (or
    "No results found." for an empty text).  The long profile and the job
    parse the text into citations: when the parse succeeds the endpoint
    replies with the structured result and the job is stored as complete;
    when it raises (a cited page number of more than 4300 digits, which
    [int] refuses) the endpoint replies 500 with the message and the job
    is stored as failed with it. *)
Theorem final_answer_ends_conversation
    (db : option Database) (client : Client) (query : string) (response : Response) :
  stop_reason response ≠ tool_use →
  (Py.strip query ≠ "" →
   client (Spec.first_request Api.haiku 1024 (Py.strip query)) = Ok response →
   Api.search_fast db (Some client) query
   = (Api.Json (Api.mkSearchResult (Py.strip query) []
                  (Some (if Py.truthy (Api.response_text (resp_content response))
                         then Api.response_text (resp_content response)
                         else "No results found."))),
      [Spec.first_request Api.haiku 1024 (Py.strip query)]))
  ∧ (Py.strip query ≠ "" →
     client (Spec.first_request Api.sonnet 2048 (Py.strip query)) = Ok response →
     Api.search db (Some client) query
     = (Api.answer (Api.package (Py.strip query)
                      (Api.response_text (resp_content response))),
        [Spec.first_request Api.sonnet 2048 (Py.strip query)]))
  ∧ (∀ job_id search_jobs,
       is_Some (search_jobs !! job_id) →
       client (Spec.first_request Api.sonnet 2048 query) = Ok response →
       Api.run_search_job db (Some client) job_id query search_jobs
       = (<[job_id := Api.job_record
                        (Api.package query
                           (Api.response_text (resp_content response)))]>
            search_jobs,
          [Spec.first_request Api.sonnet 2048 query])).
Proof.
  intros Hstop.
  assert (Hconv : ∀ mdl max_tok limit q,
            client (Spec.first_request mdl max_tok q) = Ok response →
            Api.converse db client mdl max_tok limit q []
            = (Ok (response, [mkMessage user (Text q)]),
               [Spec.first_request mdl max_tok q])).
  { intros mdl max_tok limit q Hfirst. rewrite converse_unfold. simpl.
    unfold Spec.first_request in Hfirst. rewrite Hfirst.
    destruct limit; [done|]. rewrite tool_rounds_step.
    by rewrite decide_False. }
  split; [|split].
  - intros Hq Hfirst. apply truthy_ne in Hq.
    unfold Api.search_fast. rewrite Hq. simpl.
    by rewrite (Hconv _ _ _ _ Hfirst).
  - intros Hq Hfirst. apply truthy_ne in Hq.
    unfold Api.search. rewrite Hq. simpl.
    by rewrite (Hconv _ _ _ _ Hfirst).
  - intros job_id search_jobs [job Hjob] Hfirst.
    unfold Api.run_search_job. rewrite Hjob.
    unfold Api.job_conversation, mbind, Api.M_bind.
    rewrite (Hconv _ _ _ _ Hfirst). simpl.
    rewrite force_final_unfold, decide_False by done. simpl.
    by rewrite insert_insert_eq.
Qed.

Lemma final_answer_ends_conversation_witness :
  Api.search None (Some Sample.direct_client) " skiing "
  = (Api.answer (Api.package (Py.strip " skiing ")
                 (Api.response_text
                    [TextBlock "Skiing is covered on "; TextBlock "page 12."])),
     [Spec.first_request Api.sonnet 2048 (Py.strip " skiing ")]).
Proof.
  apply (proj1 (proj2 (final_answer_ends_conversation None Sample.direct_client
                         " skiing "
                         (mkResponse end_turn
                            [TextBlock "Skiing is covered on ";
                             TextBlock "page 12."])
                         ltac:(discriminate))));
    [vm_compute; discriminate | reflexivity].
Defined.

(** X13. There is no retry.  If the service fails a request, that request
    is the last exchange of the run and its error message is the outcome:
    the interactive endpoints reply 500 with it and a job is stored as
    failed with it. *)
Theorem service_failure_is_final
    (db : option Database) (client : Client) (query : string)
    (i : nat) (req : Request) (e : string) :
  client req = Raise e →
  ((Api.search_fast db (Some client) query).2 !! i = Some req →
   S i = length (Api.search_fast db (Some client) query).2
   ∧ (Api.search_fast db (Some client) query).1 = Api.Fail 500 e)
  ∧ ((Api.search db (Some client) query).2 !! i = Some req →
     S i = length (Api.search db (Some client) query).2
     ∧ (Api.search db (Some client) query).1 = Api.Fail 500 e)
  ∧ (∀ job_id search_jobs,
       (Api.run_search_job db (Some client) job_id query search_jobs).2 !! i
       = Some req →
       S i = length (Api.run_search_job db (Some client) job_id query
                       search_jobs).2
       ∧ (Api.run_search_job db (Some client) job_id query search_jobs).1
           !! job_id
         = Some (Api.error_job e)).
Proof.
  intros Hraise. split; [|split].
  - unfold Api.search_fast. destruct (negb _); [simpl; intros Hi; by rewrite lookup_nil in Hi|].
    pose proof (converse_no_retry db client Api.haiku 1024 2 (Py.strip query)
                  i req e) as H.
    destruct (Api.converse _ _ _ _ _ _ _) as [[[response msgs]|e0] log];
      simpl in *; intros Hi; destruct (H Hi Hraise) as [Hlast Hres];
      [discriminate Hres|]. injection Hres as ->. done.
  - unfold Api.search. destruct (negb _); [simpl; intros Hi; by rewrite lookup_nil in Hi|].
    pose proof (converse_no_retry db client Api.sonnet 2048 5 (Py.strip query)
                  i req e) as H.
    destruct (Api.converse _ _ _ _ _ _ _) as [[[response msgs]|e0] log];
      simpl in *; intros Hi; destruct (H Hi Hraise) as [Hlast Hres];
      [discriminate Hres|]. injection Hres as ->. done.
  - intros job_id search_jobs. unfold Api.run_search_job.
    destruct (search_jobs !! job_id) as [job|];
      [|simpl; intros Hi; by rewrite lookup_nil in Hi].
    pose proof (job_conversation_no_retry db client query i req e) as H.
    destruct (Api.job_conversation db client query []) as [[text|e0] log];
      simpl in *; intros Hi; destruct (H Hi Hraise) as [Hlast Hres];
      [discriminate Hres|]. injection Hres as ->.
    split; [done|]. apply lookup_insert_eq.
Qed.

Lemma service_failure_is_final_witness :
  (Api.search None (Some Sample.down_client) "skiing").1
  = Api.Fail 500 "Connection error."
  ∧ length (Api.search None (Some Sample.down_client) "skiing").2 = 1%nat.
Proof.
  destruct (proj1 (proj2 (service_failure_is_final None Sample.down_client "skiing" 0
                     (Spec.first_request Api.sonnet 2048 "skiing")
                     "Connection error." eq_refl)))
    as [Hlast Hres]; [vm_compute; reflexivity|].
  split; [exact Hres | by rewrite <- Hlast].
Defined.


Section tracker.

Implicit Types (search_jobs : gmap string Api.Job) (job_id : string).

(** Whatever the worker meets, it ends by storing a fresh record under
    its id, over whatever the table held there. *)
Lemma run_search_job_table db client job_id query search_jobs :
  ∃ j, (Api.run_search_job db client job_id query search_jobs).1
       = <[job_id := j]> search_jobs
       ∧ Spec.terminal j ∧ Api.job_created j = None.
Proof.
  unfold Api.run_search_job.
  destruct (search_jobs !! job_id) as [job|]; simpl.
  - destruct client as [client|]; simpl.
    + destruct (Api.job_conversation db client query []) as [[text|e] log];
        cbn [fst mbind result_bind];
        [destruct (Api.package query text) as [r|e]|];
        eexists; rewrite insert_insert_eq; (split; [reflexivity|]); (split; [|done]).
      * left. by split; [|eexists].
      * right. by split; [|eexists].
      * right. by split; [|eexists].
    + eexists. rewrite insert_insert_eq. split; [reflexivity|].
      split; [|done]. right. by split; [|eexists].
  - eexists. split; [reflexivity|]. split; [|done]. right. by split; [|eexists].
Qed.

Lemma search_status_terminal job_id j search_jobs :
  Spec.terminal j →
  ∃ body, Api.search_status job_id (<[job_id := j]> search_jobs)
          = (Api.Json body, delete job_id search_jobs)
          ∧ Api.body_status body = Api.job_status j.
Proof.
  intros Hj. unfold Api.search_status. rewrite lookup_insert_eq.
  destruct Hj as [[Hst [r Hr]]|[Hst _]]; rewrite Hst.
  - rewrite Hr, delete_insert_eq. eexists. by split; [reflexivity|].
  - rewrite delete_insert_eq. eexists. by split; [reflexivity|].
Qed.

End tracker.

(** X15. The worker always ends its job.  Whatever the table holds, and
    whether the service is configured, answers or fails, after
    [run_search_job] the job id holds a record that is complete with a
    result or failed with a message, no other job is touched, and the next
    status read reports that outcome and removes the record.  A missing id
    is recreated as a failed record whose message is the text of the
    [KeyError]: the id as [repr] writes it, in apostrophes or, when the id
    holds an apostrophe and no double quote, in double quotes, with
    backslashes and control characters escaped. *)
Theorem worker_always_ends_job
    (db : option Database) (client : option Client) (job_id query : string)
    (search_jobs : gmap string Api.Job) :
  (∃ j, (Api.run_search_job db client job_id query search_jobs).1 !! job_id = Some j
        ∧ Spec.terminal j)
  ∧ (∀ other, other ≠ job_id →
       (Api.run_search_job db client job_id query search_jobs).1 !! other
       = search_jobs !! other)
  ∧ (∃ body,
       Api.search_status job_id
         (Api.run_search_job db client job_id query search_jobs).1
       = (Api.Json body, delete job_id search_jobs)
       ∧ (Api.body_status body = Api.complete ∨ Api.body_status body = Api.error))
  ∧ (search_jobs !! job_id = None →
     Api.search_status job_id
       (Api.run_search_job db client job_id query search_jobs).1
     = (Api.Json (Api.mkStatusBody Api.error None (Some (Py.repr job_id))),
        search_jobs)).
Proof.
  destruct (run_search_job_table db client job_id query search_jobs)
    as (j & Htable & Hj & _).
  split; [|split; [|split]].
  - exists j. split; [|done]. rewrite Htable. apply lookup_insert_eq.
  - intros other Hne. rewrite Htable. by apply lookup_insert_ne.
  - destruct (search_status_terminal job_id j search_jobs Hj)
      as (body & Hread & Hst).
    exists body. rewrite Htable. split; [done|]. rewrite Hst.
    destruct Hj as [[-> _]|[-> _]]; auto.
  - intros Hnone. unfold Api.run_search_job, Api.search_status. rewrite Hnone.
    simpl. rewrite lookup_insert_eq. simpl.
    by rewrite delete_insert_eq, delete_id.
Qed.

(** X16. A job leaves nothing behind.  For a query that is not blank and
    a job id the table does not hold, starting the job answers with the id
    and [pending]; a status read before the worker runs reports [pending]
    and keeps the record; and once the worker has run, one status read
    reports its outcome and leaves the table exactly as it was before the
    job was started. *)
Theorem finished_job_leaves_no_trace
    (db : option Database) (client : option Client)
    (query job_id now : string) (search_jobs : gmap string Api.Job) :
  Py.truthy (Py.strip query) = true →
  search_jobs !! job_id = None →
  let started := Api.search_start query job_id now search_jobs in
  let worked := Api.run_search_job db client job_id (Py.strip query) started.2 in
  started.1 = Api.Json (job_id, Api.pending)
  ∧ Api.search_status job_id started.2
    = (Api.Json (Api.mkStatusBody Api.pending None None), started.2)
  ∧ ∃ body, Api.search_status job_id worked.1 = (Api.Json body, search_jobs)
            ∧ (Api.body_status body = Api.complete
               ∨ Api.body_status body = Api.error).
Proof.
  intros Hq Hfresh started worked.
  assert (Hstarted : started
                     = (Api.Json (job_id, Api.pending),
                        <[job_id := Api.mkJob Api.pending (Some now) None None]>
                          search_jobs)).
  { unfold started, Api.search_start. by rewrite Hq. }
  rewrite Hstarted. simpl. split; [done|]. split.
  - unfold Api.search_status. by rewrite lookup_insert_eq.
  - unfold worked. rewrite Hstarted. simpl.
    destruct (run_search_job_table db client job_id (Py.strip query)
                (<[job_id := Api.mkJob Api.pending (Some now) None None]>
                   search_jobs)) as (j & -> & Hj & _).
    destruct (search_status_terminal job_id j
                (<[job_id := Api.mkJob Api.pending (Some now) None None]>
                   search_jobs) Hj) as (body & Hread & Hst).
    exists body. rewrite Hread, delete_insert_eq, delete_id by done.
    split; [done|]. rewrite Hst. destruct Hj as [[-> _]|[-> _]]; auto.
Qed.

Lemma finished_job_leaves_no_trace_witness :
  let started := Api.search_start " skiing " "ab12cd34" "2024-01-01T00:00:00" ∅ in
  let worked := Api.run_search_job (Some Sample.manual_db) (Some Sample.eager_client)
                  "ab12cd34" "skiing" started.2 in
  started.1 = Api.Json ("ab12cd34", Api.pending)
  ∧ Api.search_status "ab12cd34" started.2
    = (Api.Json (Api.mkStatusBody Api.pending None None), started.2)
  ∧ ∃ body, Api.search_status "ab12cd34" worked.1 = (Api.Json body, ∅)
            ∧ (Api.body_status body = Api.complete
               ∨ Api.body_status body = Api.error).
Proof.
  apply (finished_job_leaves_no_trace (Some Sample.manual_db)
           (Some Sample.eager_client) " skiing " "ab12cd34"
           "2024-01-01T00:00:00" ∅).
  - vm_compute. reflexivity.
  - apply lookup_empty.
Defined.

(** ** Citations: what the parser returns, and what it reads back *)

Section parse.

Lemma strip_prefix_app (lit s : string) : Api.strip_prefix lit (lit +:+ s) = Some s.
Proof. induction lit as [|a lit IH]; simpl; [done|]. by rewrite Ascii.eqb_refl. Qed.

Lemma span_all (f : ascii → bool) (s : string) :
  Forall (λ c, f c = true) (String.list_ascii_of_string (Api.span f s).1).
Proof.
  induction s as [|c s IH]; simpl; [constructor|].
  destruct (f c) eqn:Hc; [|constructor].
  destruct (Api.span f s) as [a b]. simpl in *. by constructor.
Qed.

(** A run that stops at a character outside [f] is the whole span. *)
Lemma span_app (f : ascii → bool) (a rest : string) :
  Forall (λ c, f c = true) (String.list_ascii_of_string a) →
  (Api.span f rest).1 = "" →
  Api.span f (a +:+ rest) = (a, rest).
Proof.
  intros Ha Hrest. induction a as [|c a IH]; simpl.
  - destruct rest as [|d rest]; [done|]. simpl in *.
    destruct (f d); [|done]. by destruct (Api.span f rest).
  - simpl in Ha. apply list.Forall_cons in Ha as [-> Ha]. by rewrite IH.
Qed.

Lemma digits_nonneg (l : list ascii) (acc : Z) :
  Forall (λ c, Api.is_digit c = true) l → 0 ≤ acc →
  0 ≤ foldl (λ acc c, 10 * acc + (Z.of_nat (nat_of_ascii c) - 48)) acc l.
Proof.
  intros Hl. revert acc. induction Hl as [|c l Hc _ IH]; intros acc Hacc; [done|].
  simpl. apply IH. unfold Api.is_digit in Hc.
  apply andb_prop in Hc as [H1 _]. apply Nat.leb_le in H1. lia.
Qed.

Lemma no_bracket_all (s : string) :
  Forall (λ c, negb (Ascii.eqb c "]"%char) = true) (String.list_ascii_of_string s) →
  Spec.no_bracket s = true.
Proof.
  induction s as [|c s IH]; simpl; [done|].
  intros H. apply list.Forall_cons in H as [-> H]. by apply IH.
Qed.

Lemma all_no_bracket (s : string) :
  Spec.no_bracket s = true →
  Forall (λ c, negb (Ascii.eqb c "]"%char) = true) (String.list_ascii_of_string s).
Proof.
  induction s as [|c s IH]; simpl; [constructor|].
  intros H. apply andb_prop in H as [H1 H2]. constructor; auto.
Qed.

Lemma prefix_length (n : nat) (s : string) : (String.length (Py.prefix n s) ≤ n)%nat.
Proof.
  revert s. induction n as [|n IH]; intros [|c s]; simpl; try lia.
  specialize (IH s). lia.
Qed.

Lemma match_citation_parts (s digits section rest : string) :
  Api.match_citation s = Some (digits, section, rest) →
  Forall (λ c, Api.is_digit c = true) (String.list_ascii_of_string digits)
  ∧ section ≠ "" ∧ Spec.no_bracket section = true.
Proof.
  unfold Api.match_citation.
  destruct (Api.strip_prefix "**Page " s) as [s1|]; [|simpl; discriminate].
  cbn [mbind option_bind].
  pose proof (span_all Api.is_digit s1) as D.
  destruct (Api.span Api.is_digit s1) as [ds s2].
  destruct (Py.truthy ds); [|discriminate].
  destruct (Api.strip_prefix "** [" s2) as [s3|]; [|simpl; discriminate].
  cbn [mbind option_bind].
  pose proof (span_all (λ c, negb (Ascii.eqb c "]"%char)) s3) as B.
  destruct (Api.span _ s3) as [sec s4].
  destruct (Py.truthy sec) eqn:Hsec; [|discriminate].
  destruct (Api.strip_prefix "]" s4) as [s5|]; [|simpl; discriminate].
  cbn [mbind option_bind].
  intros [= <- <- <-]. simpl in *. split; [done|split].
  - by destruct sec.
  - by apply no_bracket_all.
Qed.

(** What [int] returns is the value of the digits. *)
Lemma int_ok (digits : string) (n : Z) :
  Api.int digits = Ok n → n = Api.int_of_digits digits.
Proof. unfold Api.int. destruct (_ <? _); [discriminate|]. by intros [= <-]. Qed.

Lemma citations_go_parts (fuel : nat) :
  ∀ s results c, Api.citations_go fuel s = Ok results → c ∈ results →
    0 ≤ Api.cite_page_number c ∧ Api.cite_section c ≠ ""
    ∧ Spec.no_bracket (Api.cite_section c) = true
    ∧ (String.length (Api.cite_content c) ≤ 500)%nat.
Proof.
  induction fuel as [|fuel IH]; intros s results c Hgo Hc;
    cbn [Api.citations_go] in Hgo.
  - injection Hgo as <-. by apply not_elem_of_nil in Hc.
  - destruct (Api.match_citation s) as [[[digits section] rest]|] eqn:Hm.
    + destruct (Api.int digits) as [n|e] eqn:Hint; [|discriminate].
      destruct (Api.citations_go fuel rest) as [later|e] eqn:Hlater;
        [|discriminate].
      cbn [mbind result_bind mret result_ret] in Hgo. apply Ok_inj in Hgo as <-.
      apply elem_of_cons in Hc as [->|Hc]; [|by apply (IH rest later)].
      apply match_citation_parts in Hm as (H1 & H2 & H3).
      apply int_ok in Hint as ->.
      cbn [Api.cite_page_number Api.cite_section Api.cite_content].
      split; [by apply digits_nonneg|]. split; [done|]. split; [done|].
      apply prefix_length.
    + destruct s as [|d s]; [|by apply (IH s results)].
      injection Hgo as <-. by apply not_elem_of_nil in Hc.
Qed.

(** Without an asterisk there is nothing to match. *)
Lemma match_citation_no_asterisk (c : ascii) (s : string) :
  Ascii.eqb c "*"%char = false → Api.match_citation (String c s) = None.
Proof.
  intros H. unfold Api.match_citation.
  assert (Api.strip_prefix "**Page " (String c s) = None) as ->; [|done].
  change "**Page " with (String "*"%char "*Page "). cbn [Api.strip_prefix].
  by rewrite Ascii.eqb_sym, H.
Qed.

Lemma match_marker_no_asterisk (c : ascii) (s : string) :
  Ascii.eqb c "*"%char = false → Api.match_marker (String c s) = false.
Proof.
  intros H. unfold Api.match_marker.
  assert (Api.strip_prefix "**Page " (String c s) = None) as ->; [|done].
  change "**Page " with (String "*"%char "*Page "). cbn [Api.strip_prefix].
  by rewrite Ascii.eqb_sym, H.
Qed.

Lemma citations_go_no_asterisk (fuel : nat) :
  ∀ s, Spec.no_asterisk s = true → Api.citations_go fuel s = Ok [].
Proof.
  induction fuel as [|fuel IH]; intros s Hs; [done|].
  destruct s as [|c s]; [done|].
  simpl in Hs. apply andb_prop in Hs as [Hc Hs]. apply negb_true_iff in Hc.
  cbn [Api.citations_go]. rewrite match_citation_no_asterisk by done. by apply IH.
Qed.

Lemma before_marker_no_asterisk (s : string) :
  Spec.no_asterisk s = true → Api.before_marker s = s.
Proof.
  induction s as [|c s IH]; [done|]. intros Hs.
  simpl in Hs. apply andb_prop in Hs as [Hc Hs]. apply negb_true_iff in Hc.
  cbn [Api.before_marker]. rewrite match_marker_no_asterisk by done.
  by rewrite IH.
Qed.

(** *** Decimal numerals *)

Lemma pretty_N_char_digit (d : N) :
  (d < 10)%N →
  Api.is_digit (pretty_N_char d) = true
  ∧ Z.of_nat (nat_of_ascii (pretty_N_char d)) - 48 = Z.of_N d.
Proof.
  intros H.
  assert (d = 0 ∨ d = 1 ∨ d = 2 ∨ d = 3 ∨ d = 4 ∨ d = 5 ∨ d = 6 ∨ d = 7
          ∨ d = 8 ∨ d = 9)%N as Hd by lia.
  destruct_or!; subst d; by vm_compute.
Qed.

Lemma pretty_N_go_digits (x : N) :
  ∀ s, Forall (λ c, Api.is_digit c = true) (String.list_ascii_of_string s) →
       Forall (λ c, Api.is_digit c = true)
         (String.list_ascii_of_string (pretty_N_go x s)).
Proof.
  induction (N.lt_wf_0 x) as [x _ IH]; intros s Hs.
  destruct (decide (x = 0)%N) as [->|Hx]; [by rewrite pretty_N_go_0|].
  rewrite pretty_N_go_step by lia. apply IH.
  - apply N.div_lt; lia.
  - simpl. constructor; [|done].
    apply pretty_N_char_digit, N.mod_lt. lia.
Qed.

Lemma pretty_N_go_value (x : N) :
  ∀ s, foldl (λ acc c, 10 * acc + (Z.of_nat (nat_of_ascii c) - 48)) 0
         (String.list_ascii_of_string (pretty_N_go x s))
       = foldl (λ acc c, 10 * acc + (Z.of_nat (nat_of_ascii c) - 48)) (Z.of_N x)
           (String.list_ascii_of_string s).
Proof.
  induction (N.lt_wf_0 x) as [x _ IH]; intros s.
  destruct (decide (x = 0)%N) as [->|Hx]; [by rewrite pretty_N_go_0|].
  rewrite pretty_N_go_step by lia. rewrite IH by (apply N.div_lt; lia).
  simpl. f_equal.
  destruct (pretty_N_char_digit (x `mod` 10)) as [_ ->]; [apply N.mod_lt; lia|].
  pose proof (N.div_mod x 10). lia.
Qed.

Lemma pretty_N_go_truthy (x : N) :
  ∀ s, Py.truthy s = true → Py.truthy (pretty_N_go x s) = true.
Proof.
  induction (N.lt_wf_0 x) as [x _ IH]; intros s Hs.
  destruct (decide (x = 0)%N) as [->|Hx]; [by rewrite pretty_N_go_0|].
  rewrite pretty_N_go_step by lia. apply IH; [apply N.div_lt; lia | done].
Qed.

(** The numeral of a page number is a non-empty run of digits whose value
    is the number. *)
Lemma pretty_numeral (n : Z) :
  0 ≤ n →
  Forall (λ c, Api.is_digit c = true) (String.list_ascii_of_string (pretty n))
  ∧ Api.int_of_digits (pretty n) = n
  ∧ Py.truthy (pretty n) = true.
Proof.
  intros Hn. destruct n as [|p|p]; [by repeat constructor | | lia].
  change (pretty (Z.pos p)) with (pretty_N_go (N.pos p) "").
  split; [|split].
  - apply pretty_N_go_digits. constructor.
  - unfold Api.int_of_digits. apply (pretty_N_go_value (N.pos p) "").
  - assert (0 < N.pos p)%N as Hp by lia.
    rewrite pretty_N_go_step by done. by apply pretty_N_go_truthy.
Qed.

(** A numeral below [10 ^ k] has at most [k] digits. *)
Lemma pretty_N_go_length (x : N) :
  ∀ k s, 0 ≤ k → Z.of_N x < 10 ^ k →
         Z.of_nat (String.length (pretty_N_go x s))
         ≤ k + Z.of_nat (String.length s).
Proof.
  induction (N.lt_wf_0 x) as [x _ IH]; intros k s Hk Hx.
  destruct (decide (x = 0)%N) as [->|Hx0]; [rewrite pretty_N_go_0; lia|].
  rewrite pretty_N_go_step by lia.
  assert (Hk1 : 1 ≤ k).
  { destruct (decide (k = 0)) as [->|]; [|lia]. change (10 ^ 0) with 1 in Hx. lia. }
  assert (Hpow : 10 ^ k = 10 * 10 ^ (k - 1)).
  { rewrite <- Z.pow_succ_r by lia. f_equal. lia. }
  assert (Hdiv : Z.of_N (x `div` 10) < 10 ^ (k - 1)).
  { rewrite N2Z.inj_div. apply Z.div_lt_upper_bound; [lia|].
    change (Z.of_N 10) with 10. by rewrite <- Hpow. }
  pose proof (IH (x `div` 10)%N ltac:(apply N.div_lt; lia) (k - 1)
                (String (pretty_N_char (x `mod` 10)) s) ltac:(lia) Hdiv) as Hlen.
  cbn [String.length] in Hlen. lia.
Qed.

Lemma pretty_length (n k : Z) :
  1 ≤ k → 0 ≤ n < 10 ^ k → Z.of_nat (String.length (pretty n)) ≤ k.
Proof.
  intros Hk [Hn Hlt]. destruct n as [|p|p]; [|  | lia].
  - change (pretty 0) with "0". simpl. lia.
  - change (pretty (Z.pos p)) with (pretty_N_go (N.pos p) "").
    pose proof (pretty_N_go_length (N.pos p) k "" ltac:(lia) Hlt) as H.
    simpl in H. lia.
Qed.

(** [int] reads a numeral of at most 4300 digits back. *)
Lemma int_pretty (n : Z) :
  0 ≤ n < 10 ^ 4300 → Api.int (pretty n) = Ok n.
Proof.
  intros Hn. unfold Api.int.
  pose proof (pretty_length n 4300 ltac:(done) Hn) as Hlen.
  apply Z.ltb_ge in Hlen. rewrite Hlen.
  destruct Hn as [Hn _]. by destruct (pretty_numeral n Hn) as (_ & -> & _).
Qed.

Lemma append_assoc (a b c : string) : (a +:+ b) +:+ c = a +:+ (b +:+ c).
Proof.
  induction a as [|x a IH]; [done|].
  change (String x ((a +:+ b) +:+ c) = String x (a +:+ b +:+ c)). by f_equal.
Qed.

(** The parser reads a heading written as the page searches write it. *)
Lemma match_citation_heading (n : Z) (section rest : string) :
  0 ≤ n → section ≠ "" → Spec.no_bracket section = true →
  Api.match_citation
    (("**Page " +:+ pretty n +:+ "** [" +:+ section +:+ "]") +:+ rest)
  = Some (pretty n, section, rest).
Proof.
  intros Hn Hne Hsec.
  destruct (pretty_numeral n Hn) as (Hdigits & Hvalue & Htruthy).
  unfold Api.match_citation.
  rewrite !append_assoc, strip_prefix_app. cbn [mbind option_bind].
  rewrite span_app by done. rewrite Htruthy.
  rewrite strip_prefix_app. cbn [mbind option_bind].
  rewrite span_app; [|by apply all_no_bracket|done].
  destruct section as [|c section]; [done|]. cbn [Py.truthy].
  by rewrite strip_prefix_app.
Qed.

End parse.

(** X17. Every citation in a search result is well formed: whatever the
    final text, each entry of the [results] parsed from it has a page
    number that is not negative, a section that is not empty and holds no
    closing bracket, and a content of at most 500 characters. *)
Theorem citations_well_formed
    (final_text : string) (results : list Api.Citation) (c : Api.Citation) :
  Api.citations final_text = Ok results →
  c ∈ results →
  0 ≤ Api.cite_page_number c
  ∧ Api.cite_section c ≠ ""
  ∧ Spec.no_bracket (Api.cite_section c) = true
  ∧ (String.length (Api.cite_content c) ≤ 500)%nat.
Proof. apply citations_go_parts. Qed.

Lemma citations_well_formed_witness :
  let c := Api.mkCitation 12 "gameplay" "Skiing is the fastest way." in
  Api.citations "See **Page 12** [gameplay] Skiing is the fastest way. " = Ok [c]
  ∧ 0 ≤ Api.cite_page_number c
  ∧ Api.cite_section c ≠ ""
  ∧ Spec.no_bracket (Api.cite_section c) = true
  ∧ (String.length (Api.cite_content c) ≤ 500)%nat.
Proof.
  assert (H : Api.citations
                "See **Page 12** [gameplay] Skiing is the fastest way. "
              = Ok [Api.mkCitation 12 "gameplay" "Skiing is the fastest way."])
    by (vm_compute; reflexivity).
  split; [exact H|].
  exact (citations_well_formed _ _ _ H (list_elem_of_here _ _)).
Defined.

(** X18. An answer without an asterisk holds no citation, and the search
    result carries it whole: the parse succeeds, [results] is empty and
    [raw_response] is the answer itself. *)
Theorem plain_answer_returned_raw (query final_text : string) :
  Spec.no_asterisk final_text = true →
  Api.package query final_text
  = Ok (Api.mkSearchResult query [] (Some final_text)).
Proof.
  intros H. unfold Api.package, Api.citations.
  by rewrite citations_go_no_asterisk.
Qed.

Lemma plain_answer_returned_raw_witness :
  Api.package "skiing" "Skiing is covered on page 12."
  = Ok (Api.mkSearchResult "skiing" [] (Some "Skiing is covered on page 12.")).
Proof.
  apply (plain_answer_returned_raw "skiing" "Skiing is covered on page 12.").
  vm_compute. reflexivity.
Defined.

(** X19. The citation parser reads back the headings the page searches
    write.  A final text made of some words without an asterisk, then the
    first line of [row_lines] for a row whose page is not negative and
    below [10 ^ 4300] (a numeral of at most 4300 digits, the longest that
    [int] converts) and whose section is not empty and holds no closing
    bracket, then a body without an asterisk, is parsed without an
    exception into exactly one citation: the row's page and section, with
    the stripped body cut to 500 characters; and no raw response. *)
Theorem citation_reads_row_heading (query lead body : string) (r : Row) :
  0 ≤ r_page r < 10 ^ 4300 →
  r_section r ≠ "" → Spec.no_bracket (r_section r) = true →
  Spec.no_asterisk lead = true → Spec.no_asterisk body = true →
  ∀ heading, head (row_lines r) = Some heading →
  Api.package query (lead +:+ heading +:+ body)
  = Ok (Api.mkSearchResult query
          [Api.mkCitation (r_page r) (r_section r)
             (Py.prefix 500 (Py.strip body))]
          None).
Proof.
  intros Hn Hne Hsec Hlead Hbody heading [= <-].
  assert (Hgo : ∀ fuel,
            (String.length lead < fuel)%nat →
            Api.citations_go fuel
              (lead +:+ ("**Page " +:+ pretty (r_page r) +:+ "** ["
                         +:+ r_section r +:+ "]") +:+ body)
            = Ok [Api.mkCitation (r_page r) (r_section r)
                    (Py.prefix 500 (Py.strip body))]).
  { induction lead as [|c lead IH]; intros fuel Hfuel.
    - destruct fuel as [|fuel]; [simpl in Hfuel; lia|].
      cbn [Api.citations_go]. change ("" +:+ ?s) with s.
      rewrite match_citation_heading by (done || apply Hn).
      rewrite (int_pretty _ Hn).
      by rewrite before_marker_no_asterisk, citations_go_no_asterisk.
    - destruct fuel as [|fuel]; [simpl in Hfuel; lia|].
      simpl in Hlead. apply andb_prop in Hlead as [Hc Hlead].
      apply negb_true_iff in Hc.
      change (String c lead +:+ ?s) with (String c (lead +:+ s)).
      cbn [Api.citations_go]. rewrite match_citation_no_asterisk by done.
      apply IH; [done | simpl in Hfuel; lia]. }
  unfold Api.package, Api.citations. rewrite Hgo; [done|].
  clear. induction lead as [|c lead IH]; simpl; lia.
Qed.

Lemma citation_reads_row_heading_witness :
  Api.package "skiing"
    ("See " +:+ "**Page 12** [gameplay]" +:+ " Skiing is the fastest way. ")
  = Ok (Api.mkSearchResult "skiing"
          [Api.mkCitation 12 "gameplay" "Skiing is the fastest way."] None).
Proof.
  apply (citation_reads_row_heading "skiing" "See " " Skiing is the fastest way. "
           (mkRow 12 "gameplay" "...skiing..."));
    try (vm_compute; reflexivity).
  - split; vm_compute; [discriminate | reflexivity].
  - discriminate.
Defined.

(** ** Configuration, the section endpoint and the server's dispatch *)

Section strip.

Lemma rev_string_involutive (s : string) : Py.rev_string (Py.rev_string s) = s.
Proof.
  unfold Py.rev_string.
  by rewrite String.list_ascii_of_string_of_list_ascii, rev_involutive,
    String.string_of_list_ascii_of_string.
Qed.

Lemma string_of_list_app (a b : list ascii) :
  String.string_of_list_ascii (a ++ b)
  = String.string_of_list_ascii a +:+ String.string_of_list_ascii b.
Proof.
  induction a as [|c a IH]; [done|].
  change (String c (String.string_of_list_ascii (a ++ b))
          = String c (String.string_of_list_ascii a +:+ String.string_of_list_ascii b)).
  by f_equal.
Qed.

Lemma rev_string_app (a b : string) :
  Py.rev_string (a +:+ b) = Py.rev_string b +:+ Py.rev_string a.
Proof.
  unfold Py.rev_string. by rewrite list_ascii_app, rev_app_distr, string_of_list_app.
Qed.

(** What [lstrip] leaves is empty or starts with a character that is not
    white space. *)
Lemma lstrip_head (s : string) :
  Py.lstrip s = ""
  ∨ ∃ c s', Py.lstrip s = String c s' ∧ Py.is_space c = false.
Proof.
  induction s as [|c s IH]; [by left|]. simpl.
  destruct (Py.is_space c) eqn:Hc; [done|]. right. by exists c, s.
Qed.

(** Text that starts with a visible character and ends with a stripped,
    non-empty text has nothing to strip. *)
Lemma strip_app_stripped (c : ascii) (p q : string) :
  Py.is_space c = false → Py.truthy (Py.strip q) = true →
  Py.strip (String c p +:+ Py.strip q) = String c p +:+ Py.strip q.
Proof.
  intros Hc Hq. unfold Py.strip at 1.
  change (String c p +:+ Py.strip q) with (String c (p +:+ Py.strip q)) at 1.
  cbn [Py.lstrip]. rewrite Hc.
  change (String c (p +:+ Py.strip q)) with (String c p +:+ Py.strip q).
  rewrite rev_string_app.
  unfold Py.strip in Hq |- * at 1. rewrite rev_string_involutive.
  destruct (lstrip_head (Py.rev_string (Py.lstrip q))) as [E|(d & t & E & Hd)].
  - rewrite E in Hq. discriminate Hq.
  - rewrite E.
    change (String d t +:+ ?x) with (String d (t +:+ x)).
    cbn [Py.lstrip]. rewrite Hd.
    change (String d (t +:+ ?x)) with (String d t +:+ x).
    rewrite <- E. by rewrite rev_string_app, rev_string_involutive.
Qed.

End strip.

Lemma converse_first_request
    (db : option Database) (client : Client) (mdl : string) (max_tok limit : nat)
    (query : string) :
  ∃ rest, (Api.converse db client mdl max_tok limit query []).2
          = Spec.first_request mdl max_tok query :: rest.
Proof.
  rewrite converse_unfold. simpl. set (req := mkRequest _ _ _ _).
  destruct (client req) as [response|e]; [|by exists []].
  destruct (tool_rounds_bounded db client mdl max_tok limit response
              [mkMessage user (Text query)] [req]) as (ext & -> & _).
  by exists ext.
Qed.

(** X20. A blank key hides behind a healthy report.  The health endpoint
    reports the API as configured while no client can be built exactly
    when the key in force is the empty text: a key file that is blank
    (whatever the environment holds), or no key file and an empty
    variable.  In that state every search of a non-blank query fails with
    500 "API not configured" and makes no exchange, and a job ends failed
    with that message. *)
Theorem blank_key_reported_configured
    (anthropic : string → Client) (key_file env : option string)
    (db_file : bool) :
  (Api.api_configured (Api.health key_file env db_file) = true
   ∧ Api.get_client anthropic key_file env = None
   ↔ Api.get_api_key key_file env = Some "")
  ∧ (∀ text, key_file = Some text → Py.strip text = "" →
       Api.get_api_key key_file env = Some "")
  ∧ (Api.get_api_key key_file env = Some "" →
     ∀ db query, Py.truthy (Py.strip query) = true →
       Api.search_fast db (Api.get_client anthropic key_file env) query
       = (Api.Fail 500 "API not configured", [])
       ∧ Api.search db (Api.get_client anthropic key_file env) query
         = (Api.Fail 500 "API not configured", [])
       ∧ ∀ job_id search_jobs, is_Some (search_jobs !! job_id) →
           Api.run_search_job db (Api.get_client anthropic key_file env)
             job_id query search_jobs
           = (<[job_id := Api.error_job "API not configured"]> search_jobs, [])).
Proof.
  split; [|split].
  - unfold Api.health, Api.get_client. simpl.
    destruct (Api.get_api_key key_file env) as [key|]; simpl.
    + destruct key as [|c key]; simpl.
      * split; [done|]. intros _. by split.
      * split; [by intros [_ [=]] | by intros [=]].
    + split; [by intros [[=] _] | by intros [=]].
  - intros text -> Hblank. simpl. by rewrite Hblank.
  - intros Hkey db query Hq.
    assert (Api.get_client anthropic key_file env = None) as ->
      by (unfold Api.get_client; by rewrite Hkey).
    unfold Api.search_fast, Api.search, Api.run_search_job. rewrite Hq. simpl.
    split; [done|]. split; [done|].
    intros job_id search_jobs [job ->]. by rewrite insert_insert_eq.
Qed.

Lemma blank_key_reported_configured_witness :
  Api.api_configured (Api.health (Some Py.nl) (Some "sk-key") true) = true
  ∧ Api.search_fast (Some Sample.manual_db)
      (Api.get_client (λ _, Sample.eager_client) (Some Py.nl) (Some "sk-key"))
      "skiing"
    = (Api.Fail 500 "API not configured", []).
Proof.
  pose proof (blank_key_reported_configured (λ _, Sample.eager_client)
                (Some Py.nl) (Some "sk-key") true) as (Hiff & Hfile & Hsearch).
  assert (Hkey : Api.get_api_key (Some Py.nl) (Some "sk-key") = Some "")
    by (apply (Hfile Py.nl); [reflexivity | vm_compute; reflexivity]).
  split.
  - exact (proj1 (proj2 Hiff Hkey)).
  - apply (Hsearch Hkey (Some Sample.manual_db) "skiing"). vm_compute. reflexivity.
Defined.

(** X21. The section endpoint sends its own prompt.  For a query that is
    not blank, the first request of [/api/search/section] carries, as the
    only message, the text "Search the <section> section for: <query>"
    with the query stripped and the section as given (not checked against
    the valid sections); and a reply that succeeds echoes that prompt, not
    the query, in its [query] field.  A blank query is refused with 400
    before any exchange. *)
Theorem section_search_sends_prompt
    (db : option Database) (client : Client) (query section : string) :
  (Py.truthy (Py.strip query) = false →
   Api.search_section db (Some client) query section
   = (Api.Fail 400 "Query parameter required", []))
  ∧ (Py.truthy (Py.strip query) = true →
     let prompt := "Search the " +:+ section +:+ " section for: "
                   +:+ Py.strip query in
     (∃ rest, (Api.search_section db (Some client) query section).2
              = Spec.first_request Api.sonnet 2048 prompt :: rest)
     ∧ ∀ body, (Api.search_section db (Some client) query section).1
               = Api.Json body →
               Api.sr_query body = prompt).
Proof.
  split; intros Hq; unfold Api.search_section; rewrite Hq; cbn [negb]; [done|].
  pose proof (strip_app_stripped "S"%char
                ("earch the " +:+ section +:+ " section for: ") query
                eq_refl Hq) as Hstrip.
  change (String "S" ?p +:+ ?q) with (String "S" (p +:+ q)) in Hstrip.
  rewrite !append_assoc in Hstrip.
  change (String "S" ("earch the " +:+ ?x)) with ("Search the " +:+ x) in Hstrip.
  set (prompt := "Search the " +:+ section +:+ " section for: " +:+ Py.strip query)
    in *.
  assert (Ht : Py.truthy prompt = true) by reflexivity.
  unfold Api.search. rewrite Hstrip, Ht. cbn [negb].
  destruct (converse_first_request db client Api.sonnet 2048 5 prompt)
    as [rest Hrest].
  destruct (Api.converse db client Api.sonnet 2048 5 prompt [])
    as [[[response msgs]|e] log]; cbn [fst snd] in *.
  - split; [by exists rest|]. intros body Hbody. unfold Api.package in Hbody.
    destruct (Api.citations _) as [results|e];
      cbn [Api.answer mbind result_bind mret result_ret] in Hbody;
      [|discriminate Hbody].
    by injection Hbody as <-.
  - split; [by exists rest|]. intros body H. discriminate H.
Qed.

Lemma section_search_sends_prompt_witness :
  ∃ rest, (Api.search_section (Some Sample.manual_db) (Some Sample.direct_client)
             " skiing " "gameplay").2
          = Spec.first_request Api.sonnet 2048
              "Search the gameplay section for: skiing" :: rest.
Proof.
  apply (proj2 (section_search_sends_prompt (Some Sample.manual_db)
                  Sample.direct_client " skiing " "gameplay")).
  vm_compute. reflexivity.
Defined.

(** X22. The server serves what it declares.  For every tool that
    [list_tools] declares, [required] is the list declared for it, and a
    call made while the database cannot be opened returns one text, the
    error message behind "Error: ", whatever the arguments; a name that is
    not declared returns one text, "Unknown tool: <name>", whatever the
    database. *)
Theorem declared_tools_are_served (name : string) (arguments : ToolInput) :
  (∀ req msg, (name, req) ∈ Server.list_tools →
     Server.required name = req
     ∧ Server.call_tool (Raise msg) name arguments
       = [Server.mkTextContent (Server.error_text msg)])
  ∧ (∀ conn, name ∉ Server.list_tools.*1 →
     Server.call_tool conn name arguments
     = [Server.mkTextContent ("Unknown tool: " +:+ name)]).
Proof.
  split.
  - intros req msg Hin. unfold Server.list_tools in Hin.
    set_unfold in Hin. destruct_or?; simplify_eq; by split.
  - intros conn Hout. unfold Server.list_tools in Hout. simpl in Hout.
    unfold Server.call_tool.
    repeat (destruct (decide _) as [->|?];
            [exfalso; apply Hout, list_elem_of_In; vm_compute; tauto|]).
    done.
Qed.

Lemma declared_tools_are_served_witness :
  Server.required "can_recruit" = ["recruiter"; "target"]
  ∧ Server.call_tool (Raise "unable to open database file") "can_recruit" no_input
    = [Server.mkTextContent "Error: unable to open database file"]
  ∧ Server.call_tool (Ok Sample.graph_db) "recruit" no_input
    = [Server.mkTextContent "Unknown tool: recruit"].
Proof.
  destruct (declared_tools_are_served "can_recruit" no_input) as [Hin _].
  destruct (declared_tools_are_served "recruit" no_input) as [_ Hout].
  destruct (Hin ["recruiter"; "target"] "unable to open database file")
    as [H1 H2]; [apply list_elem_of_In; vm_compute; tauto|].
  split; [exact H1|]. split; [exact H2|].
  apply Hout. intros H. apply list_elem_of_In in H. vm_compute in H.
  repeat (destruct H as [H|H]; [discriminate H|]). exact H.
Defined.

(** ** The entity listing *)

Section entities.

Global Instance by_name_total : Total Server.by_name.
Proof.
  intros a b. unfold Server.by_name.
  destruct (String.leb_total a b) as [H|H]; rewrite H; [by left | by right].
Qed.

End entities.

(** X23. The entity listing shows every table whole and in order.  Each
    of the four lists is a rearrangement of its table's name column,
    sorted by byte order, so every name is printed as often as the table
    holds it; the number in each heading is the size of the table; and
    the SKILLS part is printed exactly when the skills table has rows. *)
Theorem entity_listing_whole_and_sorted (db : Database) :
  ∃ chars builds vehicles skill_names,
    (chars ≡ₚ full_name <$> characters db ∧ Sorted Server.by_name chars)
    ∧ (builds ≡ₚ building_type <$> buildings db ∧ Sorted Server.by_name builds)
    ∧ (vehicles ≡ₚ vehicle_type <$> enemy_vehicles db
       ∧ Sorted Server.by_name vehicles)
    ∧ (skill_names ≡ₚ skill_name <$> skills db
       ∧ Sorted Server.by_name skill_names)
    ∧ Server.list_entities_query (Ok db)
      = Py.join Py.nl
          ([ "=== CHARACTERS (" +:+ pretty (length (characters db)) +:+ ") ===";
             Py.join ", " chars;
             Py.nl +:+ "=== BUILDINGS (" +:+ pretty (length (buildings db))
             +:+ ") ===";
             Py.join ", " builds;
             Py.nl +:+ "=== ENEMY VEHICLES ("
             +:+ pretty (length (enemy_vehicles db)) +:+ ") ===";
             Py.join ", " vehicles ]
           ++ (if decide (skills db = []) then []
               else [ Py.nl +:+ "=== SKILLS (" +:+ pretty (length (skills db))
                      +:+ ") ===";
                      Py.join ", " skill_names ])).
Proof.
  exists (merge_sort Server.by_name (full_name <$> characters db)),
         (merge_sort Server.by_name (building_type <$> buildings db)),
         (merge_sort Server.by_name (vehicle_type <$> enemy_vehicles db)),
         (merge_sort Server.by_name (skill_name <$> skills db)).
  repeat split; try apply merge_sort_Permutation; try apply (Sorted_merge_sort _).
  unfold Server.list_entities_query.
  pose proof (merge_sort_Permutation Server.by_name (skill_name <$> skills db))
    as Hs.
  assert (Hlen : ∀ l : list string,
            length (merge_sort Server.by_name l) = length l)
    by (intros l; apply Permutation_length, merge_sort_Permutation).
  rewrite !Hlen, !length_fmap.
  destruct (decide (skills db = [])) as [E|E].
  - assert (Hnil : merge_sort Server.by_name (skill_name <$> skills db) = [])
      by (rewrite E; reflexivity).
    by rewrite Hnil.
  - destruct (merge_sort Server.by_name (skill_name <$> skills db)) eqn:Hm; [|done].
    apply Permutation_nil_l in Hs. symmetry in Hs. by apply fmap_nil_inv in Hs.
Qed.
